(** * DEV.to news service: telemetry export into MongoDB

    A shallow embedding of [app/telemetry.py] and [app/main.py].

    Python values that end up in documents are a small tree type; the
    effectful functions run in a state-and-exception monad over a [World]
    that holds the process globals and a chronological trace of the calls
    made to the collaborators (pymongo, httpx, the OpenTelemetry SDK) and
    of the logging calls.  What the collaborators answer is given by a
    record of [Externals].  The logging package is embedded as far as the
    program drives it: levels, the handlers of the root logger, and the
    way a record reaches [MongoLoggingHandler.emit]. *)

From Stdlib Require Import ZArith List Ascii String Lia Bool DecimalString.
From stdpp Require Import base gmap strings list.

Import ListNotations.
Set Warnings "-register-all".
Local Open Scope string_scope.
Local Open Scope list_scope.
Local Open Scope Z_scope.

(** ** Python's [format(n, "0Wx")] *)

Module PyFormat.

Definition hex_alphabet : list ascii :=
  list_ascii_of_string "0123456789abcdef".

Definition hex_digit (d : Z) : ascii :=
  nth (Z.to_nat d) hex_alphabet "0"%char.

(** Digits of a non-negative integer, most significant first: the usual
    divide-by-base loop, the accumulator receiving the low digit first. *)
Fixpoint hex_loop (fuel : nat) (n : Z) (acc : list ascii) : list ascii :=
  match fuel with
  | O => acc
  | S fuel' =>
      let acc' := hex_digit (n mod 16) :: acc in
      if n / 16 =? 0 then acc' else hex_loop fuel' (n / 16) acc'
  end.

(** [format(n, "x")] for [0 <= n]; the bit length bounds the digit count. *)
Definition hex_of_nonneg (n : Z) : list ascii :=
  hex_loop (S (Z.to_nat (Z.log2 n))) n [].

(** Zero fill on the left up to a minimum width; longer input is kept. *)
Definition zfill (width : nat) (digits : list ascii) : list ascii :=
  repeat "0"%char (width - length digits) ++ digits.

(** [format(n, "0Wx")]: sign-aware zero padding to the minimum width [W],
    lowercase hexadecimal.  The sign, when there is one, counts in the
    width. *)
Definition format_0x (width : nat) (n : Z) : string :=
  string_of_list_ascii
    (if n <? 0
     then "-"%char :: zfill (width - 1) (hex_of_nonneg (- n))
     else zfill width (hex_of_nonneg n)).

Definition is_lower_hex (c : ascii) : bool :=
  let k := Z.of_nat (nat_of_ascii c) in
  ((48 <=? k) && (k <=? 57)) || ((97 <=? k) && (k <=? 102)).

(** A lowercase hexadecimal string of exactly [width] characters. *)
Definition fixed_hex (width : nat) (s : string) : bool :=
  (length (list_ascii_of_string s) =? width)%nat
  && forallb is_lower_hex (list_ascii_of_string s).

(** Value of a digit string, for the round trip. *)
Definition hex_digit_value (c : ascii) : Z :=
  let k := Z.of_nat (nat_of_ascii c) in
  if k <=? 57 then k - 48 else k - 87.

Definition hex_value (digits : list ascii) : Z :=
  fold_left (fun v c => 16 * v + hex_digit_value c) digits 0.

End PyFormat.

(** ** Python values stored in documents *)

(** Floats and datetimes are only ever copied by the code, so they are
    carried by their bit pattern.  A [VDict] keeps insertion order.  A
    [VObject] is any other Python object (an exception, a traceback), by
    the text [str()] gives for it. *)
Inductive value : Type :=
| VNone
| VBool (b : bool)
| VInt (n : Z)
| VFloat (bits : Z)
| VStr (s : string)
| VDatetime (bits : Z)
| VTuple (items : list value)
| VList (items : list value)
| VDict (items : list (string * value))
| VObject (text : string).

Definition pydict : Type := list (string * value).

Fixpoint dict_get (key : string) (d : pydict) : option value :=
  match d with
  | [] => None
  | (k, v) :: rest => if String.eqb k key then Some v else dict_get key rest
  end.

(** [d[key] = v]: overwrite in place when the key exists, else append. *)
Fixpoint dict_set (key : string) (v : value) (d : pydict) : pydict :=
  match d with
  | [] => [(key, v)]
  | (k, old) :: rest =>
      if String.eqb k key then (k, v) :: rest
      else (k, old) :: dict_set key v rest
  end.

(** [v[key]] on a value that is a dict; [None] stands for a failed lookup. *)
Definition vget (key : string) (v : value) : option value :=
  match v with
  | VDict items => dict_get key items
  | _ => None
  end.

Fixpoint vpath (path : list string) (v : value) : option value :=
  match path with
  | [] => Some v
  | key :: rest =>
      match vget key v with
      | Some v' => vpath rest v'
      | None => None
      end
  end.

Definition of_option {A} (inj : A -> value) (o : option A) : value :=
  match o with
  | Some a => inj a
  | None => VNone
  end.

(** [list(value) if isinstance(value, (list, tuple)) else value] *)
Definition listify (v : value) : value :=
  match v with
  | VTuple items => VList items
  | VList items => VList items
  | other => other
  end.

(** [_serialize_attributes] *)
Definition _serialize_attributes (attributes : pydict) : pydict :=
  fold_left (fun serialized kv => dict_set (fst kv) (listify (snd kv)) serialized)
            attributes [].

(** ** Spans (opentelemetry.sdk.trace.ReadableSpan) *)

Inductive SpanKind := INTERNAL | SERVER | CLIENT | PRODUCER | CONSUMER.

Definition SpanKind_name (k : SpanKind) : string :=
  match k with
  | INTERNAL => "INTERNAL"
  | SERVER => "SERVER"
  | CLIENT => "CLIENT"
  | PRODUCER => "PRODUCER"
  | CONSUMER => "CONSUMER"
  end.

Inductive StatusCode := UNSET | OK | ERROR.

Definition StatusCode_name (c : StatusCode) : string :=
  match c with
  | UNSET => "UNSET"
  | OK => "OK"
  | ERROR => "ERROR"
  end.

(** The identifiers are Python [int]s: unbounded, and nothing in the
    exporter checks their range. *)
Record SpanContext := {
  trace_id : Z;
  span_id : Z;
  trace_state : list (string * string)
}.

Record Status := {
  status_code : StatusCode;
  description : option string
}.

Record SpanEvent := {
  event_name : string;
  event_timestamp : Z;
  event_attributes : pydict
}.

Record Link := {
  link_context : SpanContext;
  link_attributes : option pydict
}.

Record ReadableSpan := {
  span_name : string;
  span_context : SpanContext;
  span_parent : option SpanContext;
  span_kind : SpanKind;
  span_start_time : option Z;
  span_end_time : option Z;
  span_status : Status;
  span_attributes : pydict;
  span_events : list SpanEvent;
  span_links : list Link
}.

Fixpoint join (sep : string) (parts : list string) : string :=
  match parts with
  | [] => ""
  | [p] => p
  | p :: rest => p +:+ sep +:+ join sep rest
  end.

(** [TraceState.to_header] *)
Definition to_header (ts : list (string * string)) : string :=
  join "," (map (fun kv => fst kv +:+ "=" +:+ snd kv) ts).

Definition event_document (event : SpanEvent) : value :=
  VDict [ ("name", VStr (event_name event));
          ("timestamp", VInt (event_timestamp event));
          ("attributes", VDict (_serialize_attributes (event_attributes event))) ].

Definition link_document (link : Link) : value :=
  VDict [ ("context",
           VDict [ ("trace_id", VStr (PyFormat.format_0x 32 (trace_id (link_context link))));
                   ("span_id", VStr (PyFormat.format_0x 16 (span_id (link_context link)))) ]);
          ("attributes",
           VDict (_serialize_attributes
                    (match link_attributes link with
                     | Some (kv :: rest) => kv :: rest
                     | _ => []
                     end))) ].

(** The dictionary appended for one span in [MongoSpanExporter.export]. *)
Definition span_document (span : ReadableSpan) : value :=
  let span_context := span_context span in
  let parent := span_parent span in
  VDict [ ("name", VStr (span_name span));
          ("context",
           VDict [ ("trace_id", VStr (PyFormat.format_0x 32 (trace_id span_context)));
                   ("span_id", VStr (PyFormat.format_0x 16 (span_id span_context)));
                   ("trace_state", VStr (to_header (trace_state span_context))) ]);
          ("parent_span_id",
           match parent with
           | None => VNone
           | Some p => VStr (PyFormat.format_0x 16 (span_id p))
           end);
          ("kind", VStr (SpanKind_name (span_kind span)));
          ("start_time", of_option VInt (span_start_time span));
          ("end_time", of_option VInt (span_end_time span));
          ("status",
           VDict [ ("status_code", VStr (StatusCode_name (status_code (span_status span))));
                   ("description", of_option VStr (description (span_status span))) ]);
          ("attributes", VDict (_serialize_attributes (span_attributes span)));
          ("events", VList (map event_document (span_events span)));
          ("links", VList (map link_document (span_links span))) ].

(** The [for span in spans: documents.append(...)] loop. *)
Definition span_documents (spans : list ReadableSpan) : list value :=
  fold_left (fun documents span => documents ++ [span_document span]) spans [].

(** ** Metrics (opentelemetry.sdk.metrics.export.MetricsData) *)

(** The SDK's data point classes with the attributes each one carries. *)
Inductive DataPoint : Type :=
| NumberDataPoint
    (attributes : pydict) (start_time_unix_nano time_unix_nano : Z)
    (value : value)
| HistogramDataPoint
    (attributes : pydict) (start_time_unix_nano time_unix_nano : Z)
    (count : Z) (sum : value) (bucket_counts : list Z)
    (explicit_bounds : list value) (min max : value)
| ExponentialHistogramDataPoint
    (attributes : pydict) (start_time_unix_nano time_unix_nano : Z)
    (count : Z) (sum : value) (scale zero_count : Z)
    (positive negative : Z * list Z) (flags : Z) (min max : value).

Definition buckets_value (b : Z * list Z) : value :=
  VDict [ ("offset", VInt (fst b));
          ("bucket_counts", VTuple (map VInt (snd b))) ].

(** [getattr(point, name)] when [hasattr(point, name)], else [None]. *)
Definition point_getattr (point : DataPoint) (name : string) : option value :=
  let common attributes start_time time :=
    if String.eqb name "attributes" then Some (VDict attributes)
    else if String.eqb name "start_time_unix_nano" then Some (VInt start_time)
    else if String.eqb name "time_unix_nano" then Some (VInt time)
    else None in
  match point with
  | NumberDataPoint a st t v =>
      if String.eqb name "value" then Some v else common a st t
  | HistogramDataPoint a st t count sum bucket_counts explicit_bounds min max =>
      if String.eqb name "count" then Some (VInt count)
      else if String.eqb name "sum" then Some sum
      else if String.eqb name "bucket_counts" then Some (VTuple (map VInt bucket_counts))
      else if String.eqb name "explicit_bounds" then Some (VTuple explicit_bounds)
      else if String.eqb name "min" then Some min
      else if String.eqb name "max" then Some max
      else common a st t
  | ExponentialHistogramDataPoint a st t count sum scale zero_count
                                  positive negative flags min max =>
      if String.eqb name "count" then Some (VInt count)
      else if String.eqb name "sum" then Some sum
      else if String.eqb name "scale" then Some (VInt scale)
      else if String.eqb name "zero_count" then Some (VInt zero_count)
      else if String.eqb name "positive" then Some (buckets_value positive)
      else if String.eqb name "negative" then Some (buckets_value negative)
      else if String.eqb name "flags" then Some (VInt flags)
      else if String.eqb name "min" then Some min
      else if String.eqb name "max" then Some max
      else common a st t
  end.

Record Metric := {
  metric_name : string;
  metric_description : option string;
  metric_unit : option string;
  data_points : list DataPoint
}.

Record InstrumentationScope := {
  scope_name : string;
  scope_version : option string
}.

Record ScopeMetrics := {
  scope : InstrumentationScope;
  metrics : list Metric
}.

Record ResourceMetrics := {
  resource_attributes : pydict;
  scope_metrics : list ScopeMetrics
}.

Record MetricsData := {
  resource_metrics : list ResourceMetrics
}.

Definition payload_attr_names : list string :=
  [ "value"; "count"; "sum"; "min"; "max"; "last"; "bucket_counts"; "boundaries" ].

(** The dictionary built for one data point. *)
Definition point_payload (point : DataPoint) : value :=
  let initial : pydict :=
    [ ("time_unix_nano",
       match point_getattr point "time_unix_nano" with Some v => v | None => VNone end);
      ("start_time_unix_nano",
       match point_getattr point "start_time_unix_nano" with Some v => v | None => VNone end);
      ("attributes",
       VDict (_serialize_attributes
                (match point_getattr point "attributes" with
                 | Some (VDict a) => a
                 | _ => []
                 end))) ] in
  VDict (fold_left
           (fun payload attr_name =>
              match point_getattr point attr_name with
              | Some v => dict_set attr_name (listify v) payload
              | None => payload
              end)
           payload_attr_names initial).

(** The inner [for point in metric.data.data_points] loop. *)
Definition datapoints_of (metric : Metric) : list value :=
  fold_left (fun datapoints point => datapoints ++ [point_payload point])
            (data_points metric) [].

Definition scope_info (s : InstrumentationScope) : value :=
  VDict [ ("name", VStr (scope_name s));
          ("version", of_option VStr (scope_version s)) ].

Definition metric_document (resource_attrs : pydict) (scope_info : value)
    (metric : Metric) : value :=
  VDict [ ("name", VStr (metric_name metric));
          ("description", of_option VStr (metric_description metric));
          ("unit", of_option VStr (metric_unit metric));
          ("resource", VDict resource_attrs);
          ("instrumentation_scope", scope_info);
          ("data", VList (datapoints_of metric)) ].

(** The three nested loops of [MongoMetricExporter.export]: one document is
    appended per metric, whatever the length of its datapoint list. *)
Definition metric_documents (metrics_data : MetricsData) : list value :=
  fold_left
    (fun documents rm =>
       let resource_attrs := _serialize_attributes (resource_attributes rm) in
       fold_left
         (fun documents sm =>
            let info := scope_info (scope sm) in
            fold_left
              (fun documents metric =>
                 documents ++ [metric_document resource_attrs info metric])
              (metrics sm) documents)
         (scope_metrics rm) documents)
    (resource_metrics metrics_data) [].

(** ** Exceptions and outcomes *)

(** Exceptions, by the classes the [except] clauses tell apart. *)
Inductive exn : Type :=
| PyMongoError (msg : string)                  (* pymongo.errors.PyMongoError *)
| HTTPStatusError (status_code : Z) (msg : string)  (* httpx; exc.response.status_code *)
| RequestError (msg : string)                  (* httpx.RequestError *)
| HTTPException (status_code : Z) (detail : string) (* fastapi *)
| OtherError (class_name msg : string).        (* ValueError, TypeError, ... *)

Definition exn_str (e : exn) : string :=
  match e with
  | PyMongoError msg => msg
  | HTTPStatusError _ msg => msg
  | RequestError msg => msg
  | HTTPException _ detail => detail
  | OtherError _ msg => msg
  end.

Inductive outcome (A : Type) : Type :=
| Return (a : A)
| Raise (e : exn).
Arguments Return {A} a.
Arguments Raise {A} e.

Definition obind {A B} (o : outcome A) (k : A -> outcome B) : outcome B :=
  match o with
  | Return a => k a
  | Raise e => Raise e
  end.

(** ** Log records (logging.LogRecord) *)

(** What a handler can read from a record.  [getMessage()] and the
    conversion of [created] to a datetime are calls that may raise, so the
    record carries their outcome; [exc_info] is kept by its truth value,
    [None] standing for [None] or any falsy value. *)
Record LogRecord := {
  record_name : string;
  record_levelname : string;
  record_levelno : Z;
  record_getMessage : outcome string;   (* record.getMessage() *)
  record_created_at : outcome Z;        (* datetime.utcfromtimestamp(record.created) *)
  record_pathname : string;
  record_lineno : Z;
  record_funcName : string;
  record_process : option Z;
  record_thread : option Z;
  record_module : string;
  record_processName : option string;
  record_args : value;
  record_exc_info : option value
}.

(** [self.formatException]: [logging.Handler] has no such method (it is a
    method of [logging.Formatter]), so the attribute lookup raises. *)
Definition attribute_error : exn :=
  OtherError "AttributeError"
    "'MongoLoggingHandler' object has no attribute 'formatException'".

(** The dictionary of [MongoLoggingHandler.emit], once the message and the
    datetime are there; it is only completed for a record without
    [exc_info], so its [exception] is [None]. *)
Definition log_document (record : LogRecord) (message : string) (created_at : Z)
  : value :=
  VDict [ ("logger", VStr (record_name record));
          ("level", VStr (record_levelname record));
          ("message", VStr message);
          ("created_at", VDatetime created_at);
          ("pathname", VStr (record_pathname record));
          ("lineno", VInt (record_lineno record));
          ("funcName", VStr (record_funcName record));
          ("process", of_option VInt (record_process record));
          ("thread", of_option VInt (record_thread record));
          ("module", VStr (record_module record));
          ("processName", of_option VStr (record_processName record));
          ("args",
           match record_args record with
           | VTuple items => VList items
           | other => other
           end);
          ("exception", VNone) ].

(** Building that dictionary, entry by entry in the order of the source:
    [getMessage()], then the datetime, then, for a record with [exc_info],
    the lookup of [self.formatException]. *)
Definition build_log_document (record : LogRecord) : outcome value :=
  obind (record_getMessage record) (fun message =>
  obind (record_created_at record) (fun created_at =>
  match record_exc_info record with
  | Some _ => Raise attribute_error
  | None => Return (log_document record message created_at)
  end)).

(** ** The process state and the collaborators *)

(** A [MongoClient(...)] call: positional and keyword arguments. *)
Record MongoClientCall := {
  positional : list value;
  keywords : pydict
}.

Record MongoClient := {
  client_id : nat;                (* object identity: position of its creation *)
  client_call : MongoClientCall
}.

Record Database := { db_client : MongoClient; db_name : string }.
Record Collection := { col_database : Database; col_name : string }.

Inductive SpanExporter := MongoSpanExporter (collection : Collection).
Inductive SpanProcessor := BatchSpanProcessor (exporter : SpanExporter).
Inductive MetricExporter := MongoMetricExporter (collection : Collection).
Inductive MetricReader := PeriodicExportingMetricReader (exporter : MetricExporter).

Record TracerProvider := {
  tracer_resource : pydict;
  span_processors : list SpanProcessor
}.

Record MeterProvider := {
  meter_resource : pydict;
  metric_readers : list MetricReader
}.

(** The handlers of the root logger: the stream handler of [basicConfig],
    and the database handler with the collection it writes to and its
    level. *)
Inductive Handler :=
| StreamHandler
| MongoLoggingHandler (collection : Collection) (level : Z).

Definition is_mongo_handler (h : Handler) : bool :=
  match h with
  | MongoLoggingHandler _ _ => true
  | StreamHandler => false
  end.

(** The trace: the calls to the collaborators in the order they are made,
    and, as [CallLog], the logging calls of the two modules of the program
    (logger name, level name, formatted message); what a logging handler
    then does shows as its own calls. *)
Inductive Call : Type :=
| CallMongoClient (call : MongoClientCall)
| CallInsertOne (collection : Collection) (document : value)
| CallInsertMany (collection : Collection) (documents : list value)
| CallLog (logger level message : string)
| CallHandleError (record : LogRecord)
| CallCounterAdd (counter : string) (amount : Z) (attributes : pydict)
| CallSpanStart (name : string)
| CallSpanSetAttribute (key : string) (v : value)
| CallSpanEnd (name : string) (error : option exn)
| CallHttpGet (url : string) (params : pydict) (timeout : Z).

Record World := {
  environ : gmap string string;               (* os.environ *)
  _client : option MongoClient;               (* the module global *)
  root_level : option Z;                      (* None: never set, WARNING *)
  root_handlers : list Handler;
  logger_levels : gmap string Z;              (* levels set on named loggers *)
  logger_propagate : gmap string bool;
  tracer_provider_global : option TracerProvider;  (* set once *)
  meter_provider_global : option MeterProvider;
  calls : list Call
}.

Inductive HttpOutcome : Type :=
| HttpResponse (status_code : Z) (json : option value)
| HttpRaises (e : exn).

(** What the logging package stamps on a record it creates. *)
Record RecordStamp := {
  stamp_created : Z;                (* the datetime of time.time(), by its bits *)
  stamp_pathname : string;
  stamp_lineno : Z;
  stamp_funcName : string;
  stamp_process : option Z;
  stamp_thread : option Z;
  stamp_module : string;
  stamp_processName : option string
}.

(** What the outside answers, possibly depending on the calls so far.
    [None] in a [_raises] field means that the call returns normally.
    The last two fields are the Python runtime on text that the embedding
    does not decide itself: [int()] on text that is not plain ASCII of at
    most 4300 characters (Unicode digits and white space, the
    interpreter's digit limit), and [str.upper()] on text that is not
    ASCII. *)
Record Externals := {
  mongo_client_raises : list Call -> MongoClientCall -> option exn;
  database_raises : string -> option exn;      (* client[db_name] *)
  collection_raises : string -> option exn;    (* database[name] *)
  insert_one_raises : list Call -> Collection -> value -> option exn;
  insert_many_raises : list Call -> Collection -> list value -> option exn;
  http_get : list Call -> string -> pydict -> HttpOutcome;
  record_stamp : list Call -> RecordStamp;
  int_beyond : string -> outcome Z;
  upper_beyond : string -> string
}.

(** *** The monad *)

Definition M (A : Type) : Type := World -> outcome A * World.

Definition ret {A} (a : A) : M A := fun w => (Return a, w).

Definition bind {A B} (c : M A) (k : A -> M B) : M B :=
  fun w =>
    match c w with
    | (Return a, w') => k a w'
    | (Raise e, w') => (Raise e, w')
    end.

Definition raise {A} (e : exn) : M A := fun w => (Raise e, w).

(** [try: c  except <class>: handler], the handler choosing by [None] the
    exceptions it lets through. *)
Definition try_except {A} (c : M A) (handler : exn -> option (M A)) : M A :=
  fun w =>
    match c w with
    | (Return a, w') => (Return a, w')
    | (Raise e, w') =>
        match handler e with
        | Some h => h w'
        | None => (Raise e, w')
        end
    end.

Declare Scope py_scope.
Delimit Scope py_scope with py.
Notation "x <- c ;; k" := (bind c (fun x => k))
  (at level 100, c at next level, right associativity) : py_scope.
Notation "c ;;; k" := (bind c (fun _ => k))
  (at level 100, right associativity) : py_scope.
Local Open Scope py_scope.

Definition get_world : M World := fun w => (Return w, w).

Definition set_calls (cs : list Call) (w : World) : World :=
  {| environ := environ w; _client := _client w;
     root_level := root_level w; root_handlers := root_handlers w;
     logger_levels := logger_levels w;
     logger_propagate := logger_propagate w;
     tracer_provider_global := tracer_provider_global w;
     meter_provider_global := meter_provider_global w;
     calls := cs |}.

Definition record_call (c : Call) : M unit :=
  fun w => (Return tt, set_calls (calls w ++ [c]) w).

(** A call that either returns [None] or raises what the outside says. *)
Definition external (c : Call) (raises : list Call -> option exn) : M unit :=
  before <- get_world ;;
  record_call c ;;;
  match raises (calls before) with
  | Some e => raise e
  | None => ret tt
  end.

(** [os.getenv(name)] and [os.getenv(name, default)] *)
Definition getenv (name : string) : M (option string) :=
  fun w => (Return (environ w !! name), w).

Definition env_or (w : World) (name default : string) : string :=
  match environ w !! name with
  | Some v => v
  | None => default
  end.

Definition getenv_default (name default : string) : M string :=
  fun w => (Return (env_or w name default), w).

Definition lift {A} (o : outcome A) : M A := fun w => (o, w).

(** ** Small pieces of the Python runtime *)

Module Py.

(** White space that [int()] skips around an ASCII literal. *)
Definition is_space (c : ascii) : bool :=
  let k := nat_of_ascii c in
  ((9 <=? k) && (k <=? 13) || (k =? 32))%nat.

Definition is_digit (c : ascii) : bool :=
  let k := nat_of_ascii c in ((48 <=? k) && (k <=? 57))%nat.

Fixpoint lstrip (s : list ascii) : list ascii :=
  match s with
  | c :: rest => if is_space c then lstrip rest else s
  | [] => []
  end.

Definition strip (s : list ascii) : list ascii :=
  rev (lstrip (rev (lstrip s))).

(** Decimal digits with single underscores allowed between digits;
    [after_digit] says whether the previous character was a digit. *)
Fixpoint digits_value (s : list ascii) (after_digit : bool) (acc : Z) : option Z :=
  match s with
  | [] => if after_digit then Some acc else None
  | c :: rest =>
      if is_digit c
      then digits_value rest true (10 * acc + (Z.of_nat (nat_of_ascii c) - 48))
      else if Ascii.eqb c "_" && after_digit
           then match rest with
                | d :: _ => if is_digit d then digits_value rest false acc else None
                | [] => None
                end
           else None
  end.

(** [int(s)] for an ASCII string; [None] is [ValueError]. *)
Definition int (s : string) : option Z :=
  match strip (list_ascii_of_string s) with
  | "-"%char :: rest => option_map Z.opp (digits_value rest false 0)
  | "+"%char :: rest => digits_value rest false 0
  | body => digits_value body false 0
  end.

Definition is_ascii (c : ascii) : bool := (nat_of_ascii c <? 128)%nat.

Definition all_ascii (s : string) : bool :=
  forallb is_ascii (list_ascii_of_string s).

(** Text on which [int] above is Python's [int()]: ASCII, and short enough
    for the digit limit of the interpreter not to matter. *)
Definition is_plain (s : string) : bool :=
  all_ascii s && (length (list_ascii_of_string s) <=? 4300)%nat.

Definition double_quote : ascii := ascii_of_nat 34.
Definition backslash : ascii := ascii_of_nat 92.

(** [repr(s)] for an ASCII string: single quotes unless the text has a
    single quote and no double quote; the quote, the backslash and the
    control characters escaped. *)
Definition repr_quote (s : list ascii) : ascii :=
  if existsb (Ascii.eqb "'"%char) s && negb (existsb (Ascii.eqb double_quote) s)
  then double_quote else "'"%char.

Definition repr_char (quote c : ascii) : list ascii :=
  let k := nat_of_ascii c in
  if Ascii.eqb c quote || Ascii.eqb c backslash then [backslash; c]
  else if (k =? 9)%nat then [backslash; "t"%char]
  else if (k =? 10)%nat then [backslash; "n"%char]
  else if (k =? 13)%nat then [backslash; "r"%char]
  else if ((k <? 32) || (k =? 127))%nat
       then [backslash; "x"%char;
             PyFormat.hex_digit (Z.of_nat (k / 16));
             PyFormat.hex_digit (Z.of_nat (k mod 16))]
       else [c].

Definition repr (s : string) : string :=
  let chars := list_ascii_of_string s in
  let quote := repr_quote chars in
  string_of_list_ascii (quote :: flat_map (repr_char quote) chars ++ [quote]).

(** The first [n] characters, as [%.200R] cuts a [repr] in a message. *)
Definition truncate (n : nat) (s : string) : string :=
  string_of_list_ascii (firstn n (list_ascii_of_string s)).

Definition upper_char (c : ascii) : ascii :=
  let k := nat_of_ascii c in
  if ((97 <=? k) && (k <=? 122))%nat then ascii_of_nat (k - 32) else c.

(** [s.upper()] on ASCII. *)
Definition upper (s : string) : string :=
  string_of_list_ascii (map upper_char (list_ascii_of_string s)).

(** Truth value of an [Optional[str]]: set and not empty. *)
Definition truthy (o : option string) : bool :=
  match o with
  | Some s => negb (String.eqb s "")
  | None => false
  end.

End Py.

(** ** The logging package *)

Definition WARNING : Z := 30.
Definition INFO : Z := 20.

Module LogLevel.
Definition DEBUG : Z := 10.
Definition ERROR : Z := 40.

(** [logging.getLevelName] of a number. *)
Definition name (levelno : Z) : string :=
  if levelno =? 50 then "CRITICAL"
  else if levelno =? 40 then "ERROR"
  else if levelno =? 30 then "WARNING"
  else if levelno =? 20 then "INFO"
  else if levelno =? 10 then "DEBUG"
  else if levelno =? 0 then "NOTSET"
  else "Level " +:+ NilZero.string_of_int (Z.to_int levelno).
End LogLevel.

(** What can be passed for a level: an integer, a string, or some other
    object (by its [repr]). *)
Inductive LevelArg : Type :=
| LevelInt (n : Z)
| LevelStr (s : string)
| LevelOther (repr : string).

(** [logging._nameToLevel] *)
Definition nameToLevel (name : string) : option Z :=
  if String.eqb name "CRITICAL" then Some 50
  else if String.eqb name "FATAL" then Some 50
  else if String.eqb name "ERROR" then Some 40
  else if String.eqb name "WARN" then Some 30
  else if String.eqb name "WARNING" then Some 30
  else if String.eqb name "INFO" then Some 20
  else if String.eqb name "DEBUG" then Some 10
  else if String.eqb name "NOTSET" then Some 0
  else None.

Definition BASIC_FORMAT : string := "%(levelname)s:%(name)s:%(message)s".

Definition STYLES_repr : string :=
  "{'%': (<class 'logging.PercentStyle'>, '%(levelname)s:%(name)s:%(message)s'), '{': (<class 'logging.StrFormatStyle'>, '{levelname}:{name}:{message}'), '$': (<class 'logging.StringTemplateStyle'>, '${levelname}:${name}:${message}')}".

(** [getattr(logging, name, logging.INFO)] for a name without lowercase
    letters: the level constants are integers, but the module also has
    [BASIC_FORMAT], a string, and [_STYLES], a dict. *)
Definition getattr_logging (name : string) : LevelArg :=
  match nameToLevel name with
  | Some level => LevelInt level
  | None =>
      if String.eqb name "BASIC_FORMAT" then LevelStr BASIC_FORMAT
      else if String.eqb name "_STYLES" then LevelOther STYLES_repr
      else LevelInt INFO
  end.

(** [logging._checkLevel] *)
Definition _checkLevel (level : LevelArg) : outcome Z :=
  match level with
  | LevelInt n => Return n
  | LevelStr s =>
      match nameToLevel s with
      | Some n => Return n
      | None => Raise (OtherError "ValueError" ("Unknown level: " +:+ Py.repr s))
      end
  | LevelOther r =>
      Raise (OtherError "TypeError"
               ("Level not an integer or a valid string: " +:+ r))
  end.

(** A logger name and the names above it in the dotted hierarchy, nearest
    first: ["a.b.c"; "a.b"; "a"]. *)
Fixpoint dotted_prefixes_from (seen rest : list ascii) (found : list string)
  : list string :=
  match rest with
  | [] => string_of_list_ascii (rev seen) :: found
  | c :: rest' =>
      if Ascii.eqb c "."%char
      then dotted_prefixes_from (c :: seen) rest'
             (string_of_list_ascii (rev seen) :: found)
      else dotted_prefixes_from (c :: seen) rest' found
  end.

Definition dotted_prefixes (name : string) : list string :=
  dotted_prefixes_from [] (list_ascii_of_string name) [].

(** *** State updates *)

Definition with_client (c : MongoClient) (w : World) : World :=
  {| environ := environ w; _client := Some c;
     root_level := root_level w; root_handlers := root_handlers w;
     logger_levels := logger_levels w;
     logger_propagate := logger_propagate w;
     tracer_provider_global := tracer_provider_global w;
     meter_provider_global := meter_provider_global w;
     calls := calls w |}.

(** [_client = c] *)
Definition set_client (c : MongoClient) : M unit :=
  fun w => (Return tt, with_client c w).

Definition with_root_handlers (hs : list Handler) (w : World) : World :=
  {| environ := environ w; _client := _client w;
     root_level := root_level w; root_handlers := hs;
     logger_levels := logger_levels w;
     logger_propagate := logger_propagate w;
     tracer_provider_global := tracer_provider_global w;
     meter_provider_global := meter_provider_global w;
     calls := calls w |}.

Definition with_root_level (level : Z) (w : World) : World :=
  {| environ := environ w; _client := _client w;
     root_level := Some level; root_handlers := root_handlers w;
     logger_levels := logger_levels w;
     logger_propagate := logger_propagate w;
     tracer_provider_global := tracer_provider_global w;
     meter_provider_global := meter_provider_global w;
     calls := calls w |}.

(** [logging.basicConfig(level=...)]: does nothing when the root logger
    already has handlers; otherwise it adds a stream handler and then sets
    the level of the root logger, which is where a value that is not a
    level raises. *)
Definition basicConfig (level : LevelArg) : M unit :=
  fun w =>
    match root_handlers w with
    | [] =>
        let w1 := with_root_handlers [StreamHandler] w in
        match _checkLevel level with
        | Return n => (Return tt, with_root_level n w1)
        | Raise e => (Raise e, w1)
        end
    | _ :: _ => (Return tt, w)
    end.

(** [logging.getLogger().addHandler(handler)] *)
Definition addHandler (h : Handler) : M unit :=
  fun w => (Return tt, with_root_handlers (root_handlers w ++ [h]) w).

(** [logging.getLogger(name).setLevel(level)] *)
Definition setLevel (name : string) (level : Z) : M unit :=
  fun w =>
    (Return tt,
     {| environ := environ w; _client := _client w;
        root_level := root_level w; root_handlers := root_handlers w;
        logger_levels := <[name := level]> (logger_levels w);
        logger_propagate := logger_propagate w;
        tracer_provider_global := tracer_provider_global w;
        meter_provider_global := meter_provider_global w;
        calls := calls w |}).

(** [logging.getLogger(name).propagate = flag] *)
Definition set_propagate (name : string) (flag : bool) : M unit :=
  fun w =>
    (Return tt,
     {| environ := environ w; _client := _client w;
        root_level := root_level w; root_handlers := root_handlers w;
        logger_levels := logger_levels w;
        logger_propagate := <[name := flag]> (logger_propagate w);
        tracer_provider_global := tracer_provider_global w;
        meter_provider_global := meter_provider_global w;
        calls := calls w |}).

Definition with_tracer_provider (tp : TracerProvider) (w : World) : World :=
  {| environ := environ w; _client := _client w;
     root_level := root_level w; root_handlers := root_handlers w;
     logger_levels := logger_levels w;
     logger_propagate := logger_propagate w;
     tracer_provider_global := Some tp;
     meter_provider_global := meter_provider_global w;
     calls := calls w |}.

Definition with_meter_provider (mp : MeterProvider) (w : World) : World :=
  {| environ := environ w; _client := _client w;
     root_level := root_level w; root_handlers := root_handlers w;
     logger_levels := logger_levels w;
     logger_propagate := logger_propagate w;
     tracer_provider_global := tracer_provider_global w;
     meter_provider_global := Some mp;
     calls := calls w |}.

(** *** Who receives a record *)

(** [Logger.getEffectiveLevel]: the first level that is set (not 0) on the
    logger or above it; the root logger starts at WARNING. *)
Definition own_level (w : World) (name : string) : Z :=
  match logger_levels w !! name with
  | Some level => level
  | None => 0
  end.

Definition effective_level (w : World) (name : string) : Z :=
  match List.find (fun level => negb (level =? 0))
                  (map (own_level w) (dotted_prefixes name)) with
  | Some level => level
  | None =>
      match root_level w with
      | Some level => level
      | None => WARNING
      end
  end.

(** The record climbs to the root logger unless a logger on the way has
    [propagate] off. *)
Definition propagates (w : World) (name : string) : bool :=
  forallb (fun n => match logger_propagate w !! n with
                    | Some false => false
                    | _ => true
                    end)
          (dotted_prefixes name).

(** The collections of the database handlers that [Logger.callHandlers]
    hands a record of this logger and level to, in handler order.  (The
    stream handler gets the record too; it writes to standard error.) *)
Definition targets (w : World) (name : string) (levelno : Z) : list Collection :=
  if (effective_level w name <=? levelno) && propagates w name
  then flat_map (fun h => match h with
                          | MongoLoggingHandler collection level =>
                              if level <=? levelno then [collection] else []
                          | StreamHandler => []
                          end)
                (root_handlers w)
  else [].

Module SpanExportResult.
Inductive t := SUCCESS | FAILURE.
End SpanExportResult.

Module MetricExportResult.
Inductive t := SUCCESS | FAILURE.
End MetricExportResult.

(** ** app/telemetry.py *)

(** The record that the logging package makes for a logging call: the
    message is already formatted with the arguments, and the time of the
    call turns into a datetime without an error. *)
Definition make_record (stamp : RecordStamp) (logger : string) (levelno : Z)
    (message : string) (args : value) (exc_info : option value) : LogRecord :=
  {| record_name := logger;
     record_levelname := LogLevel.name levelno;
     record_levelno := levelno;
     record_getMessage := Return message;
     record_created_at := Return (stamp_created stamp);
     record_pathname := stamp_pathname stamp;
     record_lineno := stamp_lineno stamp;
     record_funcName := stamp_funcName stamp;
     record_process := stamp_process stamp;
     record_thread := stamp_thread stamp;
     record_module := stamp_module stamp;
     record_processName := stamp_processName stamp;
     record_args := args;
     record_exc_info := exc_info |}.

Section Telemetry.

Variable X : Externals.

Definition telemetry_logger : string := "app.telemetry".

(** [int(text)] *)
Definition py_int (text : string) : outcome Z :=
  if Py.is_plain text then
    match Py.int text with
    | Some n => Return n
    | None =>
        Raise (OtherError "ValueError"
                 ("invalid literal for int() with base 10: "
                  +:+ Py.truncate 200 (Py.repr text)))
    end
  else int_beyond X text.

(** [text.upper()]; its result has no lowercase ASCII letter, which the
    outer [Py.upper] says of the part that the embedding does not decide. *)
Definition str_upper (text : string) : string :=
  if Py.all_ascii text then Py.upper text
  else Py.upper (upper_beyond X text).

(** The [MongoClient] constructor: may raise; a new object otherwise. *)
Definition MongoClient_new (call : MongoClientCall) : M MongoClient :=
  before <- get_world ;;
  external (CallMongoClient call)
           (fun cs => mongo_client_raises X cs call) ;;;
  ret {| client_id := length (calls before); client_call := call |}.

Definition insert_one (collection : Collection) (document : value) : M unit :=
  external (CallInsertOne collection document)
           (fun cs => insert_one_raises X cs collection document).

Definition insert_many (collection : Collection) (documents : list value) : M unit :=
  external (CallInsertMany collection documents)
           (fun cs => insert_many_raises X cs collection documents).

(** [logging.Handler.handleError]: reports on stderr and returns. *)
Definition handleError (record : LogRecord) : M unit :=
  record_call (CallHandleError record).

(** [MongoLoggingHandler.emit]: the document is built inside the [try], so
    what building it raises meets the [except] clause too. *)
Definition emit (collection : Collection) (record : LogRecord) : M unit :=
  try_except
    (document <- lift (build_log_document record) ;;
     insert_one collection document)
    (fun e =>
       match e with
       | PyMongoError _ => Some (handleError record)
       | _ => None
       end).

(** [Logger.callHandlers]: the handlers in turn; what an [emit] raises is
    not caught by the logging package and stops the walk. *)
Fixpoint emit_all (collections : list Collection) (record : LogRecord) : M unit :=
  match collections with
  | [] => ret tt
  | collection :: rest => emit collection record ;;; emit_all rest record
  end.

(** A logging call of any module of the process, on the logger of the given
    name: the record goes to the handlers that take it. *)
Definition dispatch (logger : string) (levelno : Z) (message : string)
    (args : value) (exc_info : option value) : M unit :=
  w <- get_world ;;
  emit_all (targets w logger levelno)
           (make_record (record_stamp X (calls w)) logger levelno message
              args exc_info).

(** A logging call of this program: noted in the trace, then dispatched. *)
Definition log (logger : string) (levelno : Z) (message : string)
    (args : value) (exc_info : option value) : M unit :=
  record_call (CallLog logger (LogLevel.name levelno) message) ;;;
  dispatch logger levelno message args exc_info.

(** [logger.debug(message)] *)
Definition logger_debug (logger message : string) : M unit :=
  log logger LogLevel.DEBUG message (VTuple []) None.

(** [logger.exception(message + "%s", exc)], inside an [except] clause: an
    ERROR record that carries the exception as [exc_info]. *)
Definition logger_exception (logger message : string) (exc : exn) : M unit :=
  log logger LogLevel.ERROR (message +:+ exn_str exc)
      (VTuple [VObject (exn_str exc)]) (Some (VObject (exn_str exc))).

(** [_mongo_client] *)
Definition _mongo_client : M MongoClient :=
  w <- get_world ;;
  match _client w with
  | Some cached => ret cached
  | None =>
      uri <- getenv "MONGO_URI" ;;
      if Py.truthy uri then
        logger_debug telemetry_logger "Connecting to MongoDB using URI" ;;;
        client <- MongoClient_new
                    {| positional := [of_option VStr uri];
                       keywords := [("tz_aware", VBool true)] |} ;;
        set_client client ;;;
        ret client
      else
        host <- getenv_default "MONGO_HOST" "localhost" ;;
        port_text <- getenv_default "MONGO_PORT" "27017" ;;
        port <- lift (py_int port_text) ;;
        username <- getenv "MONGO_USERNAME" ;;
        password <- getenv "MONGO_PASSWORD" ;;
        auth_source <- getenv "MONGO_AUTH_SOURCE" ;;
        let client_kwargs : pydict :=
          [("host", VStr host); ("port", VInt port); ("tz_aware", VBool true)] in
        let client_kwargs :=
          if Py.truthy username && Py.truthy password
          then dict_set "password" (of_option VStr password)
                 (dict_set "username" (of_option VStr username) client_kwargs)
          else client_kwargs in
        let client_kwargs :=
          if Py.truthy auth_source
          then dict_set "authSource" (of_option VStr auth_source) client_kwargs
          else client_kwargs in
        client <- MongoClient_new {| positional := []; keywords := client_kwargs |} ;;
        set_client client ;;;
        ret client
  end.

(** [client[db_name]] and [database[name]]: pymongo validates the name. *)
Definition client_getitem (client : MongoClient) (name : string) : M Database :=
  match database_raises X name with
  | Some e => raise e
  | None => ret {| db_client := client; db_name := name |}
  end.

Definition database_getitem (database : Database) (name : string) : M Collection :=
  match collection_raises X name with
  | Some e => raise e
  | None => ret {| col_database := database; col_name := name |}
  end.

(** [_mongo_database] *)
Definition _mongo_database : M Database :=
  client <- _mongo_client ;;
  db_name <- getenv_default "MONGO_DB_NAME" "telemetry" ;;
  client_getitem client db_name.

(** [_configure_logging]: [basicConfig] and then [handler.setLevel] check
    the level, and the handler is added only after both. *)
Definition _configure_logging (collection : Collection) : M unit :=
  level_text <- getenv_default "LOG_LEVEL" "INFO" ;;
  let log_level := str_upper level_text in
  basicConfig (getattr_logging log_level) ;;;
  handler_level <- lift (_checkLevel (getattr_logging log_level)) ;;
  addHandler (MongoLoggingHandler collection handler_level) ;;;
  setLevel "httpx" WARNING ;;;
  setLevel "uvicorn" WARNING ;;;
  set_propagate "uvicorn.error" false ;;;
  set_propagate "uvicorn.access" false.

Definition is_empty {A} (l : list A) : bool :=
  match l with
  | [] => true
  | _ :: _ => false
  end.

(** [MongoSpanExporter.export] *)
Definition span_export (collection : Collection) (spans : list ReadableSpan)
  : M SpanExportResult.t :=
  let documents := span_documents spans in
  if is_empty documents then ret SpanExportResult.SUCCESS
  else
    failed <- try_except
                (insert_many collection documents ;;; ret None)
                (fun e =>
                   match e with
                   | PyMongoError _ =>
                       Some (logger_exception telemetry_logger
                               "Failed to export spans to MongoDB: " e ;;;
                             ret (Some SpanExportResult.FAILURE))
                   | _ => None
                   end) ;;
    match failed with
    | Some result => ret result
    | None => ret SpanExportResult.SUCCESS
    end.

(** [MongoMetricExporter.export] *)
Definition metric_export (collection : Collection) (metrics_data : MetricsData)
  : M MetricExportResult.t :=
  let documents := metric_documents metrics_data in
  if is_empty documents then ret MetricExportResult.SUCCESS
  else
    failed <- try_except
                (insert_many collection documents ;;; ret None)
                (fun e =>
                   match e with
                   | PyMongoError _ =>
                       Some (logger_exception telemetry_logger
                               "Failed to export metrics to MongoDB: " e ;;;
                             ret (Some MetricExportResult.FAILURE))
                   | _ => None
                   end) ;;
    match failed with
    | Some result => ret result
    | None => ret MetricExportResult.SUCCESS
    end.

(** [MongoMetricExporter.force_flush] and [shutdown] *)
Definition force_flush (timeout_millis : Z) : bool := true.
Definition shutdown (timeout_millis : Z) : M unit := ret tt.

(** [trace.set_tracer_provider]: the API keeps the first provider set, and
    its module logs a warning about any later one. *)
Definition set_tracer_provider (tp : TracerProvider) : M unit :=
  w <- get_world ;;
  match tracer_provider_global w with
  | None => fun w => (Return tt, with_tracer_provider tp w)
  | Some _ =>
      dispatch "opentelemetry.trace" WARNING
        "Overriding of current TracerProvider is not allowed" (VTuple []) None
  end.

(** [metrics.set_meter_provider]: likewise. *)
Definition set_meter_provider (mp : MeterProvider) : M unit :=
  w <- get_world ;;
  match meter_provider_global w with
  | None => fun w => (Return tt, with_meter_provider mp w)
  | Some _ =>
      dispatch "opentelemetry.metrics._internal" WARNING
        "Overriding of current MeterProvider is not allowed" (VTuple []) None
  end.

(** The body of the [try] in [configure_telemetry]. *)
Definition acquire_collections (log_name trace_name metric_name : string)
  : M (Collection * Collection * Collection) :=
  database <- _mongo_database ;;
  log_collection <- database_getitem database log_name ;;
  trace_collection <- database_getitem database trace_name ;;
  metric_collection <- database_getitem database metric_name ;;
  ret (log_collection, trace_collection, metric_collection).

(** The [except PyMongoError] branch of [configure_telemetry]. *)
Definition fallback_telemetry (exc : exn) : M (TracerProvider * MeterProvider) :=
  basicConfig (LevelInt INFO) ;;;
  logger_exception telemetry_logger
    "Unable to configure MongoDB telemetry backend: " exc ;;;
  let resource : pydict := [("service.name", VStr "devto-news-service")] in
  let tracer_provider := {| tracer_resource := resource; span_processors := [] |} in
  let meter_provider := {| meter_resource := resource; metric_readers := [] |} in
  set_tracer_provider tracer_provider ;;;
  set_meter_provider meter_provider ;;;
  ret (tracer_provider, meter_provider).

(** [configure_telemetry] *)
Definition configure_telemetry : M (TracerProvider * MeterProvider) :=
  log_collection_name <- getenv_default "MONGO_LOG_COLLECTION" "logs" ;;
  trace_collection_name <- getenv_default "MONGO_TRACE_COLLECTION" "traces" ;;
  metric_collection_name <- getenv_default "MONGO_METRIC_COLLECTION" "metrics" ;;
  acquired <- try_except
                (cols <- acquire_collections log_collection_name
                           trace_collection_name metric_collection_name ;;
                 ret (inl cols))
                (fun e =>
                   match e with
                   | PyMongoError _ =>
                       Some (providers <- fallback_telemetry e ;; ret (inr providers))
                   | _ => None
                   end) ;;
  match acquired with
  | inr providers => ret providers
  | inl (log_collection, trace_collection, metric_collection) =>
      _configure_logging log_collection ;;;
      service_name <- getenv_default "OTEL_SERVICE_NAME" "devto-news-service" ;;
      service_version <- getenv_default "OTEL_SERVICE_VERSION" "1.0.0" ;;
      instance_id <- getenv_default "OTEL_SERVICE_INSTANCE_ID" "local-instance" ;;
      let resource : pydict :=
        [ ("service.name", VStr service_name);
          ("service.version", VStr service_version);
          ("service.instance.id", VStr instance_id) ] in
      let span_exporter := MongoSpanExporter trace_collection in
      let tracer_provider :=
        {| tracer_resource := resource;
           span_processors := [BatchSpanProcessor span_exporter] |} in
      set_tracer_provider tracer_provider ;;;
      let metric_exporter := MongoMetricExporter metric_collection in
      let metric_reader := PeriodicExportingMetricReader metric_exporter in
      let meter_provider :=
        {| meter_resource := resource; metric_readers := [metric_reader] |} in
      set_meter_provider meter_provider ;;;
      ret (tracer_provider, meter_provider)
  end.

End Telemetry.

(** ** app/main.py *)

Section Main.

Variable X : Externals.

Definition main_logger : string := "app.main".
Definition DEVTO_API_URL : string := "https://dev.to/api/articles".
Definition request_counter : string := "devto.news.requests".
Definition article_counter : string := "devto.news.articles_returned".

(** [counter.add(amount, attributes=...)] *)
Definition counter_add (counter : string) (amount : Z) (attributes : pydict) : M unit :=
  record_call (CallCounterAdd counter amount attributes).

Definition set_attribute (key : string) (v : value) : M unit :=
  record_call (CallSpanSetAttribute key v).

(** [with tracer.start_as_current_span(name)]: the span is ended on both
    exits, and an exception goes on to the caller. *)
Definition with_span {A} (name : string) (body : M A) : M A :=
  record_call (CallSpanStart name) ;;;
  fun w =>
    match body w with
    | (Return a, w') =>
        (record_call (CallSpanEnd name None) ;;; ret a) w'
    | (Raise e, w') =>
        (record_call (CallSpanEnd name (Some e)) ;;; raise e) w'
    end.

(** [httpx.Response.is_success] *)
Definition is_success (status_code : Z) : bool :=
  (200 <=? status_code) && (status_code <=? 299).

(** [response.raise_for_status()] *)
Definition raise_for_status (status_code : Z) : M unit :=
  if is_success status_code then ret tt
  else raise (HTTPStatusError status_code "error response").

(** [await client.get(DEVTO_API_URL, params=params)] with the client's
    timeout of 10 seconds; the result is the status and the decoded body. *)
Definition client_get (url : string) (params : pydict) : M (Z * option value) :=
  before <- get_world ;;
  record_call (CallHttpGet url params 10) ;;;
  match http_get X (calls before) url params with
  | HttpResponse status_code json => ret (status_code, json)
  | HttpRaises e => raise e
  end.

(** Iterating over a decoded JSON value. *)
Definition iterate (v : value) : outcome (list value) :=
  match v with
  | VList items => Return items
  | VTuple items => Return items
  | VDict items => Return (map (fun kv => VStr (fst kv)) items)
  | VStr s =>
      Return (map (fun c => VStr (String c EmptyString)) (list_ascii_of_string s))
  | _ => Raise (OtherError "TypeError" "object is not iterable")
  end.

(** [obj.get(key)] and [obj.get(key, default)] *)
Definition py_get (obj : value) (key : string) (default : value) : outcome value :=
  match obj with
  | VDict items =>
      Return (match dict_get key items with Some v => v | None => default end)
  | _ => Raise (OtherError "AttributeError" "object has no attribute 'get'")
  end.

(** The reduced projection of one upstream article. *)
Definition project_article (article : value) : outcome value :=
  obind (py_get article "id" VNone) (fun id =>
  obind (py_get article "title" VNone) (fun title =>
  obind (py_get article "url" VNone) (fun url =>
  obind (py_get article "description" VNone) (fun description =>
  obind (py_get article "published_at" VNone) (fun published_at =>
  obind (py_get article "tags" VNone) (fun tags =>
  obind (py_get article "user" (VDict [])) (fun user1 =>
  obind (py_get user1 "name" VNone) (fun name =>
  obind (py_get article "user" (VDict [])) (fun user2 =>
  obind (py_get user2 "username" VNone) (fun username =>
  Return (VDict [ ("id", id); ("title", title); ("url", url);
                  ("description", description);
                  ("published_at", published_at); ("tags", tags);
                  ("user", VDict [("name", name); ("username", username)]) ]))))))))))).

(** The [for article in response.json(): articles.append(...)] loop. *)
Fixpoint project_all (items : list value) (articles : list value)
  : outcome (list value) :=
  match items with
  | [] => Return articles
  | article :: rest =>
      obind (project_article article) (fun projected =>
      project_all rest (articles ++ [projected]))
  end.

(** [_fetch_articles] *)
Definition _fetch_articles (tag : string) (per_page : Z) : M (list value) :=
  let params : pydict := [("tag", VStr tag); ("per_page", VInt per_page)] in
  response <- with_span "devto.fetch_articles"
                (set_attribute "http.method" (VStr "GET") ;;;
                 set_attribute "http.url" (VStr DEVTO_API_URL) ;;;
                 set_attribute "devto.tag" (VStr tag) ;;;
                 set_attribute "devto.per_page" (VInt per_page) ;;;
                 response <- client_get DEVTO_API_URL params ;;
                 set_attribute "http.status_code" (VInt (fst response)) ;;;
                 raise_for_status (fst response) ;;;
                 ret response) ;;
  body <- match snd response with
          | Some json => ret json
          | None => raise (OtherError "JSONDecodeError" "response body is not JSON")
          end ;;
  items <- lift (iterate body) ;;
  lift (project_all items []).

(** [health] *)
Definition health : value := VDict [("status", VStr "ok")].

(** [get_news], the handler, called with validated arguments. *)
Definition get_news (tag : string) (per_page : Z) : M value :=
  counter_add request_counter 1 [("tag", VStr tag)] ;;;
  articles <- try_except
                (_fetch_articles tag per_page)
                (fun exc =>
                   match exc with
                   | HTTPStatusError status_code _ =>
                       Some (logger_exception X main_logger
                               "DEV.to API returned an error: " exc ;;;
                             raise (HTTPException status_code
                                      "Upstream error from DEV.to API"))
                   | RequestError _ =>
                       Some (logger_exception X main_logger
                               "Failed to communicate with DEV.to API: " exc ;;;
                             raise (HTTPException 502 "Unable to reach DEV.to API"))
                   | _ => None
                   end) ;;
  counter_add article_counter (Z.of_nat (length articles)) [("tag", VStr tag)] ;;;
  ret (VDict [ ("source", VStr "DEV.to"); ("tag", VStr tag);
               ("count", VInt (Z.of_nat (length articles)));
               ("articles", VList articles) ]).

(** *** The route declaration *)

(** [Query(default, ge=..., le=...)] of an integer parameter. *)
Record IntQuery := { int_default : Z; int_ge : Z; int_le : Z }.

Definition tag_default : string := "technology".
Definition per_page_query : IntQuery :=
  {| int_default := 5; int_ge := 1; int_le := 30 |}.

(** The framework's check of an integer parameter against its declaration:
    the default when it is absent, [None] (a 422 reply) out of bounds. *)
Definition validate_int (q : IntQuery) (given : option Z) : option Z :=
  match given with
  | None => Some (int_default q)
  | Some n => if (int_ge q <=? n) && (n <=? int_le q) then Some n else None
  end.

Inductive HttpReply : Type :=
| Reply200 (body : value)
| Reply422
| ReplyHTTPException (status_code : Z) (detail : string)
| Reply500.

Definition reply_status (r : HttpReply) : Z :=
  match r with
  | Reply200 _ => 200
  | Reply422 => 422
  | ReplyHTTPException status_code _ => status_code
  | Reply500 => 500
  end.

(** The reply made from what the handler returns or raises. *)
Definition reply_of (result : outcome value) : HttpReply :=
  match result with
  | Return body => Reply200 body
  | Raise (HTTPException status_code detail) => ReplyHTTPException status_code detail
  | Raise _ => Reply500
  end.

(** [GET /news?tag=..&per_page=..]: validation first, the handler only on
    validated arguments; an [HTTPException] becomes the reply. *)
Definition news_route (tag : option string) (per_page : option Z) : M HttpReply :=
  match validate_int per_page_query per_page with
  | None => ret Reply422
  | Some n =>
      let tag := match tag with Some t => t | None => tag_default end in
      fun w => let (result, w') := get_news tag n w in (Return (reply_of result), w')
  end.

End Main.

(** ** Observations on worlds and documents, used to state the properties *)

(** The calls made between two worlds. *)
Definition new_calls (before after : World) : list Call :=
  skipn (length (calls before)) (calls after).

Definition is_insert (c : Call) : bool :=
  match c with
  | CallInsertMany _ _ => true
  | CallInsertOne _ _ => true
  | _ => false
  end.

Definition is_log (c : Call) : bool :=
  match c with CallLog _ _ _ => true | _ => false end.

Definition is_http_get (c : Call) : bool :=
  match c with CallHttpGet _ _ _ => true | _ => false end.

Definition is_mongo_client_call (c : Call) : bool :=
  match c with CallMongoClient _ => true | _ => false end.

Definition is_counter_add (counter : string) (c : Call) : bool :=
  match c with
  | CallCounterAdd name _ _ => String.eqb name counter
  | _ => false
  end.

Definition count_calls (p : Call -> bool) (cs : list Call) : nat :=
  length (List.filter p cs).

(** A field that holds a lowercase hexadecimal string of the given length. *)
Definition hex_field (width : nat) (field : option value) : bool :=
  match field with
  | Some (VStr s) => PyFormat.fixed_hex width s
  | _ => false
  end.

Definition link_ids_ok (link : value) : bool :=
  hex_field 32 (vpath ["context"; "trace_id"] link)
  && hex_field 16 (vpath ["context"; "span_id"] link).

(** Identifiers of a span document: 32 and 16 hexadecimal characters in
    its context and in every link, 16 in [parent_span_id] unless it is
    [None]. *)
Definition span_doc_ids_ok (document : value) : bool :=
  hex_field 32 (vpath ["context"; "trace_id"] document)
  && hex_field 16 (vpath ["context"; "span_id"] document)
  && match vget "parent_span_id" document with
     | Some VNone => true
     | other => hex_field 16 other
     end
  && match vget "links" document with
     | Some (VList links) => forallb link_ids_ok links
     | _ => false
     end.

(** The ranges the tracing API gives to identifiers: 128 and 64 bits. *)
Definition trace_id_in_range (n : Z) : bool := (0 <=? n) && (n <? 2 ^ 128).
Definition span_id_in_range (n : Z) : bool := (0 <=? n) && (n <? 2 ^ 64).

Definition context_in_range (c : SpanContext) : bool :=
  trace_id_in_range (trace_id c) && span_id_in_range (span_id c).

Definition span_ids_in_range (span : ReadableSpan) : bool :=
  context_in_range (span_context span)
  && match span_parent span with
     | Some p => span_id_in_range (span_id p)
     | None => true
     end
  && forallb (fun l => context_in_range (link_context l)) (span_links span).

(** A metric document whose datapoint list is not empty. *)
Definition has_datapoints (document : value) : bool :=
  match vget "data" document with
  | Some (VList (_ :: _)) => true
  | _ => false
  end.

(** All the metrics of a snapshot, in export order. *)
Definition all_metrics (metrics_data : MetricsData) : list Metric :=
  flat_map (fun rm => flat_map metrics (scope_metrics rm))
           (resource_metrics metrics_data).

(** The parameters and the calls of [get_news] up to the upstream request,
    and the decoding of the body after it. *)
Definition news_params (tag : string) (per_page : Z) : pydict :=
  [("tag", VStr tag); ("per_page", VInt per_page)].

Definition calls_before_get (tag : string) (per_page : Z) : list Call :=
  [ CallCounterAdd request_counter 1 [("tag", VStr tag)];
    CallSpanStart "devto.fetch_articles";
    CallSpanSetAttribute "http.method" (VStr "GET");
    CallSpanSetAttribute "http.url" (VStr DEVTO_API_URL);
    CallSpanSetAttribute "devto.tag" (VStr tag);
    CallSpanSetAttribute "devto.per_page" (VInt per_page) ].

Definition decode_articles (json : option value) : outcome (list value) :=
  match json with
  | Some body => obind (iterate body) (fun items => project_all items [])
  | None => Raise (OtherError "JSONDecodeError" "response body is not JSON")
  end.

Definition span_name_fetch : string := "devto.fetch_articles".

(** The body of a successful [/news] reply. *)
Definition news_body (tag : string) (articles : list value) : value :=
  VDict [ ("source", VStr "DEV.to"); ("tag", VStr tag);
          ("count", VInt (Z.of_nat (length articles)));
          ("articles", VList articles) ].

(** The collection names [configure_telemetry] reads from the environment. *)
Definition log_collection_name (w : World) : string :=
  env_or w "MONGO_LOG_COLLECTION" "logs".
Definition trace_collection_name (w : World) : string :=
  env_or w "MONGO_TRACE_COLLECTION" "traces".
Definition metric_collection_name (w : World) : string :=
  env_or w "MONGO_METRIC_COLLECTION" "metrics".

(** ** Sample collaborators, worlds and inputs *)

Module Sample.

Definition stamp : RecordStamp :=
  {| stamp_created := 0;
     stamp_pathname := "/srv/app/telemetry.py"; stamp_lineno := 174;
     stamp_funcName := "export";
     stamp_process := Some 1; stamp_thread := Some 1;
     stamp_module := "telemetry"; stamp_processName := Some "MainProcess" |}.

(** Nothing fails; the news source answers 200 with the given body. *)
Definition externals (news : value) : Externals :=
  {| mongo_client_raises := fun _ _ => None;
     database_raises := fun _ => None;
     collection_raises := fun _ => None;
     insert_one_raises := fun _ _ _ => None;
     insert_many_raises := fun _ _ _ => None;
     http_get := fun _ _ _ => HttpResponse 200 (Some news);
     record_stamp := fun _ => stamp;
     int_beyond := fun _ => Raise (OtherError "ValueError" "invalid literal");
     upper_beyond := fun text => text |}.

(** Every database call raises a [PyMongoError]. *)
Definition database_down : Externals :=
  {| mongo_client_raises := fun _ _ => Some (PyMongoError "connection refused");
     database_raises := fun _ => None;
     collection_raises := fun _ => None;
     insert_one_raises := fun _ _ _ => Some (PyMongoError "connection refused");
     insert_many_raises := fun _ _ _ => Some (PyMongoError "connection refused");
     http_get := fun _ _ _ => HttpResponse 200 (Some (VList []));
     record_stamp := fun _ => stamp;
     int_beyond := fun _ => Raise (OtherError "ValueError" "invalid literal");
     upper_beyond := fun text => text |}.

(** The client is built, but every insert raises a [PyMongoError]; the
    news source answers as given. *)
Definition inserts_fail (answer : HttpOutcome) : Externals :=
  {| mongo_client_raises := fun _ _ => None;
     database_raises := fun _ => None;
     collection_raises := fun _ => None;
     insert_one_raises := fun _ _ _ => Some (PyMongoError "not primary");
     insert_many_raises := fun _ _ _ => Some (PyMongoError "not primary");
     http_get := fun _ _ _ => answer;
     record_stamp := fun _ => stamp;
     int_beyond := fun _ => Raise (OtherError "ValueError" "invalid literal");
     upper_beyond := fun text => text |}.

(** The news source answers with the given outcome. *)
Definition upstream (answer : HttpOutcome) : Externals :=
  {| mongo_client_raises := fun _ _ => None;
     database_raises := fun _ => None;
     collection_raises := fun _ => None;
     insert_one_raises := fun _ _ _ => None;
     insert_many_raises := fun _ _ _ => None;
     http_get := fun _ _ _ => answer;
     record_stamp := fun _ => stamp;
     int_beyond := fun _ => Raise (OtherError "ValueError" "invalid literal");
     upper_beyond := fun text => text |}.

Definition world (env : gmap string string) : World :=
  {| environ := env; _client := None;
     root_level := None; root_handlers := [];
     logger_levels := ∅; logger_propagate := ∅;
     tracer_provider_global := None; meter_provider_global := None;
     calls := [] |}.

Definition client : MongoClient :=
  {| client_id := 0;
     client_call := {| positional := [VStr "mongodb://db:27017"];
                       keywords := [("tz_aware", VBool true)] |} |}.

Definition traces_collection : Collection :=
  {| col_database := {| db_client := client; db_name := "telemetry" |};
     col_name := "traces" |}.

Definition metrics_collection : Collection :=
  {| col_database := {| db_client := client; db_name := "telemetry" |};
     col_name := "metrics" |}.

Definition logs_collection : Collection :=
  {| col_database := {| db_client := client; db_name := "telemetry" |};
     col_name := "logs" |}.

Definition context (t s : Z) : SpanContext :=
  {| trace_id := t; span_id := s; trace_state := [] |}.

Definition span (ctx : SpanContext) (parent : option SpanContext)
    (links : list Link) : ReadableSpan :=
  {| span_name := "GET /news"; span_context := ctx; span_parent := parent;
     span_kind := SERVER;
     span_start_time := Some 1700000000000000000;
     span_end_time := Some 1700000000500000000;
     span_status := {| status_code := UNSET; description := None |};
     span_attributes := [("http.method", VStr "GET")];
     span_events := []; span_links := links |}.

(** A child span with small identifiers and one link. *)
Definition small_span : ReadableSpan :=
  span (context 255 1) (Some (context 255 2))
       [ {| link_context := context 7 9; link_attributes := None |} ].

(** A span whose trace identifier needs 129 bits. *)
Definition wide_span : ReadableSpan :=
  span (context (2 ^ 128) 1) None [].

Definition metric (points : list DataPoint) : Metric :=
  {| metric_name := "devto.news.requests";
     metric_description := Some "Number of calls to the /news endpoint";
     metric_unit := Some "";
     data_points := points |}.

Definition snapshot (points : list DataPoint) : MetricsData :=
  {| resource_metrics :=
       [ {| resource_attributes := [("service.name", VStr "devto-news-service")];
            scope_metrics :=
              [ {| scope := {| scope_name := "app.main"; scope_version := None |};
                   metrics := [metric points] |} ] |} ] |}.

Definition counter_point : DataPoint :=
  NumberDataPoint [("tag", VStr "technology")]
                  1700000000000000000 1700000060000000000 (VInt 3).

Definition record : LogRecord :=
  {| record_name := "app.main"; record_levelname := "INFO";
     record_levelno := 20;
     record_getMessage := Return "started"; record_created_at := Return 0;
     record_pathname := "/srv/app/main.py"; record_lineno := 20;
     record_funcName := "<module>";
     record_process := Some 1; record_thread := Some 1;
     record_module := "main"; record_processName := Some "MainProcess";
     record_args := VTuple []; record_exc_info := None |}.

(** The same record with an exception attached. *)
Definition failure_record : LogRecord :=
  {| record_name := "app.main"; record_levelname := "ERROR";
     record_levelno := 40;
     record_getMessage := Return "failed"; record_created_at := Return 0;
     record_pathname := "/srv/app/main.py"; record_lineno := 97;
     record_funcName := "get_news";
     record_process := Some 1; record_thread := Some 1;
     record_module := "main"; record_processName := Some "MainProcess";
     record_args := VTuple [VObject "error response"];
     record_exc_info := Some (VObject "error response") |}.

Definition article (id : Z) : value :=
  VDict [ ("id", VInt id); ("title", VStr "A title");
          ("url", VStr "https://dev.to/a"); ("description", VStr "");
          ("published_at", VStr "2024-01-01T00:00:00Z");
          ("tags", VStr "technology");
          ("user", VDict [("name", VStr "N"); ("username", VStr "n")]);
          ("comments_count", VInt 0) ].

End Sample.

(** ** Further observations *)

(** The number that a hexadecimal field of a document denotes. *)
Definition decoded_id (field : option value) : option Z :=
  match field with
  | Some (VStr s) => Some (PyFormat.hex_value (list_ascii_of_string s))
  | _ => None
  end.

(** A value that is not a tuple: what BSON documents are made of here. *)
Definition not_tuple (v : value) : bool :=
  match v with
  | VTuple _ => false
  | _ => true
  end.

(** An attribute mapping with [listify] applied to each value. *)
Definition listified (attributes : pydict) : pydict :=
  map (fun kv => (fst kv, listify (snd kv))) attributes.

(** A property of worlds that a computation carries from its start to its
    end, whatever it returns or raises. *)
Definition preserves {A} (P : World -> Prop) (c : M A) : Prop :=
  forall w, P w -> P (snd (c w)).

(** More sample worlds. *)
Module SampleEnv.

(** Host and user name set, no URI, no password. *)
Definition discrete : World :=
  Sample.world {[ "MONGO_HOST" := "db.internal"; "MONGO_USERNAME" := "app" ]}.

(** A port that is not a number. *)
Definition bad_port : World :=
  Sample.world {[ "MONGO_PORT" := "27o17" ]}.

(** The process as [configure_telemetry] leaves it at start-up with the
    default environment, and the client and the collections it then has. *)
Definition configured (X : Externals) : World :=
  snd (configure_telemetry X (Sample.world ∅)).

Definition default_client : MongoClient :=
  {| client_id := 0;
     client_call :=
       {| positional := [];
          keywords := [("host", VStr "localhost"); ("port", VInt 27017);
                       ("tz_aware", VBool true)] |} |}.

Definition default_collection (name : string) : Collection :=
  {| col_database := {| db_client := default_client; db_name := "telemetry" |};
     col_name := name |}.

End SampleEnv.

Definition is_span_boundary (c : Call) : bool :=
  match c with
  | CallSpanStart _ => true
  | CallSpanEnd _ _ => true
  | _ => false
  end.

(** [obj.get(key)]: the value, [None] when the key is missing. *)
Definition get_or_none (key : string) (items : pydict) : value :=
  match dict_get key items with
  | Some v => v
  | None => VNone
  end.

(** The [user] of an upstream article is absent or an object. *)
Definition user_is_object (items : pydict) : bool :=
  match dict_get "user" items with
  | None => true
  | Some (VDict _) => true
  | Some _ => false
  end.

(** What [logger.exception] on the given logger does to its caller: it
    returns unless a database handler takes the record, and then the
    handler raises on the way to [formatException]. *)
Definition log_exception_outcome (w : World) (logger : string) : outcome unit :=
  match targets w logger LogLevel.ERROR with
  | [] => Return tt
  | _ :: _ => Raise attribute_error
  end.

(** The status that [/news] answers with, by what the upstream did and by
    what logging the failure did. *)
Definition expected_status (logged : outcome unit) (answer : HttpOutcome) : Z :=
  let after_log (status : Z) :=
    match logged with
    | Return _ => status
    | Raise _ => 500
    end in
  match answer with
  | HttpResponse status json =>
      if is_success status
      then match decode_articles json with
           | Return _ => 200
           | Raise _ => 500
           end
      else after_log status
  | HttpRaises (HTTPStatusError status _) => after_log status
  | HttpRaises (RequestError _) => after_log 502
  | HttpRaises (HTTPException status _) => status
  | HttpRaises _ => 500
  end.

(** The outcome of constructing a client with the given arguments and
    caching it. *)
Definition connected (X : Externals) (call : MongoClientCall) (w : World)
  : outcome MongoClient * World :=
  let called := set_calls (calls w ++ [CallMongoClient call]) w in
  match mongo_client_raises X (calls w) call with
  | Some e => (Raise e, called)
  | None =>
      let client := {| client_id := length (calls w); client_call := call |} in
      (Return client, with_client client called)
  end.

(** The keyword arguments that the discrete settings of the environment
    give, for a port. *)
Definition discrete_kwargs (w : World) (port : Z) : pydict :=
  let client_kwargs : pydict :=
    [("host", VStr (env_or w "MONGO_HOST" "localhost")); ("port", VInt port);
     ("tz_aware", VBool true)] in
  let client_kwargs :=
    if Py.truthy (environ w !! "MONGO_USERNAME")
       && Py.truthy (environ w !! "MONGO_PASSWORD")
    then dict_set "password" (of_option VStr (environ w !! "MONGO_PASSWORD"))
           (dict_set "username" (of_option VStr (environ w !! "MONGO_USERNAME"))
              client_kwargs)
    else client_kwargs in
  if Py.truthy (environ w !! "MONGO_AUTH_SOURCE")
  then dict_set "authSource" (of_option VStr (environ w !! "MONGO_AUTH_SOURCE"))
         client_kwargs
  else client_kwargs.

(** The world that [_configure_logging] leaves when [LOG_LEVEL] names the
    level [level]. *)
Definition after_configure_logging (collection : Collection) (level : Z)
    (w : World) : World :=
  {| environ := environ w; _client := _client w;
     root_level := match root_handlers w with
                   | [] => Some level
                   | _ :: _ => root_level w
                   end;
     root_handlers := match root_handlers w with
                      | [] => [StreamHandler]
                      | existing => existing
                      end ++ [MongoLoggingHandler collection level];
     logger_levels :=
       <["uvicorn" := WARNING]> (<["httpx" := WARNING]> (logger_levels w));
     logger_propagate :=
       <["uvicorn.access" := false]>
         (<["uvicorn.error" := false]> (logger_propagate w));
     tracer_provider_global := tracer_provider_global w;
     meter_provider_global := meter_provider_global w;
     calls := calls w |}.

(** The level that [LOG_LEVEL] asks for, as [_configure_logging] reads it,
    checked as the logging package checks a level. *)
Definition asked_level (X : Externals) (w : World) : outcome Z :=
  _checkLevel (getattr_logging (str_upper X (env_or w "LOG_LEVEL" "INFO"))).

(** The calls that a logging handler makes. *)
Definition is_emit_call (c : Call) : bool :=
  match c with
  | CallInsertOne _ _ => true
  | CallHandleError _ => true
  | _ => false
  end.

(** * Properties *)

Example format_small : PyFormat.format_0x 16 255 = "00000000000000ff".
Proof. reflexivity. Qed.

Example format_negative : PyFormat.format_0x 8 (-255) = "-00000ff".
Proof. reflexivity. Qed.

Example format_wide : PyFormat.format_0x 4 (2 ^ 16) = "10000".
Proof. reflexivity. Qed.

Example format_largest_trace_id :
  PyFormat.format_0x 32 (2 ^ 128 - 1) = "ffffffffffffffffffffffffffffffff".
Proof. reflexivity. Qed.

Example int_default_port : Py.int "27017" = Some 27017.
Proof. reflexivity. Qed.

Example int_rejects_text : Py.int "27o17" = None.
Proof. reflexivity. Qed.

Example int_strips_and_groups :
  map Py.int [" 12 "; "1_2"; "1__2"; "+5"; "- 1"; ""]
  = [Some 12; Some 12; None; Some 5; None; None].
Proof. reflexivity. Qed.

Example repr_quotes : Py.repr "27o17" = "'27o17'".
Proof. reflexivity. Qed.

Example upper_info : Py.upper "info" = "INFO".
Proof. reflexivity. Qed.

Example level_of_name :
  map getattr_logging ["DEBUG"; "WARN"; "VERBOSE"; "BASIC_FORMAT"]
  = [LevelInt 10; LevelInt 30; LevelInt INFO; LevelStr BASIC_FORMAT].
Proof. reflexivity. Qed.

Example level_names :
  map LogLevel.name [10; 40; 25] = ["DEBUG"; "ERROR"; "Level 25"].
Proof. reflexivity. Qed.

Example logger_ancestors :
  dotted_prefixes "uvicorn.error" = ["uvicorn.error"; "uvicorn"].
Proof. reflexivity. Qed.

(** ** Hexadecimal formatting *)

Section FormatFacts.

Import PyFormat.

Lemma list_of_string_of_list (l : list ascii) :
  list_ascii_of_string (string_of_list_ascii l) = l.
Proof.
  induction l as [|c l IH]; simpl; [reflexivity | now rewrite IH].
Qed.

Lemma hex_digit_cases (d : Z) (P : ascii -> Prop) :
  0 <= d < 16 ->
  (forall k, (k < 16)%nat -> P (nth k hex_alphabet "0"%char)) ->
  P (hex_digit d).
Proof.
  intros Hd HP. unfold hex_digit. apply HP. lia.
Qed.

Lemma hex_digit_lower (d : Z) :
  0 <= d < 16 -> is_lower_hex (hex_digit d) = true.
Proof.
  intros Hd. apply hex_digit_cases; [exact Hd|].
  intros k Hk.
  do 16 (destruct k as [|k]; [reflexivity|]). lia.
Qed.

Lemma hex_digit_value_digit (d : Z) :
  0 <= d < 16 -> hex_digit_value (hex_digit d) = d.
Proof.
  intros Hd. unfold hex_digit.
  remember (Z.to_nat d) as k eqn:Ek.
  assert (Hk : d = Z.of_nat k) by lia. subst d. clear Ek.
  do 16 (destruct k as [|k]; [reflexivity|]). lia.
Qed.

Lemma hex_loop_lower (fuel : nat) :
  forall n acc,
    0 <= n ->
    forallb is_lower_hex acc = true ->
    forallb is_lower_hex (hex_loop fuel n acc) = true.
Proof.
  induction fuel as [|fuel IH]; intros n acc Hn Hacc; simpl; [exact Hacc|].
  assert (Hd : forallb is_lower_hex (hex_digit (n mod 16) :: acc) = true).
  { simpl. rewrite Hacc, hex_digit_lower; [reflexivity|].
    apply Z.mod_pos_bound; lia. }
  destruct (n / 16 =? 0); [exact Hd|].
  apply IH; [apply Z.div_pos; lia | exact Hd].
Qed.

(** A number below [16^k] has at most [k] digits. *)
Lemma hex_loop_length (fuel : nat) :
  forall (k : nat) n acc,
    0 <= n < 16 ^ Z.of_nat (S k) ->
    (length (hex_loop fuel n acc) <= S k + length acc)%nat.
Proof.
  induction fuel as [|fuel IH]; intros k n acc Hn; simpl; [lia|].
  destruct (n / 16 =? 0) eqn:Hq; [simpl; lia|].
  apply Z.eqb_neq in Hq.
  destruct k as [|k].
  - exfalso. apply Hq. apply Z.div_small. simpl in Hn. lia.
  - specialize (IH k (n / 16) (hex_digit (n mod 16) :: acc)).
    simpl length in IH.
    assert (0 <= n / 16 < 16 ^ Z.of_nat (S k)); [|lia].
    split; [apply Z.div_pos; lia|].
    apply Z.div_lt_upper_bound; [lia|].
    replace (16 * 16 ^ Z.of_nat (S k)) with (16 ^ Z.of_nat (S (S k))); [lia|].
    rewrite (Nat2Z.inj_succ (S k)), Z.pow_succ_r; lia.
Qed.

(** The fuel given by the bit length is enough: the digits denote [n]. *)
Lemma hex_loop_value (fuel : nat) :
  forall n acc,
    0 <= n < 2 ^ Z.of_nat fuel ->
    hex_value (hex_loop fuel n acc)
    = fold_left (fun v c => 16 * v + hex_digit_value c) acc n.
Proof.
  unfold hex_value.
  induction fuel as [|fuel IH]; intros n acc Hn.
  - simpl in *. assert (n = 0) by lia. subst n. reflexivity.
  - cbn [hex_loop].
    assert (Hm : 0 <= n mod 16 < 16) by (apply Z.mod_pos_bound; lia).
    assert (Hdiv : n = 16 * (n / 16) + n mod 16) by (apply Z.div_mod; lia).
    destruct (n / 16 =? 0) eqn:Hq.
    + apply Z.eqb_eq in Hq. cbn [fold_left].
      rewrite hex_digit_value_digit by exact Hm.
      f_equal. lia.
    + rewrite IH.
      * cbn [fold_left]. rewrite hex_digit_value_digit by exact Hm.
        f_equal. lia.
      * split; [apply Z.div_pos; lia|].
        apply Z.div_lt_upper_bound; [lia|].
        rewrite Nat2Z.inj_succ, Z.pow_succ_r in Hn; lia.
Qed.

Lemma hex_of_nonneg_value (n : Z) :
  0 <= n -> hex_value (hex_of_nonneg n) = n.
Proof.
  intros Hn. unfold hex_of_nonneg. rewrite hex_loop_value; [reflexivity|].
  split; [exact Hn|].
  destruct (Z.eq_dec n 0) as [->|Hnz]; [reflexivity|].
  rewrite Nat2Z.inj_succ, Z2Nat.id by apply Z.log2_nonneg.
  apply Z.log2_spec. lia.
Qed.

Lemma zfill_length (width : nat) (digits : list ascii) :
  length (zfill width digits) = Nat.max width (length digits).
Proof.
  unfold zfill. rewrite length_app, repeat_length. lia.
Qed.

Lemma zfill_lower (width : nat) (digits : list ascii) :
  forallb is_lower_hex digits = true ->
  forallb is_lower_hex (zfill width digits) = true.
Proof.
  intros H. unfold zfill. rewrite forallb_app, H, andb_true_r.
  induction (width - length digits)%nat as [|k IH]; simpl; auto.
Qed.

(** Inside the range of [W] digits the result has exactly [W] characters,
    all of them lowercase hexadecimal. *)
Lemma format_0x_fixed (k : nat) (n : Z) :
  0 <= n < 16 ^ Z.of_nat (S k) ->
  fixed_hex (S k) (format_0x (S k) n) = true.
Proof.
  intros Hn. unfold fixed_hex, format_0x.
  destruct (n <? 0) eqn:Hneg; [apply Z.ltb_lt in Hneg; lia|].
  rewrite list_of_string_of_list, zfill_length.
  pose proof (hex_loop_length (S (Z.to_nat (Z.log2 n))) k n [] Hn) as Hlen.
  fold (hex_of_nonneg n) in Hlen. simpl length in Hlen.
  apply andb_true_intro. split.
  - apply Nat.eqb_eq. lia.
  - apply zfill_lower. apply hex_loop_lower; [lia | reflexivity].
Qed.

End FormatFacts.

(** ** Running the monad *)

Section MonadFacts.

Context {A B : Type}.

Lemma bind_returned (c : M A) (k : A -> M B) (w w1 : World) (a : A) :
  c w = (Return a, w1) -> bind c k w = k a w1.
Proof. intros H. unfold bind. now rewrite H. Qed.

Lemma bind_raised (c : M A) (k : A -> M B) (w w1 : World) (e : exn) :
  c w = (Raise e, w1) -> bind c k w = (Raise e, w1).
Proof. intros H. unfold bind. now rewrite H. Qed.

Lemma bind_getenv_default (name default : string) (k : string -> M B) (w : World) :
  bind (getenv_default name default) k w = k (env_or w name default) w.
Proof. reflexivity. Qed.

Lemma try_raised (c : M A) (handler : exn -> option (M A)) (h : M A)
    (w w1 : World) (e : exn) :
  c w = (Raise e, w1) -> handler e = Some h -> try_except c handler w = h w1.
Proof. intros Hc Hh. unfold try_except. now rewrite Hc, Hh. Qed.

Lemma bind_try_raised (c : M A) (handler : exn -> option (M A)) (h : M A)
    (k : A -> M B) (w w1 : World) (e : exn) :
  c w = (Raise e, w1) -> handler e = Some h ->
  bind (try_except c handler) k w = bind h k w1.
Proof.
  intros Hc Hh. unfold bind at 1. now rewrite (try_raised c handler h w w1 e).
Qed.

End MonadFacts.

(** ** Loops as maps, and the calls of a run *)

Lemma fold_append_map {A B} (f : A -> B) (l : list A) (init : list B) :
  fold_left (fun acc x => acc ++ [f x]) l init = init ++ map f l.
Proof.
  revert init. induction l as [|x l IH]; intros init; simpl.
  - now rewrite app_nil_r.
  - rewrite IH, <- app_assoc. reflexivity.
Qed.

Lemma span_documents_map (spans : list ReadableSpan) :
  span_documents spans = map span_document spans.
Proof. unfold span_documents. now rewrite fold_append_map. Qed.

Lemma new_calls_app (w w' : World) (cs : list Call) :
  calls w' = calls w ++ cs -> new_calls w w' = cs.
Proof.
  intros H. unfold new_calls. rewrite H, skipn_app, skipn_all.
  replace (length (calls w) - length (calls w))%nat with 0%nat by lia.
  reflexivity.
Qed.

Lemma new_calls_same (w : World) : new_calls w w = [].
Proof. apply new_calls_app. now rewrite app_nil_r. Qed.


(** ** Reading a run backwards *)

Section Inversion.

Context {A B : Type}.

Lemma bind_inv_return (c : M A) (k : A -> M B) (w w' : World) (b : B) :
  bind c k w = (Return b, w') ->
  exists a w1, c w = (Return a, w1) /\ k a w1 = (Return b, w').
Proof.
  unfold bind. destruct (c w) as [[a|e] w1]; [|discriminate].
  intros H. now exists a, w1.
Qed.

Lemma try_returned (c : M A) (handler : exn -> option (M A))
    (w w1 : World) (a : A) :
  c w = (Return a, w1) -> try_except c handler w = (Return a, w1).
Proof. intros H. unfold try_except. now rewrite H. Qed.

Lemma try_unhandled (c : M A) (handler : exn -> option (M A))
    (w w1 : World) (e : exn) :
  c w = (Raise e, w1) -> handler e = None ->
  try_except c handler w = (Raise e, w1).
Proof. intros Hc Hh. unfold try_except. now rewrite Hc, Hh. Qed.

End Inversion.


(** ** Invariants of a run *)

Section Invariants.

Context {A B : Type} (P : World -> Prop).

Lemma preserves_ret (a : A) : preserves P (ret a).
Proof. intros w H. exact H. Qed.

Lemma preserves_raise (e : exn) : preserves P (@raise A e).
Proof. intros w H. exact H. Qed.

Lemma preserves_lift (o : outcome A) : preserves P (lift o).
Proof. intros w H. exact H. Qed.

Lemma preserves_bind (c : M A) (k : A -> M B) :
  preserves P c -> (forall a, preserves P (k a)) -> preserves P (bind c k).
Proof.
  intros Hc Hk w H. unfold bind. specialize (Hc w H).
  destruct (c w) as [[a|e] w1]; cbn in *; [|exact Hc].
  now apply Hk.
Qed.

Lemma preserves_try (c : M A) (handler : exn -> option (M A)) :
  preserves P c ->
  (forall e h, handler e = Some h -> preserves P h) ->
  preserves P (try_except c handler).
Proof.
  intros Hc Hh w H. unfold try_except. specialize (Hc w H).
  destruct (c w) as [[a|e] w1]; cbn in *; [exact Hc|].
  destruct (handler e) as [h|] eqn:E; [|exact Hc].
  now apply (Hh e h E).
Qed.

End Invariants.

(** One step of an invariant proof: through [bind], through a [match], or
    a primitive that does not touch what the invariant reads. *)
Ltac preserves_step :=
  first
    [ solve [auto]
    | apply preserves_bind
    | match goal with |- forall _, _ => intro end
    | match goal with
      | |- preserves _ (match ?x with _ => _ end) => destruct x
      end
    | solve [apply preserves_ret | apply preserves_raise | apply preserves_lift]
    | solve [let w := fresh in let H := fresh in intros w H; exact H] ].

Lemma preserves_external (P : World -> Prop) (c : Call)
    (raises : list Call -> option exn) :
  (forall cs w, P w -> P (set_calls cs w)) ->
  preserves P (external c raises).
Proof.
  intros Hcalls. unfold external.
  assert (Hrecord : preserves P (record_call c))
    by (intros w Hw; now apply Hcalls).
  repeat preserves_step.
Qed.

(** ** Logging calls *)

Lemma set_calls_same (w : World) : set_calls (calls w) w = w.
Proof. now destruct w. Qed.

Lemma targets_set_calls (cs : list Call) (w : World) (logger : string) (levelno : Z) :
  targets (set_calls cs w) logger levelno = targets w logger levelno.
Proof. reflexivity. Qed.

(** Without a database handler on the root logger no record goes to the
    database. *)
Lemma no_mongo_handler_no_target (w : World) (logger : string) (levelno : Z) :
  List.filter is_mongo_handler (root_handlers w) = [] ->
  targets w logger levelno = [].
Proof.
  intros H. unfold targets.
  destruct ((effective_level w logger <=? levelno) && propagates w logger);
    [|reflexivity].
  induction (root_handlers w) as [|h hs IH]; [reflexivity|].
  destruct h; cbn in *; [now apply IH | discriminate].
Qed.

Lemma emit_calls_filtered (p : Call -> bool) (made : list Call) :
  (forall c, is_emit_call c = true -> p c = false) ->
  forallb is_emit_call made = true ->
  List.filter p made = [].
Proof.
  intros Hp. induction made as [|c made IH]; [reflexivity|].
  cbn. intros H. apply andb_prop in H as [Hc Hmade].
  rewrite (Hp c Hc). now apply IH.
Qed.

Section LoggingFacts.

Variable X : Externals.

(** A record with [exc_info] never reaches the insert: looking up
    [formatException] on the handler raises, and [emit] does not catch
    that. *)
Lemma emit_with_exc_info (collection : Collection) (stamp : RecordStamp)
    (logger : string) (levelno : Z) (message : string) (args exc_info : value)
    (w : World) :
  emit X collection
    (make_record stamp logger levelno message args (Some exc_info)) w
  = (Raise attribute_error, w).
Proof. reflexivity. Qed.

Lemma dispatch_quiet (logger : string) (levelno : Z) (message : string)
    (args : value) (exc_info : option value) (w : World) :
  targets w logger levelno = [] ->
  dispatch X logger levelno message args exc_info w = (Return tt, w).
Proof.
  intros H. unfold dispatch, bind, get_world. now rewrite H.
Qed.


(** [logger.exception], in every world: one entry in the trace, and the
    handler's error when a database handler takes the record. *)
Lemma logger_exception_run (logger message : string) (exc : exn) (w : World) :
  logger_exception X logger message exc w
  = (log_exception_outcome w logger,
     set_calls (calls w ++ [CallLog logger "ERROR" (message +:+ exn_str exc)]) w).
Proof.
  unfold logger_exception, log, log_exception_outcome, bind, record_call.
  unfold dispatch, bind, get_world. rewrite targets_set_calls.
  destruct (targets w logger LogLevel.ERROR) as [|collection rest];
    reflexivity.
Qed.

Lemma bind_logger_exception {B} (logger message : string) (exc : exn)
    (k : unit -> M B) (w : World) :
  bind (logger_exception X logger message exc) k w
  = let w' := set_calls (calls w ++ [CallLog logger "ERROR"
                                       (message +:+ exn_str exc)]) w in
    match log_exception_outcome w logger with
    | Return _ => k tt w'
    | Raise e => (Raise e, w')
    end.
Proof.
  unfold bind at 1. rewrite logger_exception_run.
  now destruct (log_exception_outcome w logger) as [[]|e].
Qed.

(** What a handler leaves in the world: calls of its own, added to the
    trace. *)
Lemma emit_trace (collection : Collection) (record : LogRecord) (w : World) :
  exists made,
    snd (emit X collection record w) = set_calls (calls w ++ made) w
    /\ forallb is_emit_call made = true.
Proof.
  unfold emit, try_except, bind, lift.
  destruct (build_log_document record) as [document|e].
  - unfold insert_one, external, bind, get_world, record_call, raise, ret,
      handleError.
    cbn.
    destruct (insert_one_raises X (calls w) collection document) as [[]|]; cbn.
    + exists [CallInsertOne collection document; CallHandleError record].
      split; [|reflexivity]. unfold set_calls. cbn.
      now rewrite <- app_assoc.
    + exists [CallInsertOne collection document]. split; reflexivity.
    + exists [CallInsertOne collection document]. split; reflexivity.
    + exists [CallInsertOne collection document]. split; reflexivity.
    + exists [CallInsertOne collection document]. split; reflexivity.
    + exists [CallInsertOne collection document]. split; reflexivity.
  - destruct e; cbn;
      try (exists []; split; [|reflexivity];
           now rewrite app_nil_r, set_calls_same).
    exists [CallHandleError record]. split; reflexivity.
Qed.

Lemma emit_all_trace (collections : list Collection) (record : LogRecord) :
  forall w,
    exists made,
      snd (emit_all X collections record w) = set_calls (calls w ++ made) w
      /\ forallb is_emit_call made = true.
Proof.
  induction collections as [|collection rest IH]; intros w; cbn [emit_all].
  - exists []. split; [|reflexivity].
    cbn. now rewrite app_nil_r, set_calls_same.
  - destruct (emit_trace collection record w) as (made & Hw & Hmade).
    unfold bind.
    destruct (emit X collection record w) as [[[]|e] w1]; cbn [snd] in *;
      [|now exists made].
    destruct (IH w1) as (made' & Hw' & Hmade').
    exists (made ++ made'). split.
    + rewrite Hw', Hw. cbn. now rewrite app_assoc.
    + now rewrite forallb_app, Hmade, Hmade'.
Qed.

Lemma dispatch_trace (logger : string) (levelno : Z) (message : string)
    (args : value) (exc_info : option value) (w : World) :
  exists made,
    snd (dispatch X logger levelno message args exc_info w)
    = set_calls (calls w ++ made) w
    /\ forallb is_emit_call made = true.
Proof. unfold dispatch, bind, get_world. apply emit_all_trace. Qed.

Lemma log_trace (logger : string) (levelno : Z) (message : string)
    (args : value) (exc_info : option value) (w : World) :
  exists made,
    snd (log X logger levelno message args exc_info w)
    = set_calls
        (calls w ++ CallLog logger (LogLevel.name levelno) message :: made) w
    /\ forallb is_emit_call made = true.
Proof.
  unfold log, bind, record_call.
  destruct (dispatch_trace logger levelno message args exc_info
              (set_calls (calls w ++ [CallLog logger (LogLevel.name levelno)
                                        message]) w))
    as (made & Hw & Hmade).
  exists made. split; [|exact Hmade].
  destruct (dispatch X logger levelno message args exc_info _) as [[[]|e] w1];
    cbn [snd] in *; rewrite Hw; cbn; now rewrite <- app_assoc.
Qed.

(** So a logging call keeps every property of the world that does not
    read the trace. *)
Lemma preserves_log (P : World -> Prop) (logger : string) (levelno : Z)
    (message : string) (args : value) (exc_info : option value) :
  (forall cs w, P w -> P (set_calls cs w)) ->
  preserves P (log X logger levelno message args exc_info).
Proof.
  intros Hcalls w Hw.
  destruct (log_trace logger levelno message args exc_info w)
    as (made & -> & _).
  now apply Hcalls.
Qed.

End LoggingFacts.


(** ** Span exporter *)

Lemma insert_many_run (X : Externals) (collection : Collection)
    (documents : list value) (w : World) :
  insert_many X collection documents w
  = (match insert_many_raises X (calls w) collection documents with
     | Some e => Raise e
     | None => Return tt
     end,
     set_calls (calls w ++ [CallInsertMany collection documents]) w).
Proof.
  unfold insert_many, external, bind, get_world, record_call, raise, ret. cbn.
  now destruct (insert_many_raises X (calls w) collection documents).
Qed.

(** What [MongoSpanExporter.export] does, case by case. *)
Lemma span_export_run (X : Externals) (collection : Collection)
    (spans : list ReadableSpan) (w : World) :
  let documents := map span_document spans in
  span_export X collection spans w =
    match spans with
    | [] => (Return SpanExportResult.SUCCESS, w)
    | _ :: _ =>
        match insert_many_raises X (calls w) collection documents with
        | None =>
            (Return SpanExportResult.SUCCESS,
             set_calls (calls w ++ [CallInsertMany collection documents]) w)
        | Some (PyMongoError msg) =>
            (obind (log_exception_outcome w telemetry_logger)
                   (fun _ => Return SpanExportResult.FAILURE),
             set_calls (calls w ++ [CallInsertMany collection documents;
                                    CallLog telemetry_logger "ERROR"
                                      ("Failed to export spans to MongoDB: " +:+ msg)]) w)
        | Some e =>
            (Raise e, set_calls (calls w ++ [CallInsertMany collection documents]) w)
        end
    end.
Proof.
  intros documents. unfold span_export. rewrite span_documents_map.
  fold documents.
  destruct spans as [|s spans]; [reflexivity|].
  assert (Hne : is_empty documents = false) by reflexivity.
  rewrite Hne. clear Hne.
  generalize documents. clear documents. intros documents.
  unfold bind at 1. unfold try_except. unfold bind at 1.
  rewrite insert_many_run.
  destruct (insert_many_raises X (calls w) collection documents) as [e|];
    [|reflexivity].
  destruct e; try reflexivity.
  cbv iota beta. rewrite bind_logger_exception. cbv zeta.
  unfold log_exception_outcome. rewrite targets_set_calls.
  destruct (targets w telemetry_logger LogLevel.ERROR);
    cbn; rewrite <- ?app_assoc; reflexivity.
Qed.


(** *** Identifiers *)

Lemma format_trace_id (n : Z) :
  trace_id_in_range n = true ->
  PyFormat.fixed_hex 32 (PyFormat.format_0x 32 n) = true.
Proof.
  unfold trace_id_in_range. intros H.
  apply andb_prop in H as [Hlo Hhi].
  apply Z.leb_le in Hlo. apply Z.ltb_lt in Hhi.
  apply (format_0x_fixed 31).
  assert (E : 16 ^ Z.of_nat 32 = 2 ^ 128) by reflexivity.
  rewrite E. lia.
Qed.

Lemma format_span_id (n : Z) :
  span_id_in_range n = true ->
  PyFormat.fixed_hex 16 (PyFormat.format_0x 16 n) = true.
Proof.
  unfold span_id_in_range. intros H.
  apply andb_prop in H as [Hlo Hhi].
  apply Z.leb_le in Hlo. apply Z.ltb_lt in Hhi.
  apply (format_0x_fixed 15).
  assert (E : 16 ^ Z.of_nat 16 = 2 ^ 64) by reflexivity.
  rewrite E. lia.
Qed.

Lemma span_document_trace_id (span : ReadableSpan) :
  vpath ["context"; "trace_id"] (span_document span)
  = Some (VStr (PyFormat.format_0x 32 (trace_id (span_context span)))).
Proof. reflexivity. Qed.

Lemma span_document_span_id (span : ReadableSpan) :
  vpath ["context"; "span_id"] (span_document span)
  = Some (VStr (PyFormat.format_0x 16 (span_id (span_context span)))).
Proof. reflexivity. Qed.

Lemma span_document_parent (span : ReadableSpan) :
  vget "parent_span_id" (span_document span)
  = Some (match span_parent span with
          | None => VNone
          | Some p => VStr (PyFormat.format_0x 16 (span_id p))
          end).
Proof. reflexivity. Qed.

Lemma span_document_links (span : ReadableSpan) :
  vget "links" (span_document span)
  = Some (VList (map link_document (span_links span))).
Proof. reflexivity. Qed.

Lemma link_document_ids_ok (link : Link) :
  context_in_range (link_context link) = true ->
  link_ids_ok (link_document link) = true.
Proof.
  unfold context_in_range, link_ids_ok. intros H.
  apply andb_prop in H as [Ht Hs].
  change (vpath ["context"; "trace_id"] (link_document link))
    with (Some (VStr (PyFormat.format_0x 32 (trace_id (link_context link))))).
  change (vpath ["context"; "span_id"] (link_document link))
    with (Some (VStr (PyFormat.format_0x 16 (span_id (link_context link))))).
  unfold hex_field. now rewrite format_trace_id, format_span_id.
Qed.

Lemma span_document_ids_ok (span : ReadableSpan) :
  span_ids_in_range span = true ->
  span_doc_ids_ok (span_document span) = true.
Proof.
  unfold span_ids_in_range, span_doc_ids_ok, context_in_range. intros H.
  apply andb_prop in H as [H Hlinks].
  apply andb_prop in H as [H Hparent].
  apply andb_prop in H as [Ht Hs].
  rewrite span_document_trace_id, span_document_span_id,
    span_document_parent, span_document_links.
  unfold hex_field at 1 2.
  rewrite format_trace_id, format_span_id by assumption.
  cbn [andb].
  apply andb_true_intro. split.
  - destruct (span_parent span) as [p|]; [|reflexivity].
    unfold hex_field. now apply format_span_id.
  - rewrite forallb_forall in *. intros d Hd.
    apply in_map_iff in Hd as [l [<- Hl]].
    apply link_document_ids_ok. now apply Hlinks.
Qed.

(** C1: for every batch of spans, whose identifiers are those of the
    tracing API (trace identifiers of 128 bits, span identifiers of 64
    bits), every document that [MongoSpanExporter.export] builds, and every
    document it hands to the bulk insert, has a [trace_id] of exactly 32
    and a [span_id] of exactly 16 lowercase hexadecimal characters, in its
    context and in the context of each of its links; [parent_span_id] has
    16 such characters when the span has a parent. *)
Theorem span_export_ids_fixed_width (X : Externals) (collection : Collection)
    (spans : list ReadableSpan) (w : World) :
  forallb span_ids_in_range spans = true ->
  Forall (fun d => span_doc_ids_ok d = true) (span_documents spans)
  /\ (forall c documents,
        In (CallInsertMany c documents)
           (new_calls w (snd (span_export X collection spans w))) ->
        Forall (fun d => span_doc_ids_ok d = true) documents)
  /\ (forall span p,
        In span spans -> span_parent span = Some p ->
        hex_field 16 (vget "parent_span_id" (span_document span)) = true).
Proof.
  intros Hrange.
  assert (Hall : Forall (fun d => span_doc_ids_ok d = true) (map span_document spans)).
  { apply List.Forall_forall. intros d Hd.
    apply in_map_iff in Hd as [sp [<- Hsp]].
    apply span_document_ids_ok.
    rewrite forallb_forall in Hrange. now apply Hrange. }
  split; [now rewrite span_documents_map|].
  split.
  - intros c documents Hin.
    pose proof (span_export_run X collection spans w) as Hrun.
    cbv zeta in Hrun. rewrite Hrun in Hin. clear Hrun.
    destruct spans as [|s spans].
    + cbn [snd] in Hin. rewrite new_calls_same in Hin. destruct Hin.
    + destruct (insert_many_raises X (calls w) collection
                  (map span_document (s :: spans))) as [[]|];
        cbn [snd] in Hin;
        erewrite new_calls_app in Hin by reflexivity;
        cbn [In] in Hin;
        repeat match goal with
               | H : _ \/ _ |- _ => destruct H
               | H : False |- _ => destruct H
               | H : CallInsertMany _ _ = CallInsertMany _ _ |- _ =>
                   injection H as <- <-; exact Hall
               | H : CallLog _ _ _ = CallInsertMany _ _ |- _ => discriminate H
               end.
  - intros span p Hin Hp.
    rewrite span_document_parent, Hp. unfold hex_field.
    apply format_span_id.
    rewrite forallb_forall in Hrange. specialize (Hrange span Hin).
    unfold span_ids_in_range in Hrange. rewrite Hp in Hrange.
    apply andb_prop in Hrange as [Hrange _].
    now apply andb_prop in Hrange as [_ Hrange].
Qed.

Lemma span_export_ids_fixed_width_witness :
  forallb span_ids_in_range [Sample.small_span] = true
  /\ Forall (fun d => span_doc_ids_ok d = true) (span_documents [Sample.small_span])
  /\ (forall c documents,
        In (CallInsertMany c documents)
           (new_calls (Sample.world ∅)
              (snd (span_export (Sample.externals VNone) Sample.traces_collection
                      [Sample.small_span] (Sample.world ∅)))) ->
        Forall (fun d => span_doc_ids_ok d = true) documents)
  /\ (forall span p,
        In span [Sample.small_span] -> span_parent span = Some p ->
        hex_field 16 (vget "parent_span_id" (span_document span)) = true).
Proof.
  split; [reflexivity|].
  apply (span_export_ids_fixed_width (Sample.externals VNone)
           Sample.traces_collection [Sample.small_span] (Sample.world ∅)).
  reflexivity.
Defined.

(** The widths are minimum widths: a number of 129 bits, which is not an
    identifier of the tracing API, would be written with 33 characters. *)
Example wide_number_has_33_characters :
  In (CallInsertMany Sample.traces_collection [span_document Sample.wide_span])
     (calls (snd (span_export (Sample.externals VNone) Sample.traces_collection
                    [Sample.wide_span] (Sample.world ∅))))
  /\ vpath ["context"; "trace_id"] (span_document Sample.wide_span)
     = Some (VStr "100000000000000000000000000000000")
  /\ span_doc_ids_ok (span_document Sample.wide_span) = false.
Proof.
  split; [left; reflexivity|]. split; reflexivity.
Qed.

(** *** Result and inserts *)

(** Start-up with the default environment and a database that answers:
    the exporters are on the [traces] and [metrics] collections, and the
    root logger has the stream handler and the database handler, both at
    INFO. *)
Example configured_process (answer : HttpOutcome) :
  let X := Sample.inserts_fail answer in
  let resource : pydict :=
    [ ("service.name", VStr "devto-news-service");
      ("service.version", VStr "1.0.0");
      ("service.instance.id", VStr "local-instance") ] in
  let tp :=
    {| tracer_resource := resource;
       span_processors :=
         [BatchSpanProcessor
            (MongoSpanExporter (SampleEnv.default_collection "traces"))] |} in
  let mp :=
    {| meter_resource := resource;
       metric_readers :=
         [PeriodicExportingMetricReader
            (MongoMetricExporter (SampleEnv.default_collection "metrics"))] |} in
  fst (configure_telemetry X (Sample.world ∅)) = Return (tp, mp)
  /\ root_handlers (SampleEnv.configured X)
     = [StreamHandler;
        MongoLoggingHandler (SampleEnv.default_collection "logs") INFO]
  /\ root_level (SampleEnv.configured X) = Some INFO.
Proof.
  cbv zeta. split; [|split].
  - vm_compute. reflexivity.
  - vm_compute. reflexivity.
  - vm_compute. reflexivity.
Qed.

(** C2 fails where a database logging handler takes the ERROR records of
    the module's logger, as in the process that [configure_telemetry] has
    set up: when the bulk insert of a non-empty batch raises a
    [PyMongoError], [logger.exception] hands the record to
    [MongoLoggingHandler.emit], which raises [AttributeError] on
    [self.formatException]; the export then raises that error to the SDK
    instead of returning FAILURE.  The insert and the log call have been
    made. *)
Theorem span_export_failure_raises (X : Externals) (collection : Collection)
    (spans : list ReadableSpan) (w : World) (msg : string) :
  spans <> [] ->
  insert_many_raises X (calls w) collection (map span_document spans)
  = Some (PyMongoError msg) ->
  targets w telemetry_logger LogLevel.ERROR <> [] ->
  fst (span_export X collection spans w) = Raise attribute_error
  /\ new_calls w (snd (span_export X collection spans w))
     = [CallInsertMany collection (map span_document spans);
        CallLog telemetry_logger "ERROR"
          ("Failed to export spans to MongoDB: " +:+ msg)].
Proof.
  intros Hne Hraise Htargets. rewrite span_export_run. cbv zeta.
  destruct spans as [|s spans]; [contradiction|].
  rewrite Hraise. cbn [fst snd]. split.
  - unfold log_exception_outcome.
    destruct (targets w telemetry_logger LogLevel.ERROR); [contradiction|].
    reflexivity.
  - now apply new_calls_app.
Qed.

Lemma span_export_failure_raises_witness :
  let X := Sample.inserts_fail (HttpResponse 200 None) in
  fst (span_export X (SampleEnv.default_collection "traces") [Sample.small_span]
         (SampleEnv.configured X))
  = Raise (OtherError "AttributeError"
             "'MongoLoggingHandler' object has no attribute 'formatException'")
  /\ new_calls (SampleEnv.configured X)
       (snd (span_export X (SampleEnv.default_collection "traces")
               [Sample.small_span] (SampleEnv.configured X)))
     = [CallInsertMany (SampleEnv.default_collection "traces")
          [span_document Sample.small_span];
        CallLog telemetry_logger "ERROR"
          "Failed to export spans to MongoDB: not primary"].
Proof.
  cbv zeta.
  apply (span_export_failure_raises (Sample.inserts_fail (HttpResponse 200 None))
           (SampleEnv.default_collection "traces") [Sample.small_span]
           (SampleEnv.configured (Sample.inserts_fail (HttpResponse 200 None)))
           "not primary").
  - discriminate.
  - reflexivity.
  - vm_compute. discriminate.
Defined.

(** Where no database handler takes the record, as before start-up has
    installed one or after the fallback, the export returns a result in
    every case of the database: SUCCESS and no insert for an empty batch;
    one bulk insert for a non-empty one, then SUCCESS without a log call,
    or FAILURE with exactly one log call when the insert raises a
    [PyMongoError]. *)
Lemma span_export_result_without_database_handler (X : Externals)
    (collection : Collection) (spans : list ReadableSpan) (w : World) :
  targets w telemetry_logger LogLevel.ERROR = [] ->
  forall result w',
    span_export X collection spans w = (result, w') ->
    (spans = [] ->
     result = Return SpanExportResult.SUCCESS
     /\ count_calls is_insert (new_calls w w') = 0%nat)
    /\ (spans <> [] ->
        count_calls is_insert (new_calls w w') = 1%nat
        /\ In (CallInsertMany collection (map span_document spans)) (new_calls w w')
        /\ (insert_many_raises X (calls w) collection (map span_document spans) = None ->
            result = Return SpanExportResult.SUCCESS
            /\ count_calls is_log (new_calls w w') = 0%nat)
        /\ (forall msg,
              insert_many_raises X (calls w) collection (map span_document spans)
              = Some (PyMongoError msg) ->
              result = Return SpanExportResult.FAILURE
              /\ count_calls is_log (new_calls w w') = 1%nat)).
Proof.
  intros Hquiet result w' Hrun.
  rewrite span_export_run in Hrun. cbv zeta in Hrun.
  unfold log_exception_outcome in Hrun. rewrite Hquiet in Hrun.
  destruct spans as [|s spans].
  - injection Hrun as <- <-. rewrite new_calls_same.
    split; [intros _; split; reflexivity | intros H; now destruct H].
  - split; [discriminate|]. intros _.
    destruct (insert_many_raises X (calls w) collection
                (map span_document (s :: spans))) as [[]|];
      injection Hrun as <- <-;
      erewrite new_calls_app by reflexivity;
      (split; [reflexivity|]); (split; [left; reflexivity|]);
      split; try discriminate; intros; split; reflexivity.
Qed.


(** ** Metric exporter *)

Lemma fold_flat {A B} (step : list B -> A -> list B) (f : A -> list B) :
  (forall acc x, step acc x = acc ++ f x) ->
  forall l init, fold_left step l init = init ++ flat_map f l.
Proof.
  intros Hstep. induction l as [|x l IH]; intros init; simpl.
  - now rewrite app_nil_r.
  - rewrite IH, Hstep, <- app_assoc. reflexivity.
Qed.

Lemma datapoints_of_map (metric : Metric) :
  datapoints_of metric = map point_payload (data_points metric).
Proof. unfold datapoints_of. now rewrite fold_append_map. Qed.

(** One document per metric, in the order of the snapshot. *)
Lemma metric_documents_flat (metrics_data : MetricsData) :
  metric_documents metrics_data
  = flat_map
      (fun rm =>
         flat_map
           (fun sm =>
              map (metric_document (_serialize_attributes (resource_attributes rm))
                                   (scope_info (scope sm)))
                  (metrics sm))
           (scope_metrics rm))
      (resource_metrics metrics_data).
Proof.
  unfold metric_documents.
  rewrite (fold_flat _
             (fun rm =>
                flat_map
                  (fun sm =>
                     map (metric_document (_serialize_attributes (resource_attributes rm))
                                          (scope_info (scope sm)))
                         (metrics sm))
                  (scope_metrics rm))); [reflexivity|].
  intros acc rm. cbv zeta.
  apply (fold_flat _
           (fun sm =>
              map (metric_document (_serialize_attributes (resource_attributes rm))
                                   (scope_info (scope sm)))
                  (metrics sm))).
  intros acc' sm. cbv zeta.
  rewrite (fold_flat _ (fun metric =>
                          [metric_document (_serialize_attributes (resource_attributes rm))
                                           (scope_info (scope sm)) metric])).
  - f_equal.
  - reflexivity.
Qed.

Lemma metric_document_data (ra : pydict) (info : value) (metric : Metric) :
  vget "data" (metric_document ra info metric)
  = Some (VList (map point_payload (data_points metric))).
Proof.
  rewrite <- datapoints_of_map. reflexivity.
Qed.

(** The datapoint list of the i-th document is built from the i-th metric. *)
Lemma metric_documents_data (metrics_data : MetricsData) :
  Forall2 (fun document metric =>
             vget "data" document
             = Some (VList (map point_payload (data_points metric))))
          (metric_documents metrics_data) (all_metrics metrics_data).
Proof.
  rewrite metric_documents_flat. unfold all_metrics.
  induction (resource_metrics metrics_data) as [|rm rms IHrm]; simpl;
    [constructor|].
  apply Forall2_app; [|exact IHrm].
  induction (scope_metrics rm) as [|sm sms IHsm]; simpl; [constructor|].
  apply Forall2_app; [|exact IHsm].
  induction (metrics sm) as [|m ms IHm]; simpl; constructor;
    [apply metric_document_data | exact IHm].
Qed.

(** What [MongoMetricExporter.export] does, case by case. *)
Lemma metric_export_run (X : Externals) (collection : Collection)
    (metrics_data : MetricsData) (w : World) :
  let documents := metric_documents metrics_data in
  metric_export X collection metrics_data w =
    match documents with
    | [] => (Return MetricExportResult.SUCCESS, w)
    | _ :: _ =>
        match insert_many_raises X (calls w) collection documents with
        | None =>
            (Return MetricExportResult.SUCCESS,
             set_calls (calls w ++ [CallInsertMany collection documents]) w)
        | Some (PyMongoError msg) =>
            (obind (log_exception_outcome w telemetry_logger)
                   (fun _ => Return MetricExportResult.FAILURE),
             set_calls (calls w ++ [CallInsertMany collection documents;
                                    CallLog telemetry_logger "ERROR"
                                      ("Failed to export metrics to MongoDB: " +:+ msg)]) w)
        | Some e =>
            (Raise e, set_calls (calls w ++ [CallInsertMany collection documents]) w)
        end
    end.
Proof.
  intros documents. unfold metric_export. fold documents.
  generalize documents. clear documents. intros documents.
  destruct documents as [|d documents]; [reflexivity|].
  cbn [is_empty].
  unfold bind at 1. unfold try_except. unfold bind at 1.
  rewrite insert_many_run.
  destruct (insert_many_raises X (calls w) collection (d :: documents)) as [e|];
    [|reflexivity].
  destruct e; try reflexivity.
  cbv iota beta. rewrite bind_logger_exception. cbv zeta.
  unfold log_exception_outcome. rewrite targets_set_calls.
  destruct (targets w telemetry_logger LogLevel.ERROR);
    cbn; rewrite <- ?app_assoc; reflexivity.
Qed.

(** The calls of an export that inserts: the bulk insert first, and no
    other insert. *)
Lemma metric_export_calls (X : Externals) (collection : Collection)
    (metrics_data : MetricsData) (w : World) :
  metric_documents metrics_data <> [] ->
  exists rest,
    new_calls w (snd (metric_export X collection metrics_data w))
    = CallInsertMany collection (metric_documents metrics_data) :: rest
    /\ count_calls is_insert rest = 0%nat
    /\ (length rest <= 1)%nat.
Proof.
  intros Hne. rewrite metric_export_run. cbv zeta.
  destruct (metric_documents metrics_data) as [|d ds]; [contradiction|].
  destruct (insert_many_raises X (calls w) collection (d :: ds)) as [[]|];
    cbn [snd]; eexists;
    (split; [apply new_calls_app; reflexivity|]); split; cbn; (reflexivity || lia).
Qed.

(** One document per metric, with the data points of that metric: the
    datapoint list of a document is empty exactly when its metric has no
    data point. *)
Lemma metric_documents_datapoints (metrics_data : MetricsData) :
  Forall2 (fun document metric =>
             vget "data" document
             = Some (VList (map point_payload (data_points metric)))
             /\ has_datapoints document = negb (is_empty (data_points metric)))
          (metric_documents metrics_data) (all_metrics metrics_data).
Proof.
  pose proof (metric_documents_data metrics_data) as Hdata.
  induction Hdata as [|d m ds ms Hd Hrest IH]; constructor; [|exact IH].
  split; [exact Hd|].
  unfold has_datapoints. rewrite Hd. now destruct (data_points m).
Qed.

(** C3, as amended: a snapshot without any metric causes no insert and
    gives SUCCESS, the world as before.  Any other snapshot causes exactly
    one bulk insert, made first, on the exporter's collection; the batch
    holds one document per metric of the snapshot, in order, and the
    datapoint list of each document has one entry per data point of its
    metric.  So a document of the batch has a non-empty datapoint list
    exactly when its metric has a data point: a metric without data points
    is not skipped, its document is inserted with an empty list. *)
Theorem metric_export_datapoints (X : Externals) (collection : Collection)
    (metrics_data : MetricsData) (w : World) :
  (all_metrics metrics_data = [] ->
   metric_export X collection metrics_data w
   = (Return MetricExportResult.SUCCESS, w))
  /\ (all_metrics metrics_data <> [] ->
      exists documents rest,
        new_calls w (snd (metric_export X collection metrics_data w))
        = CallInsertMany collection documents :: rest
        /\ count_calls is_insert rest = 0%nat
        /\ Forall2
             (fun document metric =>
                vget "data" document
                = Some (VList (map point_payload (data_points metric)))
                /\ has_datapoints document
                   = negb (is_empty (data_points metric)))
             documents (all_metrics metrics_data)).
Proof.
  pose proof (metric_documents_datapoints metrics_data) as Hdata.
  split.
  - intros Hnone. rewrite Hnone in Hdata. inversion Hdata as [Hdocs|].
    rewrite metric_export_run. cbv zeta. now rewrite <- Hdocs.
  - intros Hsome.
    assert (Hne : metric_documents metrics_data <> []).
    { intros Hnil. rewrite Hnil in Hdata. inversion Hdata as [Hm|].
      now apply Hsome. }
    destruct (metric_export_calls X collection metrics_data w Hne)
      as (rest & Hcalls & Hrest & _).
    exists (metric_documents metrics_data), rest.
    split; [exact Hcalls|]. split; [exact Hrest | exact Hdata].
Qed.

Lemma metric_export_datapoints_witness :
  exists documents rest,
    new_calls (Sample.world ∅)
      (snd (metric_export (Sample.externals VNone) Sample.metrics_collection
              (Sample.snapshot [Sample.counter_point]) (Sample.world ∅)))
    = CallInsertMany Sample.metrics_collection documents :: rest
    /\ count_calls is_insert rest = 0%nat
    /\ Forall2
         (fun document metric =>
            vget "data" document
            = Some (VList (map point_payload (data_points metric)))
            /\ has_datapoints document = negb (is_empty (data_points metric)))
         documents (all_metrics (Sample.snapshot [Sample.counter_point])).
Proof.
  apply (metric_export_datapoints (Sample.externals VNone) Sample.metrics_collection
           (Sample.snapshot [Sample.counter_point]) (Sample.world ∅)).
  discriminate.
Defined.

(** C3, as stated, fails: a metric without data points is not skipped; its
    document is inserted with an empty datapoint list. *)
Lemma empty_metric_is_inserted :
  let document := metric_document [("service.name", VStr "devto-news-service")]
                    (scope_info {| scope_name := "app.main"; scope_version := None |})
                    (Sample.metric []) in
  In (CallInsertMany Sample.metrics_collection [document])
     (calls (snd (metric_export (Sample.externals VNone) Sample.metrics_collection
                    (Sample.snapshot []) (Sample.world ∅))))
  /\ vget "data" document = Some (VList [])
  /\ has_datapoints document = false.
Proof.
  cbv zeta. split; [left; reflexivity|]. split; reflexivity.
Qed.


(** ** Logging handler *)

(** What [MongoLoggingHandler.emit] does, case by case. *)
Lemma emit_run (X : Externals) (collection : Collection) (record : LogRecord)
    (w : World) :
  emit X collection record w =
    match build_log_document record with
    | Return document =>
        let insert := CallInsertOne collection document in
        match insert_one_raises X (calls w) collection document with
        | None => (Return tt, set_calls (calls w ++ [insert]) w)
        | Some (PyMongoError _) =>
            (Return tt, set_calls (calls w ++ [insert; CallHandleError record]) w)
        | Some e => (Raise e, set_calls (calls w ++ [insert]) w)
        end
    | Raise (PyMongoError _) =>
        (Return tt, set_calls (calls w ++ [CallHandleError record]) w)
    | Raise e => (Raise e, w)
    end.
Proof.
  unfold emit, try_except, bind, lift.
  destruct (build_log_document record) as [document|e].
  - unfold insert_one, external, bind, get_world, record_call, raise, ret,
      handleError.
    cbn.
    destruct (insert_one_raises X (calls w) collection document) as [[]|];
      cbn; try reflexivity.
    unfold record_call, set_calls. cbn. now rewrite <- app_assoc.
  - now destruct e.
Qed.

(** The document of a record is built only when the record has no
    [exc_info]. *)
Lemma build_log_document_exc_info (record : LogRecord) (message : string)
    (created_at : Z) :
  record_getMessage record = Return message ->
  record_created_at record = Return created_at ->
  build_log_document record
  = match record_exc_info record with
    | Some _ => Raise attribute_error
    | None => Return (log_document record message created_at)
    end.
Proof. intros Hm Hc. unfold build_log_document. now rewrite Hm, Hc. Qed.

(** C7: for every record whose document the handler builds and hands to
    [insert_one], when that insert raises a [PyMongoError], [emit] calls
    [handleError] for the record and returns; nothing is raised to the code
    that logged. *)
Theorem emit_absorbs_database_error (X : Externals) (collection : Collection)
    (record : LogRecord) (w : World) (document : value) (msg : string) :
  build_log_document record = Return document ->
  insert_one_raises X (calls w) collection document = Some (PyMongoError msg) ->
  exists w',
    emit X collection record w = (Return tt, w')
    /\ new_calls w w' = [ CallInsertOne collection document;
                          CallHandleError record ].
Proof.
  intros Hdocument Hraise.
  rewrite emit_run, Hdocument. cbv zeta. rewrite Hraise.
  eexists. split; [reflexivity|]. now apply new_calls_app.
Qed.

Lemma emit_absorbs_database_error_witness :
  exists w',
    emit Sample.database_down Sample.logs_collection Sample.record (Sample.world ∅)
    = (Return tt, w')
    /\ new_calls (Sample.world ∅) w'
       = [ CallInsertOne Sample.logs_collection
             (log_document Sample.record "started" 0);
           CallHandleError Sample.record ].
Proof.
  apply (emit_absorbs_database_error Sample.database_down Sample.logs_collection
           Sample.record (Sample.world ∅)
           (log_document Sample.record "started" 0) "connection refused").
  - reflexivity.
  - reflexivity.
Defined.

(** A record with [exc_info], as [logger.exception] makes them, is not
    written at all: [emit] raises before the insert. *)
Example emit_failure_record :
  emit Sample.database_down Sample.logs_collection Sample.failure_record
    (Sample.world ∅)
  = (Raise attribute_error, Sample.world ∅).
Proof. reflexivity. Qed.


(** ** The cached database client *)

Arguments Py.truthy : simpl never.
Arguments Py.int : simpl never.
Arguments Py.upper : simpl never.
Arguments Py.is_plain : simpl never.
Arguments Py.repr : simpl never.
Arguments env_or : simpl never.
Arguments targets : simpl never.
Arguments dispatch : simpl never.
Arguments log : simpl never.
Arguments logger_debug : simpl never.
Arguments logger_exception : simpl never.
Arguments py_int : simpl never.
Arguments str_upper : simpl never.
Arguments getattr_logging : simpl never.
Arguments _checkLevel : simpl never.

Ltac run_py :=
  unfold bind, try_except, external, get_world, getenv, getenv_default,
    record_call, set_client, ret, raise, lift;
  cbn.


(** Constructing and caching. *)
Lemma connect_run (X : Externals) (call : MongoClientCall) (w : World) :
  bind (MongoClient_new X call)
       (fun client => bind (set_client client) (fun _ => ret client)) w
  = connected X call w.
Proof.
  unfold connected, MongoClient_new. run_py.
  now destruct (mongo_client_raises X (calls w) call).
Qed.

(** What [_mongo_client] does, case by case. *)
Lemma mongo_client_run (X : Externals) (w : World) :
  _mongo_client X w =
    match _client w with
    | Some cached => (Return cached, w)
    | None =>
        if Py.truthy (environ w !! "MONGO_URI")
        then
          match logger_debug X telemetry_logger
                  "Connecting to MongoDB using URI" w with
          | (Return _, w1) =>
              connected X
                {| positional := [of_option VStr (environ w !! "MONGO_URI")];
                   keywords := [("tz_aware", VBool true)] |} w1
          | (Raise e, w1) => (Raise e, w1)
          end
        else
          match py_int X (env_or w "MONGO_PORT" "27017") with
          | Return port =>
              connected X {| positional := [];
                             keywords := discrete_kwargs w port |} w
          | Raise e => (Raise e, w)
          end
    end.
Proof.
  unfold _mongo_client.
  unfold bind at 1. unfold get_world at 1. cbv iota beta.
  destruct (_client w) as [cached|]; [reflexivity|].
  unfold bind at 1. unfold getenv at 1. cbv iota beta.
  destruct (Py.truthy (environ w !! "MONGO_URI")).
  - unfold bind at 1.
    destruct (logger_debug X telemetry_logger _ w) as [[[]|e] w1];
      [|reflexivity].
    apply connect_run.
  - rewrite !bind_getenv_default.
    unfold bind at 1. unfold lift at 1.
    destruct (py_int X (env_or w "MONGO_PORT" "27017")) as [port|e];
      [|reflexivity].
    cbv iota beta.
    unfold bind at 1. unfold getenv at 1. cbv iota beta.
    unfold bind at 1. unfold getenv at 1. cbv iota beta.
    unfold bind at 1. unfold getenv at 1. cbv iota beta.
    cbv zeta. apply connect_run.
Qed.

Lemma logger_debug_trace (X : Externals) (logger message : string) (w : World) :
  exists made,
    snd (logger_debug X logger message w)
    = set_calls (calls w ++ CallLog logger "DEBUG" message :: made) w
    /\ forallb is_emit_call made = true.
Proof. apply (log_trace X logger LogLevel.DEBUG message (VTuple []) None w). Qed.


Lemma connected_client (X : Externals) (call : MongoClientCall) (w w' : World)
    (c : MongoClient) :
  connected X call w = (Return c, w') ->
  _client w' = Some c /\ client_call c = call.
Proof.
  unfold connected. destruct (mongo_client_raises X (calls w) call);
    [discriminate|].
  intros H. injection H as <- <-. split; reflexivity.
Qed.

Lemma connected_calls (X : Externals) (call : MongoClientCall) (w : World) :
  calls (snd (connected X call w)) = calls w ++ [CallMongoClient call].
Proof.
  unfold connected. now destruct (mongo_client_raises X (calls w) call).
Qed.

Lemma connected_raises (X : Externals) (call : MongoClientCall) (w w' : World)
    (e : exn) :
  connected X call w = (Raise e, w') -> _client w' = _client w.
Proof.
  unfold connected. destruct (mongo_client_raises X (calls w) call);
    [|discriminate].
  intros H. now injection H as _ <-.
Qed.



(** A client that [_mongo_client] returns is the one in the cache. *)
Lemma mongo_client_stores (X : Externals) (w w' : World) (c : MongoClient) :
  _mongo_client X w = (Return c, w') -> _client w' = Some c.
Proof.
  rewrite mongo_client_run.
  destruct (_client w) as [cached|] eqn:Hc.
  { intros H. injection H as <- <-. exact Hc. }
  destruct (Py.truthy (environ w !! "MONGO_URI")).
  - destruct (logger_debug X telemetry_logger _ w) as [[[]|e] w1];
      [|discriminate].
    intros H. now apply connected_client in H.
  - destruct (py_int X (env_or w "MONGO_PORT" "27017")); [|discriminate].
    intros H. now apply connected_client in H.
Qed.






(** ** Start-up *)

Lemma bind_unit_returned {B} (c : M unit) (k : unit -> M B) (w : World) :
  fst (c w) = Return tt -> bind c k w = k tt (snd (c w)).
Proof.
  intros H. unfold bind. destruct (c w) as [[[]|e] w1]; [reflexivity|].
  discriminate H.
Qed.

Lemma preserves_mongo_client (X : Externals) (P : World -> Prop) :
  (forall cs w, P w -> P (set_calls cs w)) ->
  (forall c w, P w -> P (with_client c w)) ->
  preserves P (_mongo_client X).
Proof.
  intros Hcalls Hclient. unfold _mongo_client, MongoClient_new, logger_debug.
  assert (Hrecord : forall c, preserves P (record_call c))
    by (intros c w Hw; now apply Hcalls).
  assert (Hset : forall c, preserves P (set_client c))
    by (intros c w Hw; now apply Hclient).
  assert (Hext : forall c r, preserves P (external c r))
    by (intros c r; now apply preserves_external).
  assert (Hlog : forall logger levelno message args exc_info,
             preserves P (log X logger levelno message args exc_info))
    by (intros; now apply preserves_log).
  repeat preserves_step.
Qed.

Lemma preserves_acquire_collections (X : Externals) (P : World -> Prop)
    (a b c : string) :
  (forall cs w, P w -> P (set_calls cs w)) ->
  (forall cl w, P w -> P (with_client cl w)) ->
  preserves P (acquire_collections X a b c).
Proof.
  intros Hcalls Hclient.
  unfold acquire_collections, _mongo_database, client_getitem, database_getitem.
  pose proof (preserves_mongo_client X P Hcalls Hclient).
  repeat preserves_step.
Qed.

(** Acquiring the collections touches the client cache and the call trace
    only: the logging configuration, the environment and the registered
    providers are as before. *)
Lemma acquire_collections_frame (X : Externals) (a b c : string) (w : World) :
  let w1 := snd (acquire_collections X a b c w) in
  root_handlers w1 = root_handlers w
  /\ environ w1 = environ w
  /\ tracer_provider_global w1 = tracer_provider_global w
  /\ meter_provider_global w1 = meter_provider_global w.
Proof.
  cbv zeta. repeat split.
  - apply (preserves_acquire_collections X
             (fun w0 => root_handlers w0 = root_handlers w));
      [intros ? ? Hw; exact Hw | intros ? ? Hw; exact Hw | reflexivity].
  - apply (preserves_acquire_collections X (fun w0 => environ w0 = environ w));
      [intros ? ? Hw; exact Hw | intros ? ? Hw; exact Hw | reflexivity].
  - apply (preserves_acquire_collections X
             (fun w0 => tracer_provider_global w0 = tracer_provider_global w));
      [intros ? ? Hw; exact Hw | intros ? ? Hw; exact Hw | reflexivity].
  - apply (preserves_acquire_collections X
             (fun w0 => meter_provider_global w0 = meter_provider_global w));
      [intros ? ? Hw; exact Hw | intros ? ? Hw; exact Hw | reflexivity].
Qed.

Arguments acquire_collections : simpl never.

(** [logging.basicConfig] touches the level and the handlers of the root
    logger only, and only when the root logger has no handler; it then
    adds a stream handler, also when the level is refused. *)
Lemma basicConfig_frame (level : LevelArg) (w : World) :
  let w' := snd (basicConfig level w) in
  root_handlers w'
  = match root_handlers w with
    | [] => [StreamHandler]
    | existing => existing
    end
  /\ calls w' = calls w
  /\ environ w' = environ w
  /\ _client w' = _client w
  /\ tracer_provider_global w' = tracer_provider_global w
  /\ meter_provider_global w' = meter_provider_global w.
Proof.
  unfold basicConfig.
  destruct (root_handlers w) eqn:Hh; [destruct (_checkLevel level)|];
    cbn; rewrite ?Hh; repeat split.
Qed.

Lemma basicConfig_int_returns (n : Z) (w : World) :
  fst (basicConfig (LevelInt n) w) = Return tt.
Proof. unfold basicConfig. now destruct (root_handlers w). Qed.

Lemma basicConfig_keeps_database_handlers (level : LevelArg) (w : World) :
  List.filter is_mongo_handler (root_handlers (snd (basicConfig level w)))
  = List.filter is_mongo_handler (root_handlers w).
Proof.
  destruct (basicConfig_frame level w) as [-> _].
  now destruct (root_handlers w).
Qed.

Section ProviderFacts.

Variable X : Externals.

(** Registering a provider where no database handler is installed. *)
Lemma set_tracer_provider_quiet (tp : TracerProvider) (w : World) :
  List.filter is_mongo_handler (root_handlers w) = [] ->
  set_tracer_provider X tp w
  = (Return tt,
     match tracer_provider_global w with
     | None => with_tracer_provider tp w
     | Some _ => w
     end).
Proof.
  intros Hno. unfold set_tracer_provider, bind, get_world.
  destruct (tracer_provider_global w); [|reflexivity].
  apply dispatch_quiet. now apply no_mongo_handler_no_target.
Qed.

Lemma set_meter_provider_quiet (mp : MeterProvider) (w : World) :
  List.filter is_mongo_handler (root_handlers w) = [] ->
  set_meter_provider X mp w
  = (Return tt,
     match meter_provider_global w with
     | None => with_meter_provider mp w
     | Some _ => w
     end).
Proof.
  intros Hno. unfold set_meter_provider, bind, get_world.
  destruct (meter_provider_global w); [|reflexivity].
  apply dispatch_quiet. now apply no_mongo_handler_no_target.
Qed.

(** Registering a provider, in every world: the first one stays. *)
Lemma set_tracer_provider_global (tp : TracerProvider) (w : World) :
  tracer_provider_global (snd (set_tracer_provider X tp w))
  = Some (match tracer_provider_global w with
          | Some first => first
          | None => tp
          end)
  /\ meter_provider_global (snd (set_tracer_provider X tp w))
     = meter_provider_global w.
Proof.
  unfold set_tracer_provider, bind, get_world.
  destruct (tracer_provider_global w) as [first|] eqn:E.
  - destruct (dispatch_trace X "opentelemetry.trace" WARNING
                "Overriding of current TracerProvider is not allowed"
                (VTuple []) None w) as (made & -> & _).
    cbn. now rewrite E.
  - cbn. split; reflexivity.
Qed.

Lemma set_meter_provider_global (mp : MeterProvider) (w : World) :
  meter_provider_global (snd (set_meter_provider X mp w))
  = Some (match meter_provider_global w with
          | Some first => first
          | None => mp
          end)
  /\ tracer_provider_global (snd (set_meter_provider X mp w))
     = tracer_provider_global w.
Proof.
  unfold set_meter_provider, bind, get_world.
  destruct (meter_provider_global w) as [first|] eqn:E.
  - destruct (dispatch_trace X "opentelemetry.metrics._internal" WARNING
                "Overriding of current MeterProvider is not allowed"
                (VTuple []) None w) as (made & -> & _).
    cbn. now rewrite E.
  - cbn. split; reflexivity.
Qed.

(** The [except] branch of [configure_telemetry], where no database
    handler is installed. *)
Lemma fallback_telemetry_run (exc : exn) (w1 : World) :
  List.filter is_mongo_handler (root_handlers w1) = [] ->
  exists w',
    fallback_telemetry X exc w1
    = (Return ({| tracer_resource := [("service.name", VStr "devto-news-service")];
                  span_processors := [] |},
               {| meter_resource := [("service.name", VStr "devto-news-service")];
                  metric_readers := [] |}), w')
    /\ calls w'
       = calls w1 ++ [CallLog telemetry_logger "ERROR"
                        ("Unable to configure MongoDB telemetry backend: "
                         +:+ exn_str exc)]
    /\ List.filter is_mongo_handler (root_handlers w') = [].
Proof.
  intros Hno. unfold fallback_telemetry.
  rewrite (bind_unit_returned _ _ _ (basicConfig_int_returns INFO w1)).
  pose proof (basicConfig_keeps_database_handlers (LevelInt INFO) w1) as Hh2.
  rewrite Hno in Hh2.
  destruct (basicConfig_frame (LevelInt INFO) w1) as (_ & Hc2 & _).
  cbv zeta in Hc2.
  set (w2 := snd (basicConfig (LevelInt INFO) w1)) in *.
  rewrite bind_logger_exception. cbv zeta.
  unfold log_exception_outcome.
  rewrite (no_mongo_handler_no_target w2 _ _ Hh2).
  set (w3 := set_calls _ w2).
  assert (Hh3 : List.filter is_mongo_handler (root_handlers w3) = []) by exact Hh2.
  unfold bind at 1. rewrite (set_tracer_provider_quiet _ w3 Hh3).
  set (w4 := match tracer_provider_global w3 with
             | None => with_tracer_provider _ w3
             | Some _ => w3
             end).
  assert (Hw4 : root_handlers w4 = root_handlers w3 /\ calls w4 = calls w3)
    by (unfold w4; destruct (tracer_provider_global w3); split; reflexivity).
  destruct Hw4 as [Hh4 Hc4].
  assert (Hno4 : List.filter is_mongo_handler (root_handlers w4) = [])
    by (rewrite Hh4; exact Hh3).
  unfold bind at 1. rewrite (set_meter_provider_quiet _ w4 Hno4).
  set (w5 := match meter_provider_global w4 with
             | None => with_meter_provider _ w4
             | Some _ => w4
             end).
  assert (Hw5 : root_handlers w5 = root_handlers w4 /\ calls w5 = calls w4)
    by (unfold w5; destruct (meter_provider_global w4); split; reflexivity).
  destruct Hw5 as [Hh5 Hc5].
  exists w5. split; [reflexivity|]. split.
  - rewrite Hc5, Hc4. unfold w3. cbn. now rewrite Hc2.
  - now rewrite Hh5.
Qed.

End ProviderFacts.

(** C8: at start-up, when no database logging handler is installed yet,
    if acquiring the database handle and the collections raises a
    [PyMongoError], [configure_telemetry] logs the failure once and returns
    a tracer provider without span processors and a meter provider without
    metric readers; no [MongoLoggingHandler] is added to the root logger.
    It returns normally. *)
Theorem configure_telemetry_fallback (X : Externals) (w w1 : World) (msg : string) :
  List.filter is_mongo_handler (root_handlers w) = [] ->
  acquire_collections X (log_collection_name w) (trace_collection_name w)
    (metric_collection_name w) w
  = (Raise (PyMongoError msg), w1) ->
  exists tracer_provider meter_provider w',
    configure_telemetry X w = (Return (tracer_provider, meter_provider), w')
    /\ span_processors tracer_provider = []
    /\ metric_readers meter_provider = []
    /\ new_calls w1 w'
       = [CallLog telemetry_logger "ERROR"
            ("Unable to configure MongoDB telemetry backend: " +:+ msg)]
    /\ List.filter is_mongo_handler (root_handlers w')
       = List.filter is_mongo_handler (root_handlers w).
Proof.
  intros Hno Hacq.
  destruct (acquire_collections_frame X (log_collection_name w)
              (trace_collection_name w) (metric_collection_name w) w)
    as (Hframe & _).
  rewrite Hacq in Hframe. cbn [snd] in Hframe.
  assert (Hno1 : List.filter is_mongo_handler (root_handlers w1) = [])
    by now rewrite Hframe.
  destruct (fallback_telemetry_run X (PyMongoError msg) w1 Hno1)
    as (w' & Hrun & Hcalls & Hhandlers).
  unfold log_collection_name, trace_collection_name, metric_collection_name in Hacq.
  do 2 eexists. exists w'. split.
  - unfold configure_telemetry.
    rewrite !bind_getenv_default.
    erewrite bind_try_raised;
      [ | apply bind_raised; exact Hacq | reflexivity ].
    erewrite bind_returned;
      [ | erewrite bind_returned; [reflexivity | exact Hrun] ].
    reflexivity.
  - split; [reflexivity|]. split; [reflexivity|]. split.
    + now apply new_calls_app.
    + now rewrite Hhandlers, Hno.
Qed.

Lemma configure_telemetry_fallback_witness :
  exists tracer_provider meter_provider w',
    configure_telemetry Sample.database_down (Sample.world ∅)
    = (Return (tracer_provider, meter_provider), w')
    /\ span_processors tracer_provider = []
    /\ metric_readers meter_provider = []
    /\ List.filter is_mongo_handler (root_handlers w') = [].
Proof.
  destruct (acquire_collections Sample.database_down
              (log_collection_name (Sample.world ∅))
              (trace_collection_name (Sample.world ∅))
              (metric_collection_name (Sample.world ∅)) (Sample.world ∅))
    as [result w1] eqn:Hacq.
  assert (Hresult : result = Raise (PyMongoError "connection refused")).
  { vm_compute in Hacq. now injection Hacq as <- _. }
  subst result.
  destruct (configure_telemetry_fallback Sample.database_down (Sample.world ∅)
              w1 "connection refused" eq_refl Hacq)
    as (tp & mp & w' & Hrun & Htp & Hmp & _ & Hhandlers).
  exists tp, mp, w'. repeat split; assumption.
Defined.


(** ** The news endpoint *)

Lemma project_all_length (items : list value) :
  forall acc articles,
    project_all items acc = Return articles ->
    length articles = (length acc + length items)%nat.
Proof.
  induction items as [|item items IH]; intros acc articles H; cbn in H.
  - injection H as <-. cbn. lia.
  - unfold obind in H. destruct (project_article item) as [projected|e];
      [|discriminate].
    apply IH in H. rewrite H, length_app. cbn. lia.
Qed.

Lemma py_get_raises (obj : value) (key : string) (default : value) (e : exn) :
  py_get obj key default = Raise e -> exists c m, e = OtherError c m.
Proof.
  destruct obj; cbn; intros H; try discriminate;
    injection H as <-; eauto.
Qed.

Lemma project_article_raises (article : value) (e : exn) :
  project_article article = Raise e -> exists c m, e = OtherError c m.
Proof.
  unfold project_article, obind. intros H.
  repeat match type of H with
         | match py_get ?o ?k ?d with _ => _ end = _ =>
             let E := fresh "E" in
             destruct (py_get o k d) eqn:E;
             [ clear E | injection H as <-; exact (py_get_raises _ _ _ _ E) ]
         end.
  discriminate.
Qed.

Lemma project_all_raises (items : list value) :
  forall acc e, project_all items acc = Raise e -> exists c m, e = OtherError c m.
Proof.
  induction items as [|item items IH]; intros acc e H; cbn in H; [discriminate|].
  unfold obind in H. destruct (project_article item) as [projected|e'] eqn:E.
  - exact (IH _ _ H).
  - injection H as <-. exact (project_article_raises _ _ E).
Qed.

(** Decoding the body raises nothing that [get_news] catches. *)
Lemma decode_articles_raises (json : option value) (e : exn) :
  decode_articles json = Raise e -> exists c m, e = OtherError c m.
Proof.
  unfold decode_articles, obind. intros H.
  destruct json as [body|]; [|injection H as <-; eauto].
  destruct (iterate body) as [items|e'] eqn:E.
  - exact (project_all_raises _ _ _ H).
  - injection H as <-. destruct body; cbn in E; try discriminate;
      injection E as <-; eauto.
Qed.

Lemma decode_articles_length (json : option value) (articles : list value) :
  decode_articles json = Return articles ->
  exists body items,
    json = Some body /\ iterate body = Return items
    /\ length articles = length items.
Proof.
  unfold decode_articles, obind. intros H.
  destruct json as [body|]; [|discriminate].
  destruct (iterate body) as [items|e] eqn:E; [|discriminate].
  exists body, items. repeat split; [exact E|].
  now apply project_all_length in H.
Qed.

(** What [_fetch_articles] does, case by case on the upstream answer. *)
Lemma fetch_articles_run (X : Externals) (tag : string) (per_page : Z) (w : World) :
  let prefix := tl (calls_before_get tag per_page) in
  let get := CallHttpGet DEVTO_API_URL (news_params tag per_page) 10 in
  _fetch_articles X tag per_page w =
    match http_get X (calls w ++ prefix) DEVTO_API_URL (news_params tag per_page) with
    | HttpRaises e =>
        (Raise e,
         set_calls (calls w ++ prefix ++ [get; CallSpanEnd span_name_fetch (Some e)]) w)
    | HttpResponse status json =>
        let attr := CallSpanSetAttribute "http.status_code" (VInt status) in
        if is_success status
        then (decode_articles json,
              set_calls (calls w ++ prefix
                         ++ [get; attr; CallSpanEnd span_name_fetch None]) w)
        else (Raise (HTTPStatusError status "error response"),
              set_calls (calls w ++ prefix
                         ++ [get; attr;
                             CallSpanEnd span_name_fetch
                               (Some (HTTPStatusError status "error response"))]) w)
    end.
Proof.
  cbv zeta.
  unfold _fetch_articles, with_span, client_get, set_attribute, raise_for_status.
  run_py. rewrite <- ?app_assoc. cbn.
  fold (news_params tag per_page).
  destruct (http_get X _ DEVTO_API_URL (news_params tag per_page))
    as [status json|e]; cbn.
  - destruct (is_success status); cbn; rewrite <- ?app_assoc; cbn; [|reflexivity].
    unfold decode_articles, obind.
    destruct json as [body|]; cbn; [|reflexivity].
    destruct (iterate body); cbn; [|reflexivity].
    destruct (project_all _ _); reflexivity.
  - rewrite <- ?app_assoc. reflexivity.
Qed.

(** What [get_news] does, case by case on the upstream answer. *)
Lemma get_news_run (X : Externals) (tag : string) (per_page : Z) (w : World) :
  let prefix := calls_before_get tag per_page in
  let get := CallHttpGet DEVTO_API_URL (news_params tag per_page) 10 in
  get_news X tag per_page w =
    match http_get X (calls w ++ prefix) DEVTO_API_URL (news_params tag per_page) with
    | HttpRaises e =>
        let ended := prefix ++ [get; CallSpanEnd span_name_fetch (Some e)] in
        match e with
        | HTTPStatusError status _ =>
            (obind (log_exception_outcome w main_logger)
                   (fun _ => Raise (HTTPException status
                                      "Upstream error from DEV.to API")),
             set_calls (calls w ++ ended
                        ++ [CallLog main_logger "ERROR"
                              ("DEV.to API returned an error: " +:+ exn_str e)]) w)
        | RequestError _ =>
            (obind (log_exception_outcome w main_logger)
                   (fun _ => Raise (HTTPException 502 "Unable to reach DEV.to API")),
             set_calls (calls w ++ ended
                        ++ [CallLog main_logger "ERROR"
                              ("Failed to communicate with DEV.to API: " +:+ exn_str e)]) w)
        | _ => (Raise e, set_calls (calls w ++ ended) w)
        end
    | HttpResponse status json =>
        let attr := CallSpanSetAttribute "http.status_code" (VInt status) in
        if is_success status
        then
          match decode_articles json with
          | Return articles =>
              (Return (news_body tag articles),
               set_calls (calls w ++ prefix
                          ++ [get; attr; CallSpanEnd span_name_fetch None;
                              CallCounterAdd article_counter
                                (Z.of_nat (length articles)) [("tag", VStr tag)]]) w)
          | Raise e =>
              (Raise e,
               set_calls (calls w ++ prefix
                          ++ [get; attr; CallSpanEnd span_name_fetch None]) w)
          end
        else
          (obind (log_exception_outcome w main_logger)
                 (fun _ => Raise (HTTPException status
                                    "Upstream error from DEV.to API")),
           set_calls (calls w ++ prefix
                      ++ [get; attr;
                          CallSpanEnd span_name_fetch
                            (Some (HTTPStatusError status "error response"));
                          CallLog main_logger "ERROR"
                            ("DEV.to API returned an error: " +:+ "error response")]) w)
    end.
Proof.
  cbv zeta.
  unfold get_news, counter_add.
  unfold bind at 1. unfold record_call at 1.
  unfold bind at 1. unfold try_except.
  rewrite fetch_articles_run. cbv zeta. cbn [calls set_calls tl calls_before_get].
  rewrite <- (app_assoc (calls w)). cbn [app].
  destruct (http_get X _ DEVTO_API_URL (news_params tag per_page))
    as [status json|e].
  - destruct (is_success status).
    + destruct (decode_articles json) as [articles|e] eqn:Hdecode.
      * unfold bind, record_call, ret, set_calls. cbn.
        rewrite <- ?app_assoc. reflexivity.
      * destruct (decode_articles_raises _ _ Hdecode) as (c & m & ->).
        unfold set_calls. cbn. rewrite <- ?app_assoc. reflexivity.
    + cbv iota beta. rewrite bind_logger_exception. cbv zeta.
      unfold log_exception_outcome. rewrite !targets_set_calls.
      destruct (targets w main_logger LogLevel.ERROR);
        cbn; rewrite <- ?app_assoc; reflexivity.
  - destruct e; cbv iota beta; rewrite ?bind_logger_exception; cbv zeta;
      unfold log_exception_outcome; rewrite ?targets_set_calls;
      destruct (targets w main_logger LogLevel.ERROR);
      cbn; rewrite <- ?app_assoc; reflexivity.
Qed.

Lemma news_route_valid (X : Externals) (tag : string) (per_page : Z) (w : World) :
  1 <= per_page <= 30 ->
  news_route X (Some tag) (Some per_page) w
  = (let (result, w') := get_news X tag per_page w in (Return (reply_of result), w')).
Proof.
  intros [Hlo Hhi]. unfold news_route, validate_int. cbn.
  apply Z.leb_le in Hlo, Hhi. now rewrite Hlo, Hhi.
Qed.

(** C5: [tag] defaults to "technology" and [per_page] to 5; a [per_page]
    below 1 or above 30 is answered 422 and the world is as before: the
    handler is not entered and no call is made, to the upstream or
    elsewhere. *)
Theorem news_rejects_out_of_range (X : Externals) (tag : option string)
    (per_page : Z) (w : World) :
  per_page < 1 \/ 30 < per_page ->
  news_route X tag (Some per_page) w = (Return Reply422, w)
  /\ reply_status Reply422 = 422
  /\ count_calls is_http_get (new_calls w (snd (news_route X tag (Some per_page) w)))
     = 0%nat
  /\ news_route X None None w
     = (let (result, w') := get_news X "technology" 5 w in
        (Return (reply_of result), w')).
Proof.
  intros Hout.
  assert (Hreject : news_route X tag (Some per_page) w = (Return Reply422, w)).
  { unfold news_route, validate_int. cbn.
    destruct (1 <=? per_page) eqn:Hlo; destruct (per_page <=? 30) eqn:Hhi;
      try reflexivity.
    apply Z.leb_le in Hlo, Hhi. lia. }
  split; [exact Hreject|]. split; [reflexivity|].
  split; [|reflexivity].
  rewrite Hreject. cbn [snd]. now rewrite new_calls_same.
Qed.

Lemma news_rejects_out_of_range_witness :
  news_route Sample.database_down (Some "technology") (Some 31) (Sample.world ∅)
  = (Return Reply422, Sample.world ∅)
  /\ news_route Sample.database_down None (Some 0) (Sample.world ∅)
     = (Return Reply422, Sample.world ∅).
Proof.
  split.
  - apply (news_rejects_out_of_range Sample.database_down (Some "technology") 31
             (Sample.world ∅)). right. lia.
  - apply (news_rejects_out_of_range Sample.database_down None 0 (Sample.world ∅)).
    left. lia.
Defined.

(** C6 fails where a database logging handler takes the ERROR records of
    the module's logger, as in the process that [configure_telemetry] has
    set up: for a validated request, when the upstream answers with an
    error status or the transport fails, [logger.exception] hands the
    record to [MongoLoggingHandler.emit], which raises [AttributeError] on
    [self.formatException] before the handler gets to [raise
    HTTPException]; the reply is a 500, neither the upstream's status nor
    502. *)
Theorem news_upstream_error_raises (X : Externals) (tag : string) (per_page : Z)
    (w : World) :
  1 <= per_page <= 30 ->
  targets w main_logger LogLevel.ERROR <> [] ->
  let answer := http_get X (calls w ++ calls_before_get tag per_page)
                  DEVTO_API_URL (news_params tag per_page) in
  (forall status json,
     answer = HttpResponse status json ->
     is_success status = false ->
     fst (get_news X tag per_page w) = Raise attribute_error
     /\ fst (news_route X (Some tag) (Some per_page) w) = Return Reply500)
  /\ (forall msg,
        answer = HttpRaises (RequestError msg) ->
        fst (get_news X tag per_page w) = Raise attribute_error
        /\ fst (news_route X (Some tag) (Some per_page) w) = Return Reply500).
Proof.
  intros Hvalid Htargets answer.
  rewrite (news_route_valid X tag per_page w Hvalid).
  rewrite get_news_run. cbv zeta. fold answer.
  unfold log_exception_outcome.
  destruct (targets w main_logger LogLevel.ERROR); [contradiction|].
  split.
  - intros status json -> Hfail. rewrite Hfail. split; reflexivity.
  - intros msg ->. split; reflexivity.
Qed.

Lemma news_upstream_error_raises_witness :
  let not_found := Sample.upstream (HttpResponse 404 None) in
  let unreachable := Sample.upstream (HttpRaises (RequestError "timed out")) in
  fst (news_route not_found (Some "technology") (Some 5)
         (SampleEnv.configured not_found))
  = Return Reply500
  /\ fst (news_route unreachable (Some "technology") (Some 5)
            (SampleEnv.configured unreachable))
     = Return Reply500.
Proof.
  cbv zeta. split.
  - assert (Htargets :
      targets (SampleEnv.configured (Sample.upstream (HttpResponse 404 None)))
        main_logger LogLevel.ERROR <> [])
      by (vm_compute; discriminate).
    destruct (news_upstream_error_raises (Sample.upstream (HttpResponse 404 None))
                "technology" 5
                (SampleEnv.configured (Sample.upstream (HttpResponse 404 None)))
                ltac:(lia) Htargets) as [Hstatus _].
    exact (proj2 (Hstatus 404 None eq_refl eq_refl)).
  - assert (Htargets :
      targets (SampleEnv.configured
                 (Sample.upstream (HttpRaises (RequestError "timed out"))))
        main_logger LogLevel.ERROR <> [])
      by (vm_compute; discriminate).
    destruct (news_upstream_error_raises
                (Sample.upstream (HttpRaises (RequestError "timed out")))
                "technology" 5
                (SampleEnv.configured
                   (Sample.upstream (HttpRaises (RequestError "timed out"))))
                ltac:(lia) Htargets) as [_ Hfail].
    exact (proj2 (Hfail "timed out" eq_refl)).
Defined.

(** Where no database handler takes the record, as after the fallback of
    start-up, an upstream response whose status [s] is not a success makes
    the handler raise [HTTPException] with that same status and the fixed
    detail, so the reply has status [s]; a transport failure gives 502. *)
Lemma news_upstream_errors_without_database_handler (X : Externals)
    (tag : string) (per_page : Z) (w : World) :
  1 <= per_page <= 30 ->
  targets w main_logger LogLevel.ERROR = [] ->
  let answer := http_get X (calls w ++ calls_before_get tag per_page)
                  DEVTO_API_URL (news_params tag per_page) in
  (forall status json,
     answer = HttpResponse status json ->
     is_success status = false ->
     fst (get_news X tag per_page w)
     = Raise (HTTPException status "Upstream error from DEV.to API")
     /\ fst (news_route X (Some tag) (Some per_page) w)
        = Return (ReplyHTTPException status "Upstream error from DEV.to API"))
  /\ (forall msg,
        answer = HttpRaises (RequestError msg) ->
        fst (get_news X tag per_page w)
        = Raise (HTTPException 502 "Unable to reach DEV.to API")
        /\ fst (news_route X (Some tag) (Some per_page) w)
           = Return (ReplyHTTPException 502 "Unable to reach DEV.to API")).
Proof.
  intros Hvalid Hquiet answer.
  rewrite (news_route_valid X tag per_page w Hvalid).
  rewrite get_news_run. cbv zeta. fold answer.
  unfold log_exception_outcome. rewrite Hquiet.
  split.
  - intros status json -> Hfail. rewrite Hfail. split; reflexivity.
  - intros msg ->. split; reflexivity.
Qed.

(** A successful run of the handler: the upstream answered with a success
    status and a body that decodes to the articles of the reply. *)
Lemma get_news_returns (X : Externals) (tag : string) (per_page : Z)
    (w w' : World) (body : value) :
  get_news X tag per_page w = (Return body, w') ->
  exists status json articles,
    http_get X (calls w ++ calls_before_get tag per_page)
      DEVTO_API_URL (news_params tag per_page) = HttpResponse status json
    /\ is_success status = true
    /\ decode_articles json = Return articles
    /\ body = news_body tag articles.
Proof.
  rewrite get_news_run. cbv zeta.
  destruct (http_get X _ DEVTO_API_URL (news_params tag per_page))
    as [status json|e].
  - destruct (is_success status) eqn:Hs;
      [|destruct (log_exception_outcome w main_logger); discriminate].
    destruct (decode_articles json) as [articles|e] eqn:Hd; [|discriminate].
    intros H. injection H as <- _.
    exists status, json, articles. repeat split; assumption.
  - destruct e; destruct (log_exception_outcome w main_logger); discriminate.
Qed.

(** C4, as amended: in every 200 reply of [/news], [count] is the length of
    [articles], and [articles] has one entry per item of the body that the
    upstream sent for the request's tag and page size; the handler does not
    cut the list, so its length is at most [per_page] when the upstream
    returned at most [per_page] items. *)
Theorem news_count_matches (X : Externals) (tag : option string)
    (per_page : option Z) (w w' : World) (body : value) :
  news_route X tag per_page w = (Return (Reply200 body), w') ->
  let t := match tag with Some t => t | None => tag_default end in
  exists articles,
    vget "articles" body = Some (VList articles)
    /\ vget "count" body = Some (VInt (Z.of_nat (length articles)))
    /\ exists n status json items,
         validate_int per_page_query per_page = Some n
         /\ http_get X (calls w ++ calls_before_get t n)
              DEVTO_API_URL (news_params t n) = HttpResponse status (Some json)
         /\ iterate json = Return items
         /\ length articles = length items.
Proof.
  unfold news_route.
  destruct (validate_int per_page_query per_page) as [n|]; [|discriminate].
  cbv zeta.
  set (t := match tag with Some t => t | None => tag_default end).
  intros H.
  destruct (get_news X t n w) as [result w1] eqn:Hrun.
  injection H as Hreply <-.
  destruct result as [b|e]; [|destruct e; discriminate].
  cbn in Hreply. injection Hreply as ->.
  destruct (get_news_returns X t n w w1 body Hrun)
    as (status & json & articles & Hget & _ & Hdecode & ->).
  destruct (decode_articles_length json articles Hdecode)
    as (js & items & -> & Hiter & Hlen).
  exists articles. split; [reflexivity|]. split; [reflexivity|].
  exists n, status, js, items. repeat split; assumption.
Qed.

Lemma news_count_matches_witness :
  exists body w',
    news_route (Sample.externals (VList [Sample.article 1])) None (Some 3)
      (Sample.world ∅) = (Return (Reply200 body), w')
    /\ vget "count" body = Some (VInt 1)
    /\ exists articles,
         vget "articles" body = Some (VList articles) /\ length articles = 1%nat.
Proof.
  destruct (news_route (Sample.externals (VList [Sample.article 1])) None (Some 3)
              (Sample.world ∅)) as [reply w'] eqn:Hrun.
  assert (Hreply : exists body, reply = Return (Reply200 body)).
  { vm_compute in Hrun. injection Hrun as <- _. eexists. reflexivity. }
  destruct Hreply as [body ->].
  pose proof (news_count_matches _ _ _ _ _ _ Hrun) as Hcounted.
  cbv zeta in Hcounted.
  destruct Hcounted
    as (articles & Harticles & Hcount & n & status & json & items
        & Hvalid & Hget & Hiter & Hlen).
  cbn in Hget. injection Hget as <- <-.
  cbn in Hiter. injection Hiter as <-.
  cbn in Hlen. rewrite Hlen in Hcount.
  exists body, w'. split; [reflexivity|]. split; [exact Hcount|].
  exists articles. split; assumption.
Defined.

(** C4, as stated, fails: the reply carries every article the upstream
    sent, here two of them for [per_page = 1]. *)
Lemma upstream_may_exceed_per_page :
  let answer := VList [Sample.article 1; Sample.article 2] in
  exists body articles w',
    news_route (Sample.externals answer) (Some "technology") (Some 1) (Sample.world ∅)
    = (Return (Reply200 body), w')
    /\ vget "count" body = Some (VInt 2)
    /\ vget "articles" body = Some (VList articles)
    /\ length articles = 2%nat
    /\ ~ (Z.of_nat (length articles) <= 1).
Proof.
  cbv zeta. do 3 eexists. split; [vm_compute; reflexivity|].
  split; [reflexivity|]. split; [reflexivity|].
  split; [reflexivity | cbn; lia].
Qed.

(** C10: the first call of [get_news] is the increment of the request
    counter, by 1 and tagged; it is the only one, and the one upstream
    request comes after it, whatever the upstream then answers.  The
    article counter is incremented exactly when the handler returns, by the
    number of articles of the reply; it is untouched when the handler
    raises. *)
Theorem news_counters (X : Externals) (tag : string) (per_page : Z)
    (w w' : World) (result : outcome value) :
  get_news X tag per_page w = (result, w') ->
  exists rest,
    new_calls w w' = CallCounterAdd request_counter 1 [("tag", VStr tag)] :: rest
    /\ count_calls (is_counter_add request_counter) rest = 0%nat
    /\ List.filter is_http_get rest
       = [CallHttpGet DEVTO_API_URL (news_params tag per_page) 10]
    /\ match result with
       | Return body =>
           exists articles,
             body = news_body tag articles
             /\ List.filter (is_counter_add article_counter) rest
                = [CallCounterAdd article_counter (Z.of_nat (length articles))
                     [("tag", VStr tag)]]
       | Raise _ => count_calls (is_counter_add article_counter) rest = 0%nat
       end.
Proof.
  rewrite get_news_run. cbv zeta.
  destruct (http_get X _ DEVTO_API_URL (news_params tag per_page))
    as [status json|e].
  - destruct (is_success status).
    + destruct (decode_articles json) as [articles|e];
        intros H; injection H as <- <-;
        eexists; (split; [apply new_calls_app; reflexivity|]);
        (split; [reflexivity|]); (split; [reflexivity|]).
      * exists articles. split; reflexivity.
      * reflexivity.
    + destruct (log_exception_outcome w main_logger) as [[]|e];
        intros H; injection H as <- <-;
        eexists; (split; [apply new_calls_app; reflexivity|]);
        repeat split.
  - destruct e; destruct (log_exception_outcome w main_logger) as [[]|e'];
      intros H; injection H as <- <-;
      eexists; (split; [apply new_calls_app; reflexivity|]); repeat split.
Qed.

Lemma news_counters_witness :
  exists rest w',
    snd (get_news (Sample.upstream (HttpRaises (RequestError "timed out")))
           "rocq" 5 (Sample.world ∅)) = w'
    /\ new_calls (Sample.world ∅) w'
       = CallCounterAdd request_counter 1 [("tag", VStr "rocq")] :: rest
    /\ count_calls (is_counter_add article_counter) rest = 0%nat.
Proof.
  destruct (get_news (Sample.upstream (HttpRaises (RequestError "timed out")))
              "rocq" 5 (Sample.world ∅)) as [result w'] eqn:Hrun.
  assert (Hraise : exists e, result = Raise e).
  { vm_compute in Hrun. injection Hrun as <- _. eexists. reflexivity. }
  destruct Hraise as [e ->].
  destruct (news_counters _ _ _ _ _ _ Hrun) as (rest & Hfirst & _ & _ & Hnone).
  exists rest, w'. split; [reflexivity|]. split; assumption.
Defined.

(** * Further properties of the code *)

(** ** Identifiers: what the hexadecimal rendering keeps *)

Section FormatRoundTrip.

Import PyFormat.

Lemma hex_digit_value_bound (c : ascii) :
  is_lower_hex c = true -> 0 <= hex_digit_value c <= 15.
Proof.
  unfold is_lower_hex, hex_digit_value. cbv zeta.
  generalize (Z.of_nat (nat_of_ascii c)). intros k H.
  apply orb_prop in H as [H|H]; apply andb_prop in H as [Hlo Hhi];
    apply Z.leb_le in Hlo, Hhi.
  - destruct (k <=? 57) eqn:E; [lia|]. apply Z.leb_gt in E. lia.
  - destruct (k <=? 57) eqn:E; [apply Z.leb_le in E; lia | lia].
Qed.

(** Digits of a given count denote a number below the matching power. *)
Lemma hex_fold_bound (l : list ascii) :
  forall v,
    0 <= v ->
    forallb is_lower_hex l = true ->
    0 <= fold_left (fun v c => 16 * v + hex_digit_value c) l v
    < (v + 1) * 16 ^ Z.of_nat (length l).
Proof.
  induction l as [|c l IH]; intros v Hv Hall.
  - cbn. lia.
  - cbn [forallb] in Hall. apply andb_prop in Hall as [Hc Hl].
    pose proof (hex_digit_value_bound c Hc) as Hd.
    cbn [fold_left length].
    specialize (IH (16 * v + hex_digit_value c) ltac:(lia) Hl).
    rewrite Nat2Z.inj_succ, Z.pow_succ_r by lia.
    assert (0 < 16 ^ Z.of_nat (length l)) by (apply Z.pow_pos_nonneg; lia).
    nia.
Qed.

Lemma hex_value_zfill (width : nat) (digits : list ascii) :
  hex_value (zfill width digits) = hex_value digits.
Proof.
  unfold hex_value, zfill. rewrite fold_left_app. f_equal.
  induction (width - length digits)%nat as [|k IH]; [reflexivity|].
  cbn [repeat fold_left]. exact IH.
Qed.

(** Decoding the rendering of a non-negative number gives the number back,
    whatever the width. *)
Lemma format_0x_value (width : nat) (n : Z) :
  0 <= n ->
  hex_value (list_ascii_of_string (format_0x width n)) = n.
Proof.
  intros Hn. unfold format_0x.
  destruct (n <? 0) eqn:Hneg; [apply Z.ltb_lt in Hneg; lia|].
  rewrite list_of_string_of_list, hex_value_zfill.
  now apply hex_of_nonneg_value.
Qed.

(** The rendering has exactly [W] hexadecimal characters only inside the
    range of [W] digits. *)
Lemma format_0x_fixed_inv (k : nat) (n : Z) :
  fixed_hex (S k) (format_0x (S k) n) = true ->
  0 <= n < 16 ^ Z.of_nat (S k).
Proof.
  intros H. destruct (Z.ltb_spec n 0) as [Hneg|Hpos].
  - exfalso. unfold fixed_hex, format_0x in H.
    apply Z.ltb_lt in Hneg. rewrite Hneg, list_of_string_of_list in H.
    apply andb_prop in H as [_ H]. cbn in H. discriminate H.
  - split; [exact Hpos|].
    pose proof (format_0x_value (S k) n Hpos) as Hvalue.
    unfold fixed_hex in H. apply andb_prop in H as [Hlen Hall].
    apply Nat.eqb_eq in Hlen.
    pose proof (hex_fold_bound _ 0 ltac:(lia) Hall) as Hbound.
    fold (hex_value (list_ascii_of_string (format_0x (S k) n))) in Hbound.
    rewrite Hvalue, Hlen in Hbound. lia.
Qed.

Lemma fixed_trace_id_eq (n : Z) :
  fixed_hex 32 (format_0x 32 n) = trace_id_in_range n.
Proof.
  destruct (trace_id_in_range n) eqn:Hr; [now apply format_trace_id|].
  destruct (fixed_hex 32 (format_0x 32 n)) eqn:Hf; [|reflexivity].
  apply (format_0x_fixed_inv 31) in Hf.
  assert (E : 16 ^ Z.of_nat 32 = 2 ^ 128) by reflexivity. rewrite E in Hf.
  unfold trace_id_in_range in Hr.
  apply andb_false_iff in Hr as [Hr|Hr];
    [apply Z.leb_gt in Hr | apply Z.ltb_ge in Hr]; lia.
Qed.

Lemma fixed_span_id_eq (n : Z) :
  fixed_hex 16 (format_0x 16 n) = span_id_in_range n.
Proof.
  destruct (span_id_in_range n) eqn:Hr; [now apply format_span_id|].
  destruct (fixed_hex 16 (format_0x 16 n)) eqn:Hf; [|reflexivity].
  apply (format_0x_fixed_inv 15) in Hf.
  assert (E : 16 ^ Z.of_nat 16 = 2 ^ 64) by reflexivity. rewrite E in Hf.
  unfold span_id_in_range in Hr.
  apply andb_false_iff in Hr as [Hr|Hr];
    [apply Z.leb_gt in Hr | apply Z.ltb_ge in Hr]; lia.
Qed.

End FormatRoundTrip.

(** The identifiers written by [MongoSpanExporter.export] lose nothing:
    reading the [trace_id] and [span_id] strings of a span document as
    hexadecimal numbers gives the identifiers of the span, for every
    non-negative identifier, wide ones included. *)
Theorem span_document_ids_decode (span : ReadableSpan) :
  0 <= trace_id (span_context span) ->
  0 <= span_id (span_context span) ->
  decoded_id (vpath ["context"; "trace_id"] (span_document span))
  = Some (trace_id (span_context span))
  /\ decoded_id (vpath ["context"; "span_id"] (span_document span))
     = Some (span_id (span_context span)).
Proof.
  intros Ht Hs.
  rewrite span_document_trace_id, span_document_span_id. unfold decoded_id.
  now rewrite !format_0x_value.
Qed.

Lemma span_document_ids_decode_witness :
  decoded_id (vpath ["context"; "trace_id"] (span_document Sample.wide_span))
  = Some (2 ^ 128)
  /\ decoded_id (vpath ["context"; "span_id"] (span_document Sample.wide_span))
     = Some 1.
Proof.
  apply (span_document_ids_decode Sample.wide_span); cbn; lia.
Defined.

Lemma link_ids_ok_eq (link : Link) :
  link_ids_ok (link_document link) = context_in_range (link_context link).
Proof.
  unfold link_ids_ok, context_in_range.
  change (vpath ["context"; "trace_id"] (link_document link))
    with (Some (VStr (PyFormat.format_0x 32 (trace_id (link_context link))))).
  change (vpath ["context"; "span_id"] (link_document link))
    with (Some (VStr (PyFormat.format_0x 16 (span_id (link_context link))))).
  unfold hex_field. now rewrite fixed_trace_id_eq, fixed_span_id_eq.
Qed.

(** The identifiers of a span document have the fixed widths of 32 and 16
    hexadecimal characters exactly when the identifiers of the span, of its
    parent and of its links lie in the 128 and 64 bit ranges: outside, the
    strings are longer or carry a sign. *)
Theorem span_document_ids_ok_iff (span : ReadableSpan) :
  span_doc_ids_ok (span_document span) = span_ids_in_range span.
Proof.
  unfold span_doc_ids_ok, span_ids_in_range, context_in_range.
  rewrite span_document_trace_id, span_document_span_id,
    span_document_parent, span_document_links.
  unfold hex_field at 1 2.
  rewrite fixed_trace_id_eq, fixed_span_id_eq.
  f_equal; [f_equal|].
  - destruct (span_parent span) as [p|]; [|reflexivity].
    unfold hex_field. apply fixed_span_id_eq.
  - induction (span_links span) as [|l ls IH]; [reflexivity|].
    cbn [map forallb]. now rewrite link_ids_ok_eq, IH.
Qed.

(** ** Dictionaries and [_serialize_attributes] *)

Lemma dict_get_None_iff (key : string) (d : pydict) :
  dict_get key d = None <-> ~ In key (map fst d).
Proof.
  induction d as [|[k v] d IH]; cbn; [tauto|].
  destruct (String.eqb_spec k key) as [->|Hne].
  - split; [discriminate | intros H; exfalso; apply H; now left].
  - rewrite IH. split; [intros H [E|E]; [contradiction | now apply H] | tauto].
Qed.

Lemma dict_set_fresh (key : string) (v : value) (d : pydict) :
  dict_get key d = None -> dict_set key v d = d ++ [(key, v)].
Proof.
  induction d as [|[k old] d IH]; cbn; [reflexivity|].
  destruct (String.eqb k key); [discriminate|].
  intros H. now rewrite IH.
Qed.

Lemma dict_get_set_eq (key : string) (v : value) (d : pydict) :
  dict_get key (dict_set key v d) = Some v.
Proof.
  induction d as [|[k old] d IH]; cbn.
  - now rewrite String.eqb_refl.
  - destruct (String.eqb k key) eqn:E; cbn; now rewrite E.
Qed.

Lemma dict_get_set_ne (key other : string) (v : value) (d : pydict) :
  key <> other ->
  dict_get other (dict_set key v d) = dict_get other d.
Proof.
  intros Hne. induction d as [|[k old] d IH]; cbn.
  - destruct (String.eqb_spec key other); [contradiction | reflexivity].
  - destruct (String.eqb_spec k key) as [->|Hk]; cbn.
    + destruct (String.eqb_spec key other); [contradiction | reflexivity].
    + now rewrite IH.
Qed.

Lemma dict_get_app_fresh (key : string) (d1 d2 : pydict) :
  dict_get key (d1 ++ d2)
  = match dict_get key d1 with
    | Some v => Some v
    | None => dict_get key d2
    end.
Proof.
  induction d1 as [|[k v] d1 IH]; cbn; [reflexivity|].
  now destruct (String.eqb k key).
Qed.

Lemma serialize_fold (attributes : pydict) :
  forall init,
    List.NoDup (map fst (init ++ attributes)) ->
    fold_left (fun serialized kv => dict_set (fst kv) (listify (snd kv)) serialized)
              attributes init
    = init ++ listified attributes.
Proof.
  induction attributes as [|[k v] attributes IH]; intros init Hnd; cbn.
  - now rewrite app_nil_r.
  - rewrite dict_set_fresh.
    + rewrite IH.
      * now rewrite <- app_assoc.
      * replace (map fst ((init ++ [(k, listify v)]) ++ attributes))
          with (map fst (init ++ (k, v) :: attributes)); [exact Hnd|].
        rewrite <- app_assoc, !map_app. reflexivity.
    + apply dict_get_None_iff. rewrite map_app in Hnd. cbn in Hnd.
      apply NoDup_remove_2 in Hnd. intros Hin. apply Hnd.
      apply in_or_app. now left.
Qed.

Lemma listify_idempotent (v : value) : listify (listify v) = listify v.
Proof. now destruct v. Qed.

Lemma listified_keys (attributes : pydict) :
  map fst (listified attributes) = map fst attributes.
Proof.
  unfold listified. rewrite map_map. reflexivity.
Qed.

Lemma dict_get_listified (key : string) (attributes : pydict) :
  dict_get key (listified attributes)
  = option_map listify (dict_get key attributes).
Proof.
  induction attributes as [|[k v] attributes IH]; cbn; [reflexivity|].
  now destruct (String.eqb k key).
Qed.

Lemma serialize_attributes_eq (attributes : pydict) :
  List.NoDup (map fst attributes) ->
  _serialize_attributes attributes = listified attributes.
Proof.
  intros Hnd. unfold _serialize_attributes. now rewrite serialize_fold.
Qed.

(** On a mapping (distinct keys) [_serialize_attributes] keeps the keys and
    their order and changes the values only by turning tuples into lists;
    so a lookup in the result is the lookup in the argument, listified, and
    a missing key stays missing. *)
Theorem serialize_attributes_listifies (attributes : pydict) :
  List.NoDup (map fst attributes) ->
  _serialize_attributes attributes = listified attributes
  /\ map fst (_serialize_attributes attributes) = map fst attributes
  /\ forall key,
       dict_get key (_serialize_attributes attributes)
       = option_map listify (dict_get key attributes).
Proof.
  intros Hnd.
  assert (E : _serialize_attributes attributes = listified attributes).
  { unfold _serialize_attributes. now rewrite serialize_fold. }
  rewrite E. split; [reflexivity|]. split; [apply listified_keys|].
  intros key. apply dict_get_listified.
Qed.

Lemma serialize_attributes_listifies_witness :
  let attributes := [("http.method", VStr "GET");
                     ("tags", VTuple [VStr "a"; VStr "b"])] in
  _serialize_attributes attributes = listified attributes
  /\ map fst (_serialize_attributes attributes) = map fst attributes
  /\ forall key,
       dict_get key (_serialize_attributes attributes)
       = option_map listify (dict_get key attributes).
Proof.
  cbv zeta. apply serialize_attributes_listifies.
  repeat constructor; cbn; intuition discriminate.
Defined.

(** The result of [_serialize_attributes] holds no tuple, and serializing
    it again changes nothing. *)
Theorem serialize_attributes_idempotent (attributes : pydict) :
  List.NoDup (map fst attributes) ->
  forallb (fun kv => not_tuple (snd kv)) (_serialize_attributes attributes) = true
  /\ _serialize_attributes (_serialize_attributes attributes)
     = _serialize_attributes attributes.
Proof.
  intros Hnd.
  pose proof (serialize_attributes_eq attributes Hnd) as E.
  assert (Hkeys : map fst (_serialize_attributes attributes) = map fst attributes)
    by (rewrite E; apply listified_keys).
  split.
  - rewrite E. unfold listified. rewrite forallb_forall. intros kv Hin.
    apply in_map_iff in Hin as [[k v] [<- _]]. now destruct v.
  - rewrite (serialize_attributes_eq (_serialize_attributes attributes))
      by now rewrite Hkeys.
    rewrite E. unfold listified. rewrite map_map. apply map_ext.
    intros [k v]. cbn. now rewrite listify_idempotent.
Qed.

Lemma serialize_attributes_idempotent_witness :
  let attributes := [("tags", VTuple [VStr "a"; VStr "b"]); ("n", VInt 3)] in
  forallb (fun kv => not_tuple (snd kv)) (_serialize_attributes attributes) = true
  /\ _serialize_attributes (_serialize_attributes attributes)
     = _serialize_attributes attributes.
Proof.
  cbv zeta. apply serialize_attributes_idempotent.
  repeat constructor; cbn; intuition discriminate.
Defined.

(** ** Exporters: errors that are not database errors, and the batch *)

(** An exception of [insert_many] that is not a [PyMongoError] is not
    caught by [MongoSpanExporter.export]: it reaches the caller, after the
    one insert attempt and without a log call. *)
Theorem span_export_other_error_escapes (X : Externals) (collection : Collection)
    (spans : list ReadableSpan) (w : World) (class_name msg : string) :
  spans <> [] ->
  insert_many_raises X (calls w) collection (map span_document spans)
  = Some (OtherError class_name msg) ->
  fst (span_export X collection spans w) = Raise (OtherError class_name msg)
  /\ new_calls w (snd (span_export X collection spans w))
     = [CallInsertMany collection (map span_document spans)].
Proof.
  intros Hne Hraise. rewrite span_export_run. cbv zeta.
  destruct spans as [|s spans]; [contradiction|].
  rewrite Hraise. cbn [fst snd].
  split; [reflexivity | now apply new_calls_app].
Qed.

Lemma span_export_other_error_escapes_witness :
  let X := {| mongo_client_raises := fun _ _ => None;
              database_raises := fun _ => None;
              collection_raises := fun _ => None;
              insert_one_raises := fun _ _ _ => None;
              insert_many_raises :=
                fun _ _ _ => Some (OtherError "InvalidDocument" "cannot encode");
              http_get := fun _ _ _ => HttpRaises (RequestError "");
              record_stamp := fun _ => Sample.stamp;
              int_beyond := fun _ => Raise (OtherError "ValueError" "");
              upper_beyond := fun text => text |} in
  fst (span_export X Sample.traces_collection [Sample.small_span] (Sample.world ∅))
  = Raise (OtherError "InvalidDocument" "cannot encode")
  /\ new_calls (Sample.world ∅)
       (snd (span_export X Sample.traces_collection [Sample.small_span]
               (Sample.world ∅)))
     = [CallInsertMany Sample.traces_collection [span_document Sample.small_span]].
Proof.
  cbv zeta.
  apply span_export_other_error_escapes; [discriminate | reflexivity].
Defined.

(** The only bulk insert of a span export carries [span_documents]. *)
Lemma span_export_inserted (X : Externals) (collection : Collection)
    (spans : list ReadableSpan) (w : World) (c : Collection)
    (documents : list value) :
  In (CallInsertMany c documents)
     (new_calls w (snd (span_export X collection spans w))) ->
  c = collection /\ documents = map span_document spans.
Proof.
  rewrite span_export_run. cbv zeta.
  destruct spans as [|s spans].
  - cbn [snd]. rewrite new_calls_same. intros [].
  - destruct (insert_many_raises X (calls w) collection
                (map span_document (s :: spans))) as [[]|];
      cbn [snd]; erewrite new_calls_app by reflexivity; cbn [In];
      intros H;
      repeat match goal with
             | H : _ \/ _ |- _ => destruct H
             | H : False |- _ => destruct H
             | H : CallInsertMany _ _ = CallInsertMany _ _ |- _ =>
                 injection H as <- <-; split; reflexivity
             | H : CallLog _ _ _ = CallInsertMany _ _ |- _ => discriminate H
             end.
Qed.

(** The batch that [MongoSpanExporter.export] inserts goes to the
    exporter's own collection and holds one document per span, in the
    order of the batch; each carries the name of its span, the kind and the
    status code by their symbolic names, the two timestamps, and one entry
    per event and per link of the span. *)
Theorem span_export_one_document_per_span (X : Externals)
    (collection : Collection) (spans : list ReadableSpan) (w : World) :
  forall c documents,
    In (CallInsertMany c documents)
       (new_calls w (snd (span_export X collection spans w))) ->
    c = collection
    /\ Forall2
         (fun document span =>
            vget "name" document = Some (VStr (span_name span))
            /\ vget "kind" document = Some (VStr (SpanKind_name (span_kind span)))
            /\ vpath ["status"; "status_code"] document
               = Some (VStr (StatusCode_name (status_code (span_status span))))
            /\ vget "start_time" document
               = Some (of_option VInt (span_start_time span))
            /\ vget "end_time" document = Some (of_option VInt (span_end_time span))
            /\ vget "events" document
               = Some (VList (map event_document (span_events span)))
            /\ vget "links" document
               = Some (VList (map link_document (span_links span))))
         documents spans.
Proof.
  intros c documents Hin.
  apply span_export_inserted in Hin as [-> ->].
  split; [reflexivity|].
  induction spans as [|s spans IH]; cbn [map]; constructor; [|exact IH].
  repeat split.
Qed.

Lemma span_export_one_document_per_span_witness :
  exists documents,
    In (CallInsertMany Sample.traces_collection documents)
       (new_calls (Sample.world ∅)
          (snd (span_export (Sample.externals VNone) Sample.traces_collection
                  [Sample.small_span; Sample.wide_span] (Sample.world ∅))))
    /\ length documents = 2%nat.
Proof.
  exists (map span_document [Sample.small_span; Sample.wide_span]).
  assert (Hin : In (CallInsertMany Sample.traces_collection
                      (map span_document [Sample.small_span; Sample.wide_span]))
                   (new_calls (Sample.world ∅)
                      (snd (span_export (Sample.externals VNone)
                              Sample.traces_collection
                              [Sample.small_span; Sample.wide_span]
                              (Sample.world ∅)))))
    by (left; reflexivity).
  split; [exact Hin|].
  destruct (span_export_one_document_per_span _ _ _ _ _ _ Hin) as [_ Hall].
  apply Forall2_length in Hall. exact Hall.
Defined.


(** [MongoMetricExporter.export]: no insert and SUCCESS when the snapshot
    gives no document; otherwise exactly one bulk insert of all the
    documents, then SUCCESS when it returns, and any exception other than a
    [PyMongoError] goes to the caller, without a log call.  When the insert
    raises a [PyMongoError] there is exactly one log call, and FAILURE is
    returned if that call returns: it does where no database handler takes
    the ERROR records of the module's logger; where one does, the handler's
    [AttributeError] comes out of the export instead. *)
Theorem metric_export_result (X : Externals) (collection : Collection)
    (metrics_data : MetricsData) (w : World) :
  forall result w',
    metric_export X collection metrics_data w = (result, w') ->
    (all_metrics metrics_data = [] ->
     result = Return MetricExportResult.SUCCESS /\ w' = w)
    /\ (all_metrics metrics_data <> [] ->
        List.filter is_insert (new_calls w w')
        = [CallInsertMany collection (metric_documents metrics_data)]
        /\ match insert_many_raises X (calls w) collection
                   (metric_documents metrics_data) with
           | None =>
               result = Return MetricExportResult.SUCCESS
               /\ count_calls is_log (new_calls w w') = 0%nat
           | Some (PyMongoError _) =>
               result = match targets w telemetry_logger LogLevel.ERROR with
                        | [] => Return MetricExportResult.FAILURE
                        | _ :: _ => Raise attribute_error
                        end
               /\ count_calls is_log (new_calls w w') = 1%nat
           | Some e =>
               result = Raise e /\ count_calls is_log (new_calls w w') = 0%nat
           end).
Proof.
  intros result w' Hrun.
  pose proof (metric_documents_data metrics_data) as Hdata.
  apply Forall2_length in Hdata.
  rewrite metric_export_run in Hrun. cbv zeta in Hrun.
  unfold log_exception_outcome in Hrun.
  destruct (metric_documents metrics_data) as [|d ds] eqn:Hdocs.
  - injection Hrun as <- <-. split; [intros _; split; reflexivity|].
    intros Hne. destruct (all_metrics metrics_data); [contradiction|discriminate].
  - split; [intros Hnone; rewrite Hnone in Hdata; discriminate|]. intros _.
    destruct (insert_many_raises X (calls w) collection (d :: ds)) as [[]|];
      try destruct (targets w telemetry_logger LogLevel.ERROR);
      injection Hrun as <- <-;
      erewrite new_calls_app by reflexivity;
      repeat split.
Qed.

Lemma metric_export_result_witness :
  exists w',
    metric_export Sample.database_down Sample.metrics_collection
      (Sample.snapshot [Sample.counter_point]) (Sample.world ∅)
    = (Return MetricExportResult.FAILURE, w')
    /\ count_calls is_log (new_calls (Sample.world ∅) w') = 1%nat.
Proof.
  destruct (metric_export Sample.database_down Sample.metrics_collection
              (Sample.snapshot [Sample.counter_point]) (Sample.world ∅))
    as [result w'] eqn:Hrun.
  destruct (metric_export_result _ _ _ _ _ _ Hrun) as [_ Hne].
  destruct (Hne ltac:(discriminate)) as [_ Hfail].
  change (insert_many_raises Sample.database_down _ _ _)
    with (Some (PyMongoError "connection refused")) in Hfail.
  destruct Hfail as [-> Hlog].
  exists w'. split; [reflexivity | exact Hlog].
Defined.

(** Every document of a metrics export comes from one metric of the
    snapshot and carries the name of that metric, the serialized attributes
    of the metric's resource and the name and version of its scope; there
    are as many documents as metrics. *)
Theorem metric_documents_provenance (metrics_data : MetricsData) :
  length (metric_documents metrics_data) = length (all_metrics metrics_data)
  /\ forall document,
       In document (metric_documents metrics_data) ->
       exists rm sm metric,
         In rm (resource_metrics metrics_data)
         /\ In sm (scope_metrics rm)
         /\ In metric (metrics sm)
         /\ vget "name" document = Some (VStr (metric_name metric))
         /\ vget "resource" document
            = Some (VDict (_serialize_attributes (resource_attributes rm)))
         /\ vget "instrumentation_scope" document
            = Some (VDict [ ("name", VStr (scope_name (scope sm)));
                            ("version", of_option VStr (scope_version (scope sm))) ]).
Proof.
  split.
  - pose proof (metric_documents_data metrics_data) as H.
    now apply Forall2_length in H.
  - intros document Hin. rewrite metric_documents_flat in Hin.
    apply in_flat_map in Hin as (rm & Hrm & Hin).
    apply in_flat_map in Hin as (sm & Hsm & Hin).
    apply in_map_iff in Hin as (metric & <- & Hm).
    exists rm, sm, metric. repeat split; assumption.
Qed.

(** The payload of a data point: the two timestamps and the attributes are
    always there ([None] when the point lacks one); each of the eight
    numeric attribute names is a key exactly when the point has that
    attribute, with its value, a sequence as a list. *)
Theorem point_payload_fields (point : DataPoint) :
  (forall name,
     In name payload_attr_names ->
     vget name (point_payload point)
     = option_map listify (point_getattr point name))
  /\ vget "time_unix_nano" (point_payload point)
     = Some (match point_getattr point "time_unix_nano" with
             | Some v => v
             | None => VNone
             end)
  /\ vget "start_time_unix_nano" (point_payload point)
     = Some (match point_getattr point "start_time_unix_nano" with
             | Some v => v
             | None => VNone
             end)
  /\ exists attributes,
       vget "attributes" (point_payload point) = Some (VDict attributes).
Proof.
  split.
  - intros name Hin. cbn in Hin.
    repeat (destruct Hin as [<-|Hin]; [destruct point; reflexivity|]).
    destruct Hin.
  - destruct point; (split; [reflexivity|]); (split; [reflexivity|]);
      eexists; reflexivity.
Qed.

Lemma metric_documents_provenance_witness :
  length (metric_documents (Sample.snapshot [Sample.counter_point])) = 1%nat
  /\ forall document,
       In document (metric_documents (Sample.snapshot [Sample.counter_point])) ->
       exists rm sm metric,
         In rm (resource_metrics (Sample.snapshot [Sample.counter_point]))
         /\ In sm (scope_metrics rm)
         /\ In metric (metrics sm)
         /\ vget "name" document = Some (VStr (metric_name metric))
         /\ vget "resource" document
            = Some (VDict (_serialize_attributes (resource_attributes rm)))
         /\ vget "instrumentation_scope" document
            = Some (VDict [ ("name", VStr (scope_name (scope sm)));
                            ("version", of_option VStr (scope_version (scope sm))) ]).
Proof.
  exact (metric_documents_provenance (Sample.snapshot [Sample.counter_point])).
Defined.

Lemma point_payload_fields_witness :
  vget "value" (point_payload Sample.counter_point) = Some (VInt 3)
  /\ vget "count" (point_payload Sample.counter_point) = None.
Proof.
  destruct (point_payload_fields Sample.counter_point) as [Hnames _].
  split.
  - apply (Hnames "value"). cbn. tauto.
  - apply (Hnames "count"). cbn. tauto.
Defined.


(** ** The database client: discrete settings and failures *)

Lemma discrete_kwargs_entries (w : World) (port : Z) :
  let kwargs := discrete_kwargs w port in
  dict_get "host" kwargs = Some (VStr (env_or w "MONGO_HOST" "localhost"))
  /\ dict_get "port" kwargs = Some (VInt port)
  /\ dict_get "tz_aware" kwargs = Some (VBool true)
  /\ (let both := Py.truthy (environ w !! "MONGO_USERNAME")
                  && Py.truthy (environ w !! "MONGO_PASSWORD") in
      dict_get "username" kwargs
      = (if both then Some (of_option VStr (environ w !! "MONGO_USERNAME"))
         else None)
      /\ dict_get "password" kwargs
         = (if both then Some (of_option VStr (environ w !! "MONGO_PASSWORD"))
            else None))
  /\ dict_get "authSource" kwargs
     = (if Py.truthy (environ w !! "MONGO_AUTH_SOURCE")
        then Some (of_option VStr (environ w !! "MONGO_AUTH_SOURCE"))
        else None).
Proof.
  cbv zeta. unfold discrete_kwargs.
  destruct (Py.truthy (environ w !! "MONGO_USERNAME"));
    destruct (Py.truthy (environ w !! "MONGO_PASSWORD"));
    destruct (Py.truthy (environ w !! "MONGO_AUTH_SOURCE")); cbn;
    repeat split.
Qed.

(** Without a usable [MONGO_URI] and with a [MONGO_PORT] that [int()]
    turns into the number [port] (27017 when unset), the one constructor
    call has no positional argument; its keywords are the host (default
    "localhost"), the port and [tz_aware]; [username] and [password] are
    passed only when both are set and non-empty, and [authSource] only when
    it is. *)
Theorem mongo_client_discrete_settings (X : Externals) (w : World) (port : Z) :
  _client w = None ->
  Py.truthy (environ w !! "MONGO_URI") = false ->
  py_int X (env_or w "MONGO_PORT" "27017") = Return port ->
  exists kwargs,
    new_calls w (snd (_mongo_client X w))
    = [CallMongoClient {| positional := []; keywords := kwargs |}]
    /\ dict_get "host" kwargs = Some (VStr (env_or w "MONGO_HOST" "localhost"))
    /\ dict_get "port" kwargs = Some (VInt port)
    /\ dict_get "tz_aware" kwargs = Some (VBool true)
    /\ (let both := Py.truthy (environ w !! "MONGO_USERNAME")
                    && Py.truthy (environ w !! "MONGO_PASSWORD") in
        dict_get "username" kwargs
        = (if both then Some (of_option VStr (environ w !! "MONGO_USERNAME"))
           else None)
        /\ dict_get "password" kwargs
           = (if both then Some (of_option VStr (environ w !! "MONGO_PASSWORD"))
              else None))
    /\ dict_get "authSource" kwargs
       = (if Py.truthy (environ w !! "MONGO_AUTH_SOURCE")
          then Some (of_option VStr (environ w !! "MONGO_AUTH_SOURCE"))
          else None).
Proof.
  intros Hnone Huri Hport.
  rewrite mongo_client_run, Hnone, Huri, Hport.
  exists (discrete_kwargs w port). split.
  - apply new_calls_app. apply connected_calls.
  - apply discrete_kwargs_entries.
Qed.

Lemma mongo_client_discrete_settings_witness :
  exists kwargs,
    new_calls SampleEnv.discrete
      (snd (_mongo_client (Sample.externals VNone) SampleEnv.discrete))
    = [CallMongoClient {| positional := []; keywords := kwargs |}]
    /\ dict_get "host" kwargs = Some (VStr "db.internal")
    /\ dict_get "port" kwargs = Some (VInt 27017)
    /\ dict_get "username" kwargs = None.
Proof.
  assert (Huri : Py.truthy (environ SampleEnv.discrete !! "MONGO_URI") = false)
    by (vm_compute; reflexivity).
  assert (Hport : py_int (Sample.externals VNone)
                    (env_or SampleEnv.discrete "MONGO_PORT" "27017")
                  = Return 27017)
    by (vm_compute; reflexivity).
  destruct (mongo_client_discrete_settings (Sample.externals VNone)
              SampleEnv.discrete 27017 eq_refl Huri Hport)
    as (kwargs & Hcalls & Hhost & Hp & _ & [Huser _] & _).
  exists kwargs. split; [exact Hcalls|].
  split; [rewrite Hhost; vm_compute; reflexivity|].
  split; [exact Hp|].
  rewrite Huser. vm_compute. reflexivity.
Defined.

(** On plain ASCII text of at most 4300 characters [int()] is decided by
    the embedding: the number, or [ValueError] with the [repr] of the
    text. *)
Lemma py_int_plain (X : Externals) (text : string) :
  Py.is_plain text = true ->
  py_int X text
  = match Py.int text with
    | Some n => Return n
    | None =>
        Raise (OtherError "ValueError"
                 ("invalid literal for int() with base 10: "
                  +:+ Py.truncate 200 (Py.repr text)))
    end.
Proof. intros H. unfold py_int. now rewrite H. Qed.

Lemma mongo_client_invalid_port_run (X : Externals) (w : World) (e : exn) :
  _client w = None ->
  Py.truthy (environ w !! "MONGO_URI") = false ->
  py_int X (env_or w "MONGO_PORT" "27017") = Raise e ->
  _mongo_client X w = (Raise e, w).
Proof.
  intros Hnone Huri Hport.
  now rewrite mongo_client_run, Hnone, Huri, Hport.
Qed.

(** Without a usable [MONGO_URI], a [MONGO_PORT] that [int()] refuses
    makes [_mongo_client] raise the error of [int()] before any constructor
    call; the world is as before, the cache still empty. *)
Theorem mongo_client_invalid_port (X : Externals) (w : World) (e : exn) :
  _client w = None ->
  Py.truthy (environ w !! "MONGO_URI") = false ->
  py_int X (env_or w "MONGO_PORT" "27017") = Raise e ->
  _mongo_client X w = (Raise e, w).
Proof. exact (mongo_client_invalid_port_run X w e). Qed.

Lemma mongo_client_invalid_port_witness :
  _mongo_client (Sample.externals VNone) SampleEnv.bad_port
  = (Raise (OtherError "ValueError"
              "invalid literal for int() with base 10: '27o17'"),
     SampleEnv.bad_port).
Proof.
  assert (Huri : Py.truthy (environ SampleEnv.bad_port !! "MONGO_URI") = false)
    by (vm_compute; reflexivity).
  assert (Hport : py_int (Sample.externals VNone)
                    (env_or SampleEnv.bad_port "MONGO_PORT" "27017")
                  = Raise (OtherError "ValueError"
                             "invalid literal for int() with base 10: '27o17'"))
    by (vm_compute; reflexivity).
  exact (mongo_client_invalid_port (Sample.externals VNone) SampleEnv.bad_port
           _ eq_refl Huri Hport).
Defined.

(** A call of [_mongo_client] that raises leaves the cache empty, so the
    next call tries again; and no call constructs more than one client. *)
Theorem mongo_client_failure_not_cached (X : Externals) (w : World) :
  (forall e w', _mongo_client X w = (Raise e, w') ->
                _client w = None /\ _client w' = None)
  /\ (count_calls is_mongo_client_call (new_calls w (snd (_mongo_client X w)))
      <= 1)%nat.
Proof.
  rewrite mongo_client_run.
  destruct (_client w) as [cached|] eqn:Hc.
  { split; [intros e w' H; discriminate H|].
    cbn. rewrite new_calls_same. cbn. lia. }
  destruct (Py.truthy (environ w !! "MONGO_URI")).
  - destruct (logger_debug_trace X telemetry_logger
                "Connecting to MongoDB using URI" w) as (made & Hw1 & Hmade).
    assert (Hnone : List.filter is_mongo_client_call made = []).
    { apply emit_calls_filtered; [|exact Hmade]. now intros []. }
    destruct (logger_debug X telemetry_logger _ w) as [[[]|e] w1];
      cbn [snd] in Hw1; subst w1.
    + split.
      * intros e w' H. split; [reflexivity|].
        apply connected_raises in H. rewrite H. exact Hc.
      * erewrite new_calls_app
          by (rewrite connected_calls; cbn; rewrite <- app_assoc; reflexivity).
        unfold count_calls. cbn [app List.filter is_mongo_client_call].
        rewrite List.filter_app, Hnone. cbn. lia.
    + split.
      * intros e' w' H. injection H as <- <-. now split.
      * cbn [snd]. erewrite new_calls_app by reflexivity.
        unfold count_calls. cbn [List.filter is_mongo_client_call].
        rewrite Hnone. cbn. lia.
  - destruct (py_int X (env_or w "MONGO_PORT" "27017")) as [port|e].
    + split.
      * intros e w' H. split; [reflexivity|].
        apply connected_raises in H. rewrite H. exact Hc.
      * erewrite new_calls_app by apply connected_calls. cbn. lia.
    + split; [intros e' w' H; injection H as <- <-; now split|].
      cbn [snd]. rewrite new_calls_same. cbn. lia.
Qed.

Lemma mongo_client_failure_not_cached_witness :
  exists e w',
    _mongo_client Sample.database_down (Sample.world ∅) = (Raise e, w')
    /\ _client w' = None.
Proof.
  destruct (_mongo_client Sample.database_down (Sample.world ∅))
    as [result w'] eqn:Hrun.
  assert (Hraise : exists e, result = Raise e).
  { vm_compute in Hrun. injection Hrun as <- _. eexists. reflexivity. }
  destruct Hraise as [e ->].
  destruct (mongo_client_failure_not_cached Sample.database_down (Sample.world ∅))
    as [Hfail _].
  exists e, w'. split; [reflexivity|]. exact (proj2 (Hfail e w' Hrun)).
Defined.

Lemma env_or_environ (w w1 : World) (name default : string) :
  environ w1 = environ w -> env_or w1 name default = env_or w name default.
Proof. intros H. unfold env_or. now rewrite H. Qed.

Lemma mongo_client_keeps_environ (X : Externals) (w : World) :
  environ (snd (_mongo_client X w)) = environ w.
Proof.
  apply (preserves_mongo_client X (fun w' => environ w' = environ w));
    [intros cs w' H; exact H | intros c w' H; exact H | reflexivity].
Qed.


(** ** The database and the three collections *)

(** The database that [_mongo_database] returns is named by
    [MONGO_DB_NAME], "telemetry" when unset, and belongs to the client that
    is then in the cache. *)
Theorem mongo_database_returns (X : Externals) (w w' : World) (db : Database) :
  _mongo_database X w = (Return db, w') ->
  db_name db = env_or w "MONGO_DB_NAME" "telemetry"
  /\ _client w' = Some (db_client db)
  /\ database_raises X (db_name db) = None.
Proof.
  unfold _mongo_database. intros H.
  apply bind_inv_return in H as (client & w1 & Hclient & H).
  rewrite bind_getenv_default in H. unfold client_getitem in H.
  pose proof (mongo_client_keeps_environ X w) as Henv.
  rewrite Hclient in Henv. cbn [snd] in Henv.
  rewrite (env_or_environ w w1 _ _ Henv) in H.
  destruct (database_raises X (env_or w "MONGO_DB_NAME" "telemetry")) eqn:Hdb;
    [discriminate|].
  injection H as <- <-. cbn.
  split; [reflexivity|]. split; [|exact Hdb].
  exact (mongo_client_stores X w w1 client Hclient).
Qed.

Lemma mongo_database_returns_witness :
  exists db w',
    _mongo_database (Sample.externals VNone) (Sample.world ∅) = (Return db, w')
    /\ db_name db = "telemetry"
    /\ _client w' = Some (db_client db).
Proof.
  destruct (_mongo_database (Sample.externals VNone) (Sample.world ∅))
    as [result w'] eqn:Hrun.
  assert (Hret : exists db, result = Return db).
  { vm_compute in Hrun. injection Hrun as <- _. eexists. reflexivity. }
  destruct Hret as [db ->].
  destruct (mongo_database_returns _ _ _ _ Hrun) as (Hname & Hclient & _).
  exists db, w'. split; [reflexivity|]. split; [|exact Hclient].
  rewrite Hname. vm_compute. reflexivity.
Defined.

(** The three collections that [configure_telemetry] acquires are in one
    and the same database, under the three names asked for. *)
Theorem acquire_collections_returns (X : Externals) (a b c : string)
    (w w1 : World) (lc tc mc : Collection) :
  acquire_collections X a b c w = (Return (lc, tc, mc), w1) ->
  exists db,
    _mongo_database X w = (Return db, w1)
    /\ lc = {| col_database := db; col_name := a |}
    /\ tc = {| col_database := db; col_name := b |}
    /\ mc = {| col_database := db; col_name := c |}.
Proof.
  unfold acquire_collections, database_getitem. intros H.
  apply bind_inv_return in H as (db & w2 & Hdb & H).
  exists db.
  destruct (collection_raises X a); [discriminate|].
  destruct (collection_raises X b); [discriminate|].
  destruct (collection_raises X c); [discriminate|].
  cbn in H. injection H as <- <- <- <-.
  repeat split. exact Hdb.
Qed.

Lemma acquire_collections_returns_witness :
  exists db w1,
    acquire_collections (Sample.externals VNone) "logs" "traces" "metrics"
      (Sample.world ∅)
    = (Return ({| col_database := db; col_name := "logs" |},
               {| col_database := db; col_name := "traces" |},
               {| col_database := db; col_name := "metrics" |}), w1).
Proof.
  destruct (acquire_collections (Sample.externals VNone) "logs" "traces" "metrics"
              (Sample.world ∅)) as [result w1] eqn:Hrun.
  assert (Hret : exists lc tc mc, result = Return (lc, tc, mc)).
  { vm_compute in Hrun. injection Hrun as <- _. do 3 eexists. reflexivity. }
  destruct Hret as (lc & tc & mc & ->).
  destruct (acquire_collections_returns _ _ _ _ _ _ _ _ _ Hrun)
    as (db & _ & -> & -> & ->).
  exists db, w1. reflexivity.
Defined.


(** ** Logging configuration and start-up *)

Lemma basicConfig_valid (level : LevelArg) (n : Z) (w : World) :
  _checkLevel level = Return n ->
  basicConfig level w
  = (Return tt,
     match root_handlers w with
     | [] => with_root_level n (with_root_handlers [StreamHandler] w)
     | _ :: _ => w
     end).
Proof.
  intros H. unfold basicConfig. rewrite H. now destruct (root_handlers w).
Qed.

(** The values of [LOG_LEVEL] that [_configure_logging] can use: every
    name but two gives a level, INFO when the name is not one of the
    logging module; the module's [BASIC_FORMAT] and [_STYLES] are found by
    [getattr] and are not levels. *)
Lemma getattr_logging_checked (name : string) :
  _checkLevel (getattr_logging name)
  = if String.eqb name "BASIC_FORMAT"
    then Raise (OtherError "ValueError"
                  "Unknown level: '%(levelname)s:%(name)s:%(message)s'")
    else if String.eqb name "_STYLES"
         then Raise (OtherError "TypeError"
                       ("Level not an integer or a valid string: "
                        +:+ STYLES_repr))
         else Return (match nameToLevel name with
                      | Some level => level
                      | None => INFO
                      end).
Proof.
  unfold getattr_logging.
  destruct (String.eqb_spec name "BASIC_FORMAT") as [->|Hb]; [reflexivity|].
  destruct (String.eqb_spec name "_STYLES") as [->|Hs]; [reflexivity|].
  now destruct (nameToLevel name).
Qed.

Section ConfigureLogging.

Variable X : Externals.

(** What [_configure_logging] does with a usable [LOG_LEVEL]. *)
Lemma configure_logging_run (collection : Collection) (w : World) (level : Z) :
  asked_level X w = Return level ->
  _configure_logging X collection w
  = (Return tt, after_configure_logging collection level w).
Proof.
  unfold asked_level. intros H. unfold _configure_logging.
  rewrite bind_getenv_default.
  cbv zeta.
  unfold bind at 1. rewrite (basicConfig_valid _ _ _ H). cbv beta iota.
  unfold bind at 1. unfold lift at 1. rewrite H.
  destruct w as [env client rl rh ll lp tpg mpg cs]. cbn.
  now destruct rh.
Qed.

(** What it does with one that is refused: the stream handler may have
    been added, the database handler is not. *)
Lemma configure_logging_refused (collection : Collection) (w : World) (e : exn) :
  asked_level X w = Raise e ->
  _configure_logging X collection w
  = (Raise e,
     match root_handlers w with
     | [] => with_root_handlers [StreamHandler] w
     | _ :: _ => w
     end).
Proof.
  unfold asked_level. intros H. unfold _configure_logging.
  rewrite bind_getenv_default. cbv zeta.
  unfold bind at 1. unfold basicConfig. rewrite H.
  destruct (root_handlers w); reflexivity.
Qed.

Lemma configure_logging_facts (collection : Collection) (w : World) (level : Z) :
  asked_level X w = Return level ->
  let w' := snd (_configure_logging X collection w) in
  fst (_configure_logging X collection w) = Return tt
  /\ root_handlers w'
     = match root_handlers w with
       | [] => [StreamHandler]
       | existing => existing
       end ++ [MongoLoggingHandler collection level]
  /\ calls w' = calls w
  /\ environ w' = environ w
  /\ _client w' = _client w
  /\ logger_levels w' !! "httpx" = Some WARNING
  /\ logger_levels w' !! "uvicorn" = Some WARNING
  /\ logger_propagate w' !! "uvicorn.error" = Some false
  /\ logger_propagate w' !! "uvicorn.access" = Some false.
Proof.
  intros H. cbv zeta. rewrite (configure_logging_run collection w level H).
  cbn [fst snd after_configure_logging root_handlers calls environ _client
       logger_levels logger_propagate].
  repeat split.
  - rewrite lookup_insert_ne by discriminate. apply lookup_insert_eq.
  - apply lookup_insert_eq.
  - rewrite lookup_insert_ne by discriminate. apply lookup_insert_eq.
  - apply lookup_insert_eq.
Qed.

Lemma configure_logging_handlers (collection : Collection) (w : World) :
  let run := _configure_logging X collection w in
  fst run = match asked_level X w with
            | Return _ => Return tt
            | Raise e => Raise e
            end
  /\ List.filter is_mongo_handler (root_handlers (snd run))
     = List.filter is_mongo_handler (root_handlers w)
       ++ match asked_level X w with
          | Return level => [MongoLoggingHandler collection level]
          | Raise _ => []
          end.
Proof.
  cbv zeta. destruct (asked_level X w) as [level|e] eqn:H.
  - rewrite (configure_logging_run collection w level H).
    cbn [fst snd after_configure_logging root_handlers].
    split; [reflexivity|].
    rewrite List.filter_app. now destruct (root_handlers w).
  - rewrite (configure_logging_refused collection w e H).
    cbn [fst snd]. split; [reflexivity|].
    rewrite app_nil_r.
    destruct (root_handlers w) eqn:E; cbn; rewrite ?E; reflexivity.
Qed.

End ConfigureLogging.

(** With a [LOG_LEVEL] that names a level (any letter case; INFO when
    unset or not a name of the logging module), [_configure_logging]
    returns, makes no call to the outside, and appends exactly one
    [MongoLoggingHandler], on the given collection and at that level, after
    the handlers already there; the root logger gets a stream handler first
    only if it had no handler.  The [httpx] and [uvicorn] loggers are set
    to WARNING and the two [uvicorn] sub-loggers stop propagating. *)
Theorem configure_logging_effect (X : Externals) (collection : Collection)
    (w : World) (level : Z) :
  asked_level X w = Return level ->
  let w' := snd (_configure_logging X collection w) in
  fst (_configure_logging X collection w) = Return tt
  /\ root_handlers w'
     = match root_handlers w with
       | [] => [StreamHandler]
       | existing => existing
       end ++ [MongoLoggingHandler collection level]
  /\ calls w' = calls w
  /\ environ w' = environ w
  /\ _client w' = _client w
  /\ logger_levels w' !! "httpx" = Some WARNING
  /\ logger_levels w' !! "uvicorn" = Some WARNING
  /\ logger_propagate w' !! "uvicorn.error" = Some false
  /\ logger_propagate w' !! "uvicorn.access" = Some false.
Proof. exact (configure_logging_facts X collection w level). Qed.

Lemma configure_logging_effect_witness :
  let w := Sample.world {[ "LOG_LEVEL" := "debug" ]} in
  let w' := snd (_configure_logging (Sample.externals VNone)
                   Sample.logs_collection w) in
  fst (_configure_logging (Sample.externals VNone) Sample.logs_collection w)
  = Return tt
  /\ root_handlers w'
     = [StreamHandler; MongoLoggingHandler Sample.logs_collection 10].
Proof.
  cbv zeta.
  assert (Hlevel : asked_level (Sample.externals VNone)
                     (Sample.world {[ "LOG_LEVEL" := "debug" ]}) = Return 10)
    by (vm_compute; reflexivity).
  destruct (configure_logging_effect (Sample.externals VNone)
              Sample.logs_collection _ 10 Hlevel) as (Hret & Hh & _).
  split; [exact Hret | exact Hh].
Defined.

(** [_configure_logging] adds one database handler each time it returns,
    so configuring twice makes every record be written twice; and it
    returns exactly when [LOG_LEVEL] names a level.  With [LOG_LEVEL] set
    to [basic_format] or [_styles] it raises the error of the level check,
    [ValueError] or [TypeError], and adds no database handler. *)
Theorem configure_logging_adds_a_handler (X : Externals)
    (collection : Collection) (w : World) :
  let run := _configure_logging X collection w in
  fst run = match asked_level X w with
            | Return _ => Return tt
            | Raise e => Raise e
            end
  /\ List.filter is_mongo_handler (root_handlers (snd run))
     = List.filter is_mongo_handler (root_handlers w)
       ++ match asked_level X w with
          | Return level => [MongoLoggingHandler collection level]
          | Raise _ => []
          end.
Proof. exact (configure_logging_handlers X collection w). Qed.

(** [LOG_LEVEL=basic_format]: start-up of the logging fails. *)
Example configure_logging_basic_format :
  let w := Sample.world {[ "LOG_LEVEL" := "basic_format" ]} in
  let run := _configure_logging (Sample.externals VNone) Sample.logs_collection w in
  fst run = Raise (OtherError "ValueError"
                     "Unknown level: '%(levelname)s:%(name)s:%(message)s'")
  /\ root_handlers (snd run) = [StreamHandler].
Proof. cbv zeta. split; vm_compute; reflexivity. Qed.

Section StartUp.

Variable X : Externals.

Lemma set_tracer_provider_first (tp : TracerProvider) (w : World) :
  tracer_provider_global w = None ->
  set_tracer_provider X tp w = (Return tt, with_tracer_provider tp w).
Proof.
  intros H. unfold set_tracer_provider, bind, get_world. now rewrite H.
Qed.

Lemma set_meter_provider_first (mp : MeterProvider) (w : World) :
  meter_provider_global w = None ->
  set_meter_provider X mp w = (Return tt, with_meter_provider mp w).
Proof.
  intros H. unfold set_meter_provider, bind, get_world. now rewrite H.
Qed.

(** The run of [configure_telemetry] after the collections are acquired,
    in a process without registered providers and with a usable
    [LOG_LEVEL]. *)
Lemma configure_telemetry_success_run (w w1 : World) (lc tc mc : Collection)
    (level : Z) :
  acquire_collections X (log_collection_name w) (trace_collection_name w)
    (metric_collection_name w) w
  = (Return (lc, tc, mc), w1) ->
  asked_level X w = Return level ->
  tracer_provider_global w = None ->
  meter_provider_global w = None ->
  let resource : pydict :=
    [ ("service.name", VStr (env_or w "OTEL_SERVICE_NAME" "devto-news-service"));
      ("service.version", VStr (env_or w "OTEL_SERVICE_VERSION" "1.0.0"));
      ("service.instance.id",
       VStr (env_or w "OTEL_SERVICE_INSTANCE_ID" "local-instance")) ] in
  let tp := {| tracer_resource := resource;
               span_processors := [BatchSpanProcessor (MongoSpanExporter tc)] |} in
  let mp := {| meter_resource := resource;
               metric_readers :=
                 [PeriodicExportingMetricReader (MongoMetricExporter mc)] |} in
  configure_telemetry X w
  = (Return (tp, mp),
     with_meter_provider mp
       (with_tracer_provider tp (after_configure_logging lc level w1))).
Proof.
  intros Hacq Hlevel Htracer Hmeter. cbv zeta.
  destruct (acquire_collections_frame X (log_collection_name w)
              (trace_collection_name w) (metric_collection_name w) w)
    as (_ & Henv & Ht & Hm).
  rewrite Hacq in Henv, Ht, Hm. cbn [snd] in Henv, Ht, Hm.
  assert (Hlevel1 : asked_level X w1 = Return level).
  { unfold asked_level in *. now rewrite (env_or_environ w w1 _ _ Henv). }
  unfold log_collection_name, trace_collection_name, metric_collection_name in Hacq.
  unfold configure_telemetry.
  rewrite !bind_getenv_default.
  erewrite bind_returned;
    [ | apply try_returned; erewrite bind_returned; [reflexivity | exact Hacq] ].
  cbv beta iota.
  erewrite bind_returned by (apply configure_logging_run; exact Hlevel1).
  rewrite !bind_getenv_default.
  cbv zeta.
  assert (Henv2 : environ (after_configure_logging lc level w1) = environ w)
    by exact Henv.
  rewrite !(env_or_environ w _ _ _ Henv2).
  erewrite bind_returned
    by (apply set_tracer_provider_first; cbn; now rewrite Ht).
  erewrite bind_returned
    by (apply set_meter_provider_first; cbn; now rewrite Hm).
  reflexivity.
Qed.

End StartUp.

(** In a process without registered providers and with a [LOG_LEVEL] that
    names a level, when the collections are acquired [configure_telemetry]
    returns a tracer provider with one batch processor over a
    [MongoSpanExporter] on the trace collection and a meter provider with
    one periodic reader over a [MongoMetricExporter] on the metric
    collection; the logging handler is on the log collection, at that
    level; the resource names the service from the environment; and
    nothing is called after the acquisition: start-up writes nothing to the
    database. *)
Theorem configure_telemetry_installs_exporters (X : Externals) (w w1 : World)
    (lc tc mc : Collection) (level : Z) :
  acquire_collections X (log_collection_name w) (trace_collection_name w)
    (metric_collection_name w) w
  = (Return (lc, tc, mc), w1) ->
  asked_level X w = Return level ->
  tracer_provider_global w = None ->
  meter_provider_global w = None ->
  exists tp mp w',
    configure_telemetry X w = (Return (tp, mp), w')
    /\ span_processors tp = [BatchSpanProcessor (MongoSpanExporter tc)]
    /\ metric_readers mp = [PeriodicExportingMetricReader (MongoMetricExporter mc)]
    /\ tracer_resource tp = meter_resource mp
    /\ dict_get "service.name" (tracer_resource tp)
       = Some (VStr (env_or w "OTEL_SERVICE_NAME" "devto-news-service"))
    /\ root_handlers w'
       = match root_handlers w1 with
         | [] => [StreamHandler]
         | existing => existing
         end
         ++ [MongoLoggingHandler lc level]
    /\ calls w' = calls w1.
Proof.
  intros Hacq Hlevel Htracer Hmeter.
  rewrite (configure_telemetry_success_run X w w1 lc tc mc level
             Hacq Hlevel Htracer Hmeter).
  cbv zeta. do 3 eexists. split; [reflexivity|]. repeat split.
Qed.

Lemma configure_telemetry_installs_exporters_witness :
  exists tp mp w' lc tc mc,
    configure_telemetry (Sample.externals VNone) (Sample.world ∅)
    = (Return (tp, mp), w')
    /\ span_processors tp = [BatchSpanProcessor (MongoSpanExporter tc)]
    /\ metric_readers mp = [PeriodicExportingMetricReader (MongoMetricExporter mc)]
    /\ col_name lc = "logs" /\ col_name tc = "traces" /\ col_name mc = "metrics"
    /\ root_handlers w' = [StreamHandler; MongoLoggingHandler lc INFO].
Proof.
  destruct (acquire_collections (Sample.externals VNone)
              (log_collection_name (Sample.world ∅))
              (trace_collection_name (Sample.world ∅))
              (metric_collection_name (Sample.world ∅)) (Sample.world ∅))
    as [result w1] eqn:Hacq.
  assert (Hret : exists db,
             result = Return ({| col_database := db; col_name := "logs" |},
                              {| col_database := db; col_name := "traces" |},
                              {| col_database := db; col_name := "metrics" |})).
  { vm_compute in Hacq. injection Hacq as <- _. eexists. reflexivity. }
  destruct Hret as (db & ->).
  assert (Hlevel : asked_level (Sample.externals VNone) (Sample.world ∅)
                   = Return INFO)
    by (vm_compute; reflexivity).
  pose proof (acquire_collections_frame (Sample.externals VNone)
                (log_collection_name (Sample.world ∅))
                (trace_collection_name (Sample.world ∅))
                (metric_collection_name (Sample.world ∅)) (Sample.world ∅))
    as (Hh & _).
  rewrite Hacq in Hh. cbn [snd] in Hh.
  destruct (configure_telemetry_installs_exporters _ _ _ _ _ _ _
              Hacq Hlevel eq_refl eq_refl)
    as (tp & mp & w' & Hrun & Htp & Hmp & _ & _ & Hhandlers & _).
  exists tp, mp, w',
    {| col_database := db; col_name := "logs" |},
    {| col_database := db; col_name := "traces" |},
    {| col_database := db; col_name := "metrics" |}.
  split; [exact Hrun|]. split; [exact Htp|]. split; [exact Hmp|].
  rewrite Hhandlers, Hh. repeat split.
Defined.


Lemma configure_telemetry_unhandled (X : Externals) (w w1 : World) (e : exn) :
  acquire_collections X (log_collection_name w) (trace_collection_name w)
    (metric_collection_name w) w
  = (Raise e, w1) ->
  (forall msg, e <> PyMongoError msg) ->
  configure_telemetry X w = (Raise e, w1).
Proof.
  intros Hacq Hother.
  unfold log_collection_name, trace_collection_name, metric_collection_name in Hacq.
  unfold configure_telemetry.
  rewrite !bind_getenv_default.
  apply bind_raised. apply try_unhandled.
  - apply bind_raised. exact Hacq.
  - destruct e; try reflexivity. now destruct (Hother msg).
Qed.

(** An error of the acquisition that is not a [PyMongoError] is not caught:
    with no usable [MONGO_URI] and a [MONGO_PORT] that [int()] refuses,
    [configure_telemetry] raises the [ValueError] of [int()] instead of
    falling back, and no provider or handler is installed: the world is as
    before. *)
Theorem configure_telemetry_invalid_port (X : Externals) (w : World)
    (class_name msg : string) :
  _client w = None ->
  Py.truthy (environ w !! "MONGO_URI") = false ->
  py_int X (env_or w "MONGO_PORT" "27017") = Raise (OtherError class_name msg) ->
  configure_telemetry X w = (Raise (OtherError class_name msg), w).
Proof.
  intros Hnone Huri Hport.
  apply configure_telemetry_unhandled; [|discriminate].
  unfold acquire_collections, _mongo_database.
  apply bind_raised. apply bind_raised.
  now apply mongo_client_invalid_port_run.
Qed.

Lemma configure_telemetry_invalid_port_witness :
  configure_telemetry Sample.database_down SampleEnv.bad_port
  = (Raise (OtherError "ValueError"
              "invalid literal for int() with base 10: '27o17'"),
     SampleEnv.bad_port).
Proof.
  assert (Huri : Py.truthy (environ SampleEnv.bad_port !! "MONGO_URI") = false)
    by (vm_compute; reflexivity).
  assert (Hport : py_int Sample.database_down
                    (env_or SampleEnv.bad_port "MONGO_PORT" "27017")
                  = Raise (OtherError "ValueError"
                             "invalid literal for int() with base 10: '27o17'"))
    by (vm_compute; reflexivity).
  exact (configure_telemetry_invalid_port Sample.database_down
           SampleEnv.bad_port _ _ eq_refl Huri Hport).
Defined.

Section Registration.

Variable X : Externals.

Lemma configure_logging_keeps_providers (collection : Collection) (w : World) :
  tracer_provider_global (snd (_configure_logging X collection w))
  = tracer_provider_global w
  /\ meter_provider_global (snd (_configure_logging X collection w))
     = meter_provider_global w.
Proof.
  destruct (asked_level X w) as [level|e] eqn:H.
  - rewrite (configure_logging_run X collection w level H).
    split; reflexivity.
  - rewrite (configure_logging_refused X collection w e H).
    cbn [snd]. destruct (root_handlers w); split; reflexivity.
Qed.

(** Registering both providers, when both registrations return. *)
Lemma register_both {B} (tp : TracerProvider) (mp : MeterProvider)
    (k : M B) (w w' : World) (b : B) :
  bind (set_tracer_provider X tp)
       (fun _ => bind (set_meter_provider X mp) (fun _ => k)) w
  = (Return b, w') ->
  exists w2,
    k w2 = (Return b, w')
    /\ tracer_provider_global w2
       = Some (match tracer_provider_global w with
               | Some first => first
               | None => tp
               end)
    /\ meter_provider_global w2
       = Some (match meter_provider_global w with
               | Some first => first
               | None => mp
               end).
Proof.
  intros H.
  apply bind_inv_return in H as ([] & w1 & Htp & H).
  apply bind_inv_return in H as ([] & w2 & Hmp & H).
  exists w2. split; [exact H|].
  destruct (set_tracer_provider_global X tp w) as [Htt Htm].
  destruct (set_meter_provider_global X mp w1) as [Hmm Hmt].
  rewrite Htp in Htt, Htm. rewrite Hmp in Hmm, Hmt. cbn [snd] in *.
  rewrite Hmt, Hmm, Htt, Htm. split; reflexivity.
Qed.

Lemma fallback_telemetry_globals (exc : exn) (w1 w' : World)
    (tp : TracerProvider) (mp : MeterProvider) :
  fallback_telemetry X exc w1 = (Return (tp, mp), w') ->
  tracer_provider_global w'
  = Some (match tracer_provider_global w1 with
          | Some first => first
          | None => tp
          end)
  /\ meter_provider_global w'
     = Some (match meter_provider_global w1 with
             | Some first => first
             | None => mp
             end).
Proof.
  unfold fallback_telemetry. intros H.
  apply bind_inv_return in H as ([] & w2 & Hbc & H).
  apply bind_inv_return in H as ([] & w3 & Hlog & H).
  cbv zeta in H.
  apply register_both in H as (w4 & Hret & Ht & Hm).
  injection Hret as <- <- <-.
  destruct (basicConfig_frame (LevelInt INFO) w1) as (_ & _ & _ & _ & Hbt & Hbm).
  cbv zeta in Hbt, Hbm. rewrite Hbc in Hbt, Hbm. cbn [snd] in Hbt, Hbm.
  rewrite logger_exception_run in Hlog. injection Hlog as _ <-.
  cbn [tracer_provider_global meter_provider_global set_calls] in Ht, Hm.
  now rewrite Ht, Hm, Hbt, Hbm.
Qed.

End Registration.

(** The providers that [configure_telemetry] returns become the
    process-wide ones only where none was registered before: a provider
    registered earlier stays, for tracing and for metrics alike. *)
Theorem configure_telemetry_registers_once (X : Externals) (w w' : World)
    (tp : TracerProvider) (mp : MeterProvider) :
  configure_telemetry X w = (Return (tp, mp), w') ->
  tracer_provider_global w'
  = Some (match tracer_provider_global w with
          | Some first => first
          | None => tp
          end)
  /\ meter_provider_global w'
     = Some (match meter_provider_global w with
             | Some first => first
             | None => mp
             end).
Proof.
  intros Hrun.
  destruct (acquire_collections_frame X (log_collection_name w)
              (trace_collection_name w) (metric_collection_name w) w)
    as (_ & _ & Ht & Hm).
  unfold log_collection_name, trace_collection_name, metric_collection_name
    in Ht, Hm.
  unfold configure_telemetry in Hrun.
  rewrite !bind_getenv_default in Hrun.
  apply bind_inv_return in Hrun as (acquired & w1 & Htry & Hrest).
  unfold try_except in Htry.
  destruct (acquire_collections X _ _ _ w) as [[cols|e] w0] eqn:Hacq;
    cbn [snd] in Ht, Hm.
  - erewrite bind_returned in Htry by exact Hacq.
    injection Htry as <- <-. destruct cols as [[lc tc] mc].
    cbv beta iota in Hrest.
    apply bind_inv_return in Hrest as ([] & w2 & Hcl & Hrest).
    rewrite !bind_getenv_default in Hrest. cbv zeta in Hrest.
    apply register_both in Hrest as (w3 & Hret & Ht3 & Hm3).
    injection Hret as <- <- <-.
    destruct (configure_logging_keeps_providers X lc w0) as [Hlt Hlm].
    rewrite Hcl in Hlt, Hlm. cbn [snd] in Hlt, Hlm.
    now rewrite Ht3, Hm3, Hlt, Hlm, Ht, Hm.
  - erewrite bind_raised in Htry by exact Hacq.
    destruct e as [msg| | | |]; try discriminate Htry.
    apply bind_inv_return in Htry as ([tp0 mp0] & w2 & Hfall & Hret).
    injection Hret as <- <-.
    injection Hrest as <- <- <-.
    destruct (fallback_telemetry_globals X _ _ _ _ _ Hfall) as [Hft Hfm].
    now rewrite Hft, Hfm, Ht, Hm.
Qed.

Lemma configure_telemetry_registers_once_witness :
  exists tp mp w',
    configure_telemetry (Sample.externals VNone) (Sample.world ∅)
    = (Return (tp, mp), w')
    /\ tracer_provider_global w' = Some tp
    /\ meter_provider_global w' = Some mp.
Proof.
  destruct (configure_telemetry (Sample.externals VNone) (Sample.world ∅))
    as [result w'] eqn:Hrun.
  assert (Hret : exists tp mp, result = Return (tp, mp)).
  { vm_compute in Hrun. injection Hrun as <- _. do 2 eexists. reflexivity. }
  destruct Hret as (tp & mp & ->).
  destruct (configure_telemetry_registers_once _ _ _ _ _ Hrun) as [Ht Hm].
  exists tp, mp, w'. repeat split; assumption.
Defined.

(** ** The logging handler, in every case *)

(** [MongoLoggingHandler.emit] first builds the document of the record,
    and a record with [exc_info] stops it there: [self.formatException]
    does not exist on a handler, the [AttributeError] is not caught and no
    insert is made.  When the document is built, [emit] makes exactly one
    insert, of that document; it returns when the insert returns, without
    calling [handleError]; it calls [handleError] once and returns when the
    insert raises a [PyMongoError]; any other exception of the insert is
    not caught and reaches the code that logged. *)
Theorem emit_outcome (X : Externals) (collection : Collection)
    (record : LogRecord) (w : World) :
  let run := emit X collection record w in
  match build_log_document record with
  | Return document =>
      let insert := CallInsertOne collection document in
      match insert_one_raises X (calls w) collection document with
      | None => fst run = Return tt /\ new_calls w (snd run) = [insert]
      | Some (PyMongoError _) =>
          fst run = Return tt
          /\ new_calls w (snd run) = [insert; CallHandleError record]
      | Some e => fst run = Raise e /\ new_calls w (snd run) = [insert]
      end
  | Raise (PyMongoError _) =>
      fst run = Return tt /\ new_calls w (snd run) = [CallHandleError record]
  | Raise e => run = (Raise e, w)
  end
  /\ (forall message created_at exc_info,
        record_getMessage record = Return message ->
        record_created_at record = Return created_at ->
        record_exc_info record = Some exc_info ->
        run = (Raise attribute_error, w)).
Proof.
  cbv zeta. split.
  - rewrite emit_run.
    destruct (build_log_document record) as [document|e].
    + cbv zeta.
      destruct (insert_one_raises X (calls w) collection document) as [[]|];
        cbn [fst snd]; (split; [reflexivity|]); now apply new_calls_app.
    + destruct e; try reflexivity.
      cbn [fst snd]. split; [reflexivity|]. now apply new_calls_app.
  - intros message created_at exc_info Hm Hc He.
    rewrite emit_run, (build_log_document_exc_info record _ _ Hm Hc), He.
    reflexivity.
Qed.


(** ** The news endpoint: projection, replies and the trace *)

Lemma py_get_dict (items : pydict) (key : string) (default : value) :
  py_get (VDict items) key default
  = Return (match dict_get key items with Some v => v | None => default end).
Proof. reflexivity. Qed.

(** [project_article] succeeds exactly on an object whose [user] is absent
    or an object; anything else (an article that is not an object, a
    [user] that is [null], a string, a list) raises. *)
Theorem project_article_succeeds_iff (article : value) :
  (exists projected, project_article article = Return projected)
  <-> exists items, article = VDict items /\ user_is_object items = true.
Proof.
  split.
  - intros [projected H].
    destruct article; try (cbn in H; discriminate H).
    exists items. split; [reflexivity|].
    unfold project_article in H. rewrite !py_get_dict in H. unfold obind in H.
    unfold user_is_object.
    destruct (dict_get "user" items) as [[]|]; cbn in H;
      try discriminate H; reflexivity.
  - intros (items & -> & Huser).
    unfold project_article. rewrite !py_get_dict. unfold obind.
    unfold user_is_object in Huser.
    destruct (dict_get "user" items) as [[]|]; try discriminate Huser;
      cbn; eexists; reflexivity.
Qed.

(** The projection of an article keeps seven fields and nothing else: the
    six scalar fields with the value the article has under that key,
    [None] when the key is missing, and a [user] made of [name] and
    [username], [None] when the article has no [user] or the user lacks
    them. *)
Theorem project_article_fields (items : pydict) (projected : value) :
  project_article (VDict items) = Return projected ->
  let user := match dict_get "user" items with
              | Some (VDict u) => u
              | _ => []
              end in
  projected
  = VDict [ ("id", get_or_none "id" items);
            ("title", get_or_none "title" items);
            ("url", get_or_none "url" items);
            ("description", get_or_none "description" items);
            ("published_at", get_or_none "published_at" items);
            ("tags", get_or_none "tags" items);
            ("user", VDict [ ("name", get_or_none "name" user);
                             ("username", get_or_none "username" user) ]) ].
Proof.
  unfold project_article. rewrite !py_get_dict. unfold obind, get_or_none.
  destruct (dict_get "user" items) as [[]|]; cbn; intros H;
    try discriminate H; now injection H as <-.
Qed.

Lemma project_article_fields_witness :
  exists projected,
    project_article (Sample.article 7) = Return projected
    /\ vget "id" projected = Some (VInt 7)
    /\ vget "comments_count" projected = None
    /\ vpath ["user"; "username"] projected = Some (VStr "n").
Proof.
  destruct (project_article (Sample.article 7)) as [projected|e] eqn:Hrun;
    [|vm_compute in Hrun; discriminate Hrun].
  exists projected. split; [reflexivity|].
  rewrite (project_article_fields _ projected Hrun). cbv zeta.
  repeat split.
Defined.

Lemma project_all_acc (items : list value) :
  forall acc,
    project_all items acc
    = obind (project_all items []) (fun articles => Return (acc ++ articles)).
Proof.
  induction items as [|item items IH]; intros acc; cbn.
  - now rewrite app_nil_r.
  - unfold obind at 1 3. destruct (project_article item) as [p|e]; [|reflexivity].
    rewrite (IH (acc ++ [p])), (IH [p]). unfold obind.
    destruct (project_all items []); [|reflexivity].
    cbn. now rewrite <- app_assoc.
Qed.

(** The upstream items are projected one by one and in order, and all of
    them must project: the list of articles exists exactly when each item
    has a projection, and is then the list of these. *)
Theorem project_all_pointwise (items articles : list value) :
  project_all items [] = Return articles
  <-> Forall2 (fun item article => project_article item = Return article)
              items articles.
Proof.
  revert articles. induction items as [|item items IH]; intros articles.
  - cbn. split.
    + intros H. injection H as <-. constructor.
    + intros H. inversion H. reflexivity.
  - cbn [project_all]. unfold obind at 1. split.
    + destruct (project_article item) as [p|e] eqn:Hp; [|discriminate].
      rewrite project_all_acc. unfold obind.
      destruct (project_all items []) as [rest|e] eqn:Hrest; [|discriminate].
      intros H. injection H as <-. cbn. constructor; [exact Hp|].
      now apply IH.
    + intros H. inversion H as [|? a ? rest Hp Hrest]; subst.
      rewrite Hp. rewrite project_all_acc. apply IH in Hrest.
      rewrite Hrest. reflexivity.
Qed.

(** The status of every reply to a validated [/news] request: 200 exactly
    when the upstream answered with a success status and a body that
    decodes and projects; 500 for a success response whose body is not
    JSON, is not iterable or holds an item that does not project, and for
    any exception of the request that is not caught.  For an error
    response of the upstream and for a transport failure the handler logs
    first: the reply has the upstream's own status, or 502, when that
    logging call returns, and is a 500 when it raises, which it does where
    a database handler takes the record. *)
Theorem news_reply_status (X : Externals) (tag : string) (per_page : Z)
    (w : World) :
  1 <= per_page <= 30 ->
  exists reply,
    fst (news_route X (Some tag) (Some per_page) w) = Return reply
    /\ reply_status reply
       = expected_status
           (log_exception_outcome w main_logger)
           (http_get X (calls w ++ calls_before_get tag per_page)
              DEVTO_API_URL (news_params tag per_page)).
Proof.
  intros Hvalid.
  rewrite (news_route_valid X tag per_page w Hvalid).
  rewrite get_news_run. cbv zeta. unfold expected_status.
  destruct (http_get X _ DEVTO_API_URL (news_params tag per_page))
    as [status json|e].
  - destruct (is_success status).
    + destruct (decode_articles json) as [articles|e] eqn:Hdecode.
      * eexists. split; reflexivity.
      * destruct (decode_articles_raises _ _ Hdecode) as (c & m & ->).
        eexists. split; reflexivity.
    + unfold log_exception_outcome.
      destruct (targets w main_logger LogLevel.ERROR);
        eexists; split; reflexivity.
  - destruct e; try (eexists; split; reflexivity);
      (unfold log_exception_outcome;
       destruct (targets w main_logger LogLevel.ERROR);
       eexists; split; reflexivity).
Qed.

Lemma news_reply_status_witness :
  exists reply,
    fst (news_route (Sample.externals (VList [VDict [("user", VNone)]]))
           (Some "technology") (Some 5) (Sample.world ∅)) = Return reply
    /\ reply_status reply = 500.
Proof.
  destruct (news_reply_status (Sample.externals (VList [VDict [("user", VNone)]]))
              "technology" 5 (Sample.world ∅) ltac:(lia))
    as (reply & Hrun & Hstatus).
  exists reply. split; [exact Hrun|]. rewrite Hstatus. reflexivity.
Defined.


(** The span of [_fetch_articles] is started first and ended last, once
    each, whatever happens in between; it is ended without an error
    exactly when the upstream answered with a success status, so a body
    that fails to decode afterwards is not recorded on the span. *)
Theorem fetch_articles_span (X : Externals) (tag : string) (per_page : Z)
    (w : World) :
  exists inside error,
    new_calls w (snd (_fetch_articles X tag per_page w))
    = CallSpanStart span_name_fetch :: inside
      ++ [CallSpanEnd span_name_fetch error]
    /\ count_calls is_span_boundary inside = 0%nat
    /\ List.filter is_http_get inside
       = [CallHttpGet DEVTO_API_URL (news_params tag per_page) 10]
    /\ (error = None
        <-> exists status json,
              http_get X (calls w ++ tl (calls_before_get tag per_page))
                DEVTO_API_URL (news_params tag per_page)
              = HttpResponse status json
              /\ is_success status = true).
Proof.
  rewrite fetch_articles_run. cbv zeta.
  destruct (http_get X _ DEVTO_API_URL (news_params tag per_page))
    as [status json|e].
  - destruct (is_success status) eqn:Hs; cbn [snd].
    + exists [ CallSpanSetAttribute "http.method" (VStr "GET");
               CallSpanSetAttribute "http.url" (VStr DEVTO_API_URL);
               CallSpanSetAttribute "devto.tag" (VStr tag);
               CallSpanSetAttribute "devto.per_page" (VInt per_page);
               CallHttpGet DEVTO_API_URL (news_params tag per_page) 10;
               CallSpanSetAttribute "http.status_code" (VInt status) ], None.
      split; [apply new_calls_app; reflexivity|]. repeat split.
      intros _. exists status, json. now split.
    + exists [ CallSpanSetAttribute "http.method" (VStr "GET");
               CallSpanSetAttribute "http.url" (VStr DEVTO_API_URL);
               CallSpanSetAttribute "devto.tag" (VStr tag);
               CallSpanSetAttribute "devto.per_page" (VInt per_page);
               CallHttpGet DEVTO_API_URL (news_params tag per_page) 10;
               CallSpanSetAttribute "http.status_code" (VInt status) ],
        (Some (HTTPStatusError status "error response")).
      split; [apply new_calls_app; reflexivity|]. repeat split;
        try discriminate.
      intros (s & j & Heq & Hok). injection Heq as <- <-. congruence.
  - cbn [snd].
    exists [ CallSpanSetAttribute "http.method" (VStr "GET");
             CallSpanSetAttribute "http.url" (VStr DEVTO_API_URL);
             CallSpanSetAttribute "devto.tag" (VStr tag);
             CallSpanSetAttribute "devto.per_page" (VInt per_page);
             CallHttpGet DEVTO_API_URL (news_params tag per_page) 10 ],
      (Some e).
    split; [apply new_calls_app; reflexivity|]. repeat split;
      try discriminate.
    intros (s & j & Heq & _). discriminate Heq.
Qed.

